(** * libsuspend: the autosuspend engine of android_system_core

    A shallow embedding of [libsuspend/autosuspend.c],
    [libsuspend/autosuspend_earlysuspend.c] and
    [libsuspend/autosuspend_wakeup_count.c].

    The C statics become the fields of one [world] record, the answers of
    the kernel (system properties, sysfs nodes, semaphore and thread calls)
    are read from a [kernel] record, and every function runs in a small
    monad that threads the world, records the observable system calls in a
    trace and can block (a blocked call has no result yet). *)

From stdpp Require Import base strings list gmap.
From Stdlib Require Import ZArith Lia Ascii String.

Local Open Scope string_scope.
Local Open Scope list_scope.
Local Open Scope Z_scope.

(** ** Constants *)

(** [linux/input-event-codes.h] *)
Definition EV_SYN : Z := 0.
Definition EV_KEY : Z := 1.
Definition SYN_REPORT : Z := 0.
Definition KEY_POWER : Z := 116.
Definition KEY_WAKEUP : Z := 143.

(** [autosuspend_ops.h] and the [#define]s of the three files *)
Definition SYS_POWER_STATE : string := "/sys/power/state".
Definition SYS_POWER_WAKEUP_COUNT : string := "/sys/power/wakeup_count".
Definition EARLYSUSPEND_WAIT_FOR_FB_SLEEP : string := "/sys/power/wait_for_fb_sleep".
Definition EARLYSUSPEND_WAIT_FOR_FB_WAKE : string := "/sys/power/wait_for_fb_wake".
Definition MAX_POWERBTNS : nat := 3.

Definition default_sleep_state : string := "mem".
Definition fallback_sleep_state : string := "freeze".
Definition pwr_state_on : string := "on".

(** ** Data *)

(** [struct input_event], without the time stamp that [emit_key] zeroes.
    The type and the code are [__u16], the value is [__s32]. *)
Record input_event := InputEvent { ev_type : Z; ev_code : Z; ev_value : Z }.

(** The conversion of an [int] to [__u16], and the range of [int] and
    [__s32]: a number outside it is taken modulo 2^32. *)
Definition to_u16 (z : Z) : Z := z mod 65536.
Definition to_s32 (z : Z) : Z := (z + 2147483648) mod 4294967296 - 2147483648.

(** The two [struct autosuspend_ops] tables a pointer can select. *)
Inductive backend := EarlySuspend | WakeupCount.

(** [earlysuspend_state] *)
Inductive earlysuspend_st := EARLYSUSPEND_ON | EARLYSUSPEND_MEM.

(** The threads the engine spawns. *)
Inductive thread := earlysuspend_thread | suspend_thread | powerbtnd_thread.

Inductive oflag := O_RDONLY | O_WRONLY | O_RDWR.

(** One entry of [/dev/input] as [openfds] sees it: the entry's name, the
    descriptor [open] returns (if any) and the device name [EVIOCGNAME]
    reports (if any). *)
Record input_node := InputNode {
  d_name : string;
  node_fd : Z;                            (* open(): negative on failure *)
  node_name : option string               (* EVIOCGNAME: None when it returns < 1 *)
}.

(** What the kernel and libc answer while one call or one step runs, and
    what the memory a call does not initialise happens to hold. *)
Record kernel := Kernel {
  props : gmap string string;             (* Android system properties *)
  open_fd : string → oflag → Z;           (* open(path, flag): negative on failure *)
  read_result : string → option string;   (* read() on a descriptor of path *)
  write_ok : string → string → bool;      (* write(path, data) >= 0 *)
  access_ok : string → bool;              (* access(path, F_OK) == 0 *)
  sem_init_ok : bool;
  sem_post_ok : bool;
  sem_wait_ok : bool;
  pthread_create_ok : thread → bool;
  dev_input : option (list input_node);   (* opendir + readdir of /dev/input *)
  pthread_handle : thread → Z;            (* what pthread_create leaves in the pthread_t *)
  stack_bytes : string                    (* the stack from buf[] of sleep_state_available on; NUL behind *)
}.

(** A wakeup callback is a function pointer; it is identified by a number. *)
Definition callback := nat.

(** The observable system calls. A [Read] or a [Write] names the node its
    descriptor was opened on: [sPowerStatefd] and [state_fd] are opened on
    the power-state node and [wakeup_count_fd] on the counter by the
    initialisation that selects their backend, before any function that
    uses them can run. *)
Inductive action :=
| UinputWrite (fd : Z) (ev : input_event)
| Sleep (seconds : nat)
| Usleep (usec : Z)
| Open (path : string) (flag : oflag) (fd : Z)
| Read (path : string)
| Write (path : string) (data : string)
| Access (path : string)
| Close (fd : Z)
| Opendir (path : string)
| Closedir (path : string)
| UinputCreate (fd : Z) (name : string) (keys : list Z)
| SemInit
| SemDestroy
| SemWait
| SemPost
| PthreadCreate (t : thread)
| Call (cb : callback) (success : bool).

Global Instance input_event_eq_dec : EqDecision input_event.
Proof. solve_decision. Defined.
Global Instance backend_eq_dec : EqDecision backend.
Proof. solve_decision. Defined.
Global Instance earlysuspend_st_eq_dec : EqDecision earlysuspend_st.
Proof. solve_decision. Defined.
Global Instance thread_eq_dec : EqDecision thread.
Proof. solve_decision. Defined.
Global Instance oflag_eq_dec : EqDecision oflag.
Proof. solve_decision. Defined.
Global Instance action_eq_dec : EqDecision action.
Proof. solve_decision. Defined.

(** The statics of the three files. A static [int] or [pthread_t] without
    initialiser starts at zero. The mutex and the condition variable of the
    early-suspend file are not fields: all they do is make a caller wait,
    which is the blocking of [wait_for_state]. *)
Record world := World {
  (* autosuspend.c *)
  autosuspend_ops : option backend;
  autosuspend_enabled : bool;
  autosuspend_inited : bool;
  sleep_state : string;                   (* the static buffer of get_sleep_state *)
  (* autosuspend_earlysuspend.c *)
  sPowerStatefd : Z;
  earlysuspend_thread_handle : Z;         (* the pthread_t earlysuspend_thread *)
  wait_for_earlysuspend : bool;
  earlysuspend_state : earlysuspend_st;
  (* autosuspend_wakeup_count.c *)
  uinput_fd : Z;
  state_fd : Z;
  wakeup_count_fd : Z;
  suspend_thread_handle : Z;              (* the pthread_t suspend_thread *)
  suspend_lockout : nat;                  (* the value of the semaphore *)
  wakeup_func : option callback;
  powerbtnd_thread_handle : Z             (* the static pthread_t of init_android_power_button *)
}.

(** The statics as the C initialisers leave them. *)
Definition boot : world :=
  {| autosuspend_ops := None;
     autosuspend_enabled := false;
     autosuspend_inited := false;
     sleep_state := "";
     sPowerStatefd := 0;
     earlysuspend_thread_handle := 0;
     wait_for_earlysuspend := false;
     earlysuspend_state := EARLYSUSPEND_ON;
     uinput_fd := -1;
     state_fd := 0;
     wakeup_count_fd := 0;
     suspend_thread_handle := 0;
     suspend_lockout := 0%nat;
     wakeup_func := None;
     powerbtnd_thread_handle := 0 |}.

Definition set_autosuspend_ops (v : option backend) (w : world) : world :=
  World v (autosuspend_enabled w) (autosuspend_inited w) (sleep_state w)
    (sPowerStatefd w) (earlysuspend_thread_handle w)
    (wait_for_earlysuspend w) (earlysuspend_state w) (uinput_fd w)
    (state_fd w) (wakeup_count_fd w) (suspend_thread_handle w)
    (suspend_lockout w) (wakeup_func w) (powerbtnd_thread_handle w).

Definition set_autosuspend_enabled (v : bool) (w : world) : world :=
  World (autosuspend_ops w) v (autosuspend_inited w) (sleep_state w)
    (sPowerStatefd w) (earlysuspend_thread_handle w)
    (wait_for_earlysuspend w) (earlysuspend_state w) (uinput_fd w)
    (state_fd w) (wakeup_count_fd w) (suspend_thread_handle w)
    (suspend_lockout w) (wakeup_func w) (powerbtnd_thread_handle w).

Definition set_autosuspend_inited (v : bool) (w : world) : world :=
  World (autosuspend_ops w) (autosuspend_enabled w) v (sleep_state w)
    (sPowerStatefd w) (earlysuspend_thread_handle w)
    (wait_for_earlysuspend w) (earlysuspend_state w) (uinput_fd w)
    (state_fd w) (wakeup_count_fd w) (suspend_thread_handle w)
    (suspend_lockout w) (wakeup_func w) (powerbtnd_thread_handle w).

Definition set_sleep_state (v : string) (w : world) : world :=
  World (autosuspend_ops w) (autosuspend_enabled w) (autosuspend_inited w) v
    (sPowerStatefd w) (earlysuspend_thread_handle w)
    (wait_for_earlysuspend w) (earlysuspend_state w) (uinput_fd w)
    (state_fd w) (wakeup_count_fd w) (suspend_thread_handle w)
    (suspend_lockout w) (wakeup_func w) (powerbtnd_thread_handle w).

Definition set_sPowerStatefd (v : Z) (w : world) : world :=
  World (autosuspend_ops w) (autosuspend_enabled w) (autosuspend_inited w)
    (sleep_state w) v (earlysuspend_thread_handle w)
    (wait_for_earlysuspend w) (earlysuspend_state w) (uinput_fd w)
    (state_fd w) (wakeup_count_fd w) (suspend_thread_handle w)
    (suspend_lockout w) (wakeup_func w) (powerbtnd_thread_handle w).

Definition set_earlysuspend_thread_handle (v : Z) (w : world) : world :=
  World (autosuspend_ops w) (autosuspend_enabled w) (autosuspend_inited w)
    (sleep_state w) (sPowerStatefd w) v (wait_for_earlysuspend w)
    (earlysuspend_state w) (uinput_fd w) (state_fd w) (wakeup_count_fd w)
    (suspend_thread_handle w) (suspend_lockout w) (wakeup_func w)
    (powerbtnd_thread_handle w).

Definition set_wait_for_earlysuspend (v : bool) (w : world) : world :=
  World (autosuspend_ops w) (autosuspend_enabled w) (autosuspend_inited w)
    (sleep_state w) (sPowerStatefd w) (earlysuspend_thread_handle w) v
    (earlysuspend_state w) (uinput_fd w) (state_fd w) (wakeup_count_fd w)
    (suspend_thread_handle w) (suspend_lockout w) (wakeup_func w)
    (powerbtnd_thread_handle w).

Definition set_earlysuspend_state (v : earlysuspend_st) (w : world) : world :=
  World (autosuspend_ops w) (autosuspend_enabled w) (autosuspend_inited w)
    (sleep_state w) (sPowerStatefd w) (earlysuspend_thread_handle w)
    (wait_for_earlysuspend w) v (uinput_fd w) (state_fd w)
    (wakeup_count_fd w) (suspend_thread_handle w) (suspend_lockout w)
    (wakeup_func w) (powerbtnd_thread_handle w).

Definition set_uinput_fd (v : Z) (w : world) : world :=
  World (autosuspend_ops w) (autosuspend_enabled w) (autosuspend_inited w)
    (sleep_state w) (sPowerStatefd w) (earlysuspend_thread_handle w)
    (wait_for_earlysuspend w) (earlysuspend_state w) v (state_fd w)
    (wakeup_count_fd w) (suspend_thread_handle w) (suspend_lockout w)
    (wakeup_func w) (powerbtnd_thread_handle w).

Definition set_state_fd (v : Z) (w : world) : world :=
  World (autosuspend_ops w) (autosuspend_enabled w) (autosuspend_inited w)
    (sleep_state w) (sPowerStatefd w) (earlysuspend_thread_handle w)
    (wait_for_earlysuspend w) (earlysuspend_state w) (uinput_fd w) v
    (wakeup_count_fd w) (suspend_thread_handle w) (suspend_lockout w)
    (wakeup_func w) (powerbtnd_thread_handle w).

Definition set_wakeup_count_fd (v : Z) (w : world) : world :=
  World (autosuspend_ops w) (autosuspend_enabled w) (autosuspend_inited w)
    (sleep_state w) (sPowerStatefd w) (earlysuspend_thread_handle w)
    (wait_for_earlysuspend w) (earlysuspend_state w) (uinput_fd w)
    (state_fd w) v (suspend_thread_handle w) (suspend_lockout w)
    (wakeup_func w) (powerbtnd_thread_handle w).

Definition set_suspend_thread_handle (v : Z) (w : world) : world :=
  World (autosuspend_ops w) (autosuspend_enabled w) (autosuspend_inited w)
    (sleep_state w) (sPowerStatefd w) (earlysuspend_thread_handle w)
    (wait_for_earlysuspend w) (earlysuspend_state w) (uinput_fd w)
    (state_fd w) (wakeup_count_fd w) v (suspend_lockout w) (wakeup_func w)
    (powerbtnd_thread_handle w).

Definition set_suspend_lockout (v : nat) (w : world) : world :=
  World (autosuspend_ops w) (autosuspend_enabled w) (autosuspend_inited w)
    (sleep_state w) (sPowerStatefd w) (earlysuspend_thread_handle w)
    (wait_for_earlysuspend w) (earlysuspend_state w) (uinput_fd w)
    (state_fd w) (wakeup_count_fd w) (suspend_thread_handle w) v
    (wakeup_func w) (powerbtnd_thread_handle w).

Definition set_wakeup_func (v : option callback) (w : world) : world :=
  World (autosuspend_ops w) (autosuspend_enabled w) (autosuspend_inited w)
    (sleep_state w) (sPowerStatefd w) (earlysuspend_thread_handle w)
    (wait_for_earlysuspend w) (earlysuspend_state w) (uinput_fd w)
    (state_fd w) (wakeup_count_fd w) (suspend_thread_handle w)
    (suspend_lockout w) v (powerbtnd_thread_handle w).

Definition set_powerbtnd_thread_handle (v : Z) (w : world) : world :=
  World (autosuspend_ops w) (autosuspend_enabled w) (autosuspend_inited w)
    (sleep_state w) (sPowerStatefd w) (earlysuspend_thread_handle w)
    (wait_for_earlysuspend w) (earlysuspend_state w) (uinput_fd w)
    (state_fd w) (wakeup_count_fd w) (suspend_thread_handle w)
    (suspend_lockout w) (wakeup_func w) v.

(** ** The monad: state, trace, blocking *)

Definition M (A : Type) : Type := world → option (A * world * list action).

Definition ret {A} (a : A) : M A := λ w, Some (a, w, []).
Definition bind {A B} (m : M A) (f : A → M B) : M B :=
  λ w, match m w with
       | None => None
       | Some (a, w1, t1) =>
           match f a w1 with
           | None => None
           | Some (b, w2, t2) => Some (b, w2, t1 ++ t2)
           end
       end.
Definition emit (a : action) : M unit := λ w, Some (tt, w, [a]).
Definition gets {A} (f : world → A) : M A := λ w, Some (f w, w, []).
Definition modify (f : world → world) : M unit := λ w, Some (tt, f w, []).
(** A call that cannot return in the current state of the world. *)
Definition blocked {A} : M A := λ _, None.

Declare Scope m_scope.
Delimit Scope m_scope with M.
Notation "'let*' x ':=' m 'in' k" := (bind m (λ x, k))
  (at level 10, x pattern, m at level 100, k at level 200) : m_scope.
Notation "m '>>' k" := (bind m (λ _, k))
  (at level 100, k at level 200, right associativity) : m_scope.
Local Open Scope m_scope.

(** The trace of a run; a blocked run has made no call that returned. *)
Definition trace_of {A} (r : option (A * world * list action)) : list action :=
  match r with Some (_, _, t) => t | None => [] end.

(** ** autosuspend_wakeup_count.c: key synthesis *)

Definition emit_key (ufd : Z) (key_code val : Z) : M unit :=
  emit (UinputWrite ufd (InputEvent EV_KEY (to_u16 key_code) (to_s32 val))) >>
  emit (UinputWrite ufd (InputEvent EV_SYN SYN_REPORT 0)).

Definition send_key_wakeup (ufd : Z) : M unit :=
  emit_key ufd KEY_WAKEUP 1 >>
  emit_key ufd KEY_WAKEUP 0.

Definition send_key_power (ufd : Z) (longpress : bool) : M unit :=
  emit_key ufd KEY_POWER 1 >>
  (if longpress then emit (Sleep 2) else ret tt) >>
  emit_key ufd KEY_POWER 0.

(** ** System properties *)

(** Modelled from the spec: [property_get] of libcutils is not under src/.
    It copies the value of the property into the caller's buffer and
    returns its length; an unset or empty property yields the default
    when one is given, and the empty string with length 0 otherwise. *)
Definition property_get (k : kernel) (key : string) (default_value : option string)
  : Z * string :=
  let dflt := match default_value with
              | Some d => (Z.of_nat (String.length d), d)
              | None => (0, "")
              end in
  match props k !! key with
  | Some v => if decide (v = "") then dflt else (Z.of_nat (String.length v), v)
  | None => dflt
  end.

(** Modelled from the spec: [property_get_bool] of libcutils is not under
    src/. It recognises the usual spellings of true and false and returns
    the default for anything else. *)
Definition property_get_bool (k : kernel) (key : string) (default_value : bool) : bool :=
  match props k !! key with
  | Some v =>
      if bool_decide (v ∈ ["1"; "y"; "yes"; "on"; "true"]) then true
      else if bool_decide (v ∈ ["0"; "n"; "no"; "off"; "false"]) then false
      else default_value
  | None => default_value
  end.

(** ** C strings *)

(** [strstr(haystack, needle) != NULL] *)
Fixpoint strstr (haystack needle : string) : bool :=
  String.prefix needle haystack ||
  match haystack with
  | EmptyString => false
  | String _ rest => strstr rest needle
  end.

(** The C string that starts at an address: the bytes up to the first
    NUL. *)
Fixpoint c_string (bytes : string) : string :=
  match bytes with
  | EmptyString => ""
  | String c rest =>
      if Ascii.eqb c "000"%char then "" else String c (c_string rest)
  end.

(** The bytes from offset [n] on. *)
Fixpoint skip_bytes (n : nat) (bytes : string) : string :=
  match n, bytes with
  | O, _ => bytes
  | S n', String _ rest => skip_bytes n' rest
  | S _, EmptyString => ""
  end.

(** The memory from [buf] on after [read(fd, buf, sz)], where the memory
    before the call is [stale] followed by NUL bytes: a [read] that
    succeeds lays at most [sz] bytes over the beginning, one that fails
    changes nothing, and neither writes a NUL. *)
Definition read_buf (sz : nat) (r : option string) (stale : string) : string :=
  match r with
  | Some s =>
      let got := String.substring 0 sz s in
      got +:+ skip_bytes (String.length got) stale
  | None => stale
  end.

(** ** autosuspend.c: the sleep state *)

(** [buf] is not initialised, the result of [read] is not looked at and
    no NUL is written: [strstr] scans the bytes read and then whatever the
    stack held behind them, up to the first NUL. *)
Definition sleep_state_available (k : kernel) (state : string) : M bool :=
  let fd := open_fd k SYS_POWER_STATE O_RDONLY in
  emit (Open SYS_POWER_STATE O_RDONLY fd) >>
  if fd <? 0 then ret false
  else
    emit (Read SYS_POWER_STATE) >>
    emit (Close fd) >>
    let buf := read_buf 64 (read_result k SYS_POWER_STATE) (stack_bytes k) in
    ret (strstr (c_string buf) state).

Definition get_sleep_state (k : kernel) : M string :=
  let* cached := gets sleep_state in
  if decide (cached = "") then
    let '(len, value) := property_get k "sleep.state" None in
    modify (set_sleep_state value) >>
    (if 0 <? len then ret tt
     else
       let* available := sleep_state_available k default_sleep_state in
       if available then modify (set_sleep_state default_sleep_state)
       else modify (set_sleep_state fallback_sleep_state)) >>
    gets sleep_state
  else gets sleep_state.

(** ** autosuspend_earlysuspend.c *)

(** [open_file(file, buf, sz, fd)]: the pointer [fd] is NULL or the
    address of a static, given by the function that writes that static.
    A failed [open] is caught by the [read] on the invalid descriptor. *)
Definition open_file (k : kernel) (file : string) (sz : nat)
    (fd : option (Z → world → world)) : M Z :=
  let flag := match fd with Some _ => O_RDWR | None => O_RDONLY end in
  let f := open_fd k file flag in
  emit (Open file flag f) >>
  emit (Read file) >>
  let err := if f <? 0 then -1
             else match read_result k file with Some _ => 0 | None => -1 end in
  match fd with
  | None => emit (Close f)
  | Some store => modify (store f)
  end >>
  ret err.

Definition wait_for_fb_wake (k : kernel) : M Z :=
  open_file k EARLYSUSPEND_WAIT_FOR_FB_WAKE 1 None.

Definition wait_for_fb_sleep (k : kernel) : M Z :=
  open_file k EARLYSUSPEND_WAIT_FOR_FB_SLEEP 1 None.

(** [pthread_create(&handle, NULL, func, NULL)]: the [pthread_t] holds what
    the library leaves in it, also when the call fails. *)
Definition pthread_create (k : kernel) (store : Z → world → world) (t : thread)
  : M bool :=
  emit (PthreadCreate t) >>
  modify (store (pthread_handle k t)) >>
  ret (pthread_create_ok k t).

(** [pthread_cond_wait] in a loop until the state is [target]: the caller
    stays blocked while the monitor thread has not set it. *)
Definition wait_for_state (target : earlysuspend_st) : M unit :=
  let* cur := gets earlysuspend_state in
  if decide (cur = target) then ret tt else blocked.

Definition autosuspend_earlysuspend_enable (k : kernel) : M Z :=
  let* state := get_sleep_state k in
  emit (Write SYS_POWER_STATE state) >>
  if negb (write_ok k SYS_POWER_STATE state) then ret (-1)
  else
    let* wait := gets wait_for_earlysuspend in
    (if wait then wait_for_state EARLYSUSPEND_MEM else ret tt) >>
    ret 0.

Definition autosuspend_earlysuspend_disable (k : kernel) : M Z :=
  emit (Write SYS_POWER_STATE pwr_state_on) >>
  let* wait := gets wait_for_earlysuspend in
  (if wait then wait_for_state EARLYSUSPEND_ON else ret tt) >>
  ret 0.

(** Where the monitor thread stands: in the read that returns when the
    framebuffer goes to sleep, in the one that returns when it wakes, or
    gone after a failed read. *)
Inductive monitor_pc := InFbSleepWait | InFbWakeWait | MonitorExited.

(** One blocking read of [earlysuspend_thread_func] and the update of the
    state that follows it. *)
Definition earlysuspend_thread_step (k : kernel) (pc : monitor_pc) : M monitor_pc :=
  match pc with
  | InFbSleepWait =>
      let* r := wait_for_fb_sleep k in
      if negb (r =? 0) then ret MonitorExited
      else modify (set_earlysuspend_state EARLYSUSPEND_MEM) >> ret InFbWakeWait
  | InFbWakeWait =>
      let* r := wait_for_fb_wake k in
      if negb (r =? 0) then ret MonitorExited
      else modify (set_earlysuspend_state EARLYSUSPEND_ON) >> ret InFbSleepWait
  | MonitorExited => ret MonitorExited
  end.

Definition start_earlysuspend_thread (k : kernel) : M unit :=
  emit (Access EARLYSUSPEND_WAIT_FOR_FB_SLEEP) >>
  if negb (access_ok k EARLYSUSPEND_WAIT_FOR_FB_SLEEP) then ret tt
  else
    emit (Access EARLYSUSPEND_WAIT_FOR_FB_WAKE) >>
    if negb (access_ok k EARLYSUSPEND_WAIT_FOR_FB_WAKE) then ret tt
    else
      wait_for_fb_wake k >>
      let* created :=
        pthread_create k set_earlysuspend_thread_handle earlysuspend_thread in
      if negb created then ret tt
      else modify (set_wait_for_earlysuspend true).

Definition autosuspend_earlysuspend_init (k : kernel) : M (option backend) :=
  let* r := open_file k SYS_POWER_STATE 128 (Some set_sPowerStatefd) in
  if r <? 0 then
    let* fd := gets sPowerStatefd in
    emit (Close fd) >> ret None
  else
    start_earlysuspend_thread k >> ret (Some EarlySuspend).

(** ** autosuspend_wakeup_count.c: the power-button monitor *)

Definition first_char_is (c : ascii) (s : string) : bool :=
  match s with
  | String c' _ => bool_decide (c' = c)
  | EmptyString => false
  end.

(** The [while] loop of [openfds] over the remaining directory entries;
    [pfds] holds the descriptors kept so far, so [cnt] is its length. The
    devices are opened [O_RDWR | O_NONBLOCK]. *)
Fixpoint openfds_scan (entries : list input_node) (pfds : list Z) : M (list Z) :=
  match entries with
  | [] => ret pfds
  | de :: rest =>
      if bool_decide (List.length pfds < MAX_POWERBTNS)%nat then
        if negb (first_char_is "e"%char (d_name de)) then openfds_scan rest pfds
        else
          let fd := node_fd de in
          emit (Open ("/dev/input/" +:+ d_name de) O_RDWR fd) >>
          if fd <? 0 then openfds_scan rest pfds
          else
            let name := match node_name de with Some n => n | None => "" end in
            if negb (String.eqb name "Power Button") then
              emit (Close fd) >> openfds_scan rest pfds
            else openfds_scan rest (pfds ++ [fd])
      else ret pfds
  end.

Definition openfds (k : kernel) : M (list Z) :=
  emit (Opendir "/dev/input") >>
  match dev_input k with
  | Some entries =>
      let* pfds := openfds_scan entries [] in
      emit (Closedir "/dev/input") >> ret pfds
  | None => ret []
  end.

(** What one iteration finds on [pfds[i]]: no [POLLIN]; a [read] of fewer
    bytes than a [struct input_event]; a whole event; or a [read] that
    fails. The result of [read] is kept in a [size_t], so the -1 of a
    failed [read] is not less than the size of an event: the code goes on
    with what the uninitialised [iev] holds, [stale]. *)
Inductive fd_result :=
| NotReady
| ShortRead
| Event (iev : input_event)
| ReadFailed (stale : input_event).

(** The return value of [poll] and, when positive, the state of each
    descriptor. *)
Inductive poll_result := PollError | PollTimeout | PollReady (fds : list fd_result).

(** The locals [timeout] and [longpress] of [powerbtnd_thread_func]. *)
Record btn_state := BtnState { timeout : Z; longpress : bool }.

Definition is_power_release (iev : input_event) : bool :=
  (ev_type iev =? EV_KEY) && (ev_code iev =? KEY_POWER) && (ev_value iev =? 0).

Definition is_resume (iev : input_event) : bool :=
  (ev_type iev =? EV_SYN) && (ev_code iev =? SYN_REPORT) && negb (ev_value iev =? 0).

(** What [iev] holds when the test of the size lets the code go on. *)
Definition event_handled (r : fd_result) : option input_event :=
  match r with
  | NotReady | ShortRead => None
  | Event iev => Some iev
  | ReadFailed stale => Some stale
  end.

(** The body of the [for] loop for one descriptor. *)
Definition handle_fd (doubleclick : bool) (st : btn_state) (r : fd_result)
  : M btn_state :=
  match event_handled r with
  | None => ret st
  | Some iev =>
      if is_power_release iev then
        if negb doubleclick || (0 <? timeout st) then
          let* ufd := gets uinput_fd in
          send_key_power ufd (longpress st) >>
          ret (BtnState (-1) (longpress st))
        else ret (BtnState 1000 (longpress st))
      else if is_resume iev then ret (BtnState 1000 false)
      else ret st
  end.

Fixpoint handle_fds (doubleclick : bool) (st : btn_state) (rs : list fd_result)
  : M btn_state :=
  match rs with
  | [] => ret st
  | r :: rest =>
      let* st' := handle_fd doubleclick st r in
      handle_fds doubleclick st' rest
  end.

(** One pass through the [while] loop, given what [poll] returned; [None]
    when the loop condition fails and the thread returns. *)
Definition powerbtnd_iteration (doubleclick : bool) (cnt : nat) (p : poll_result)
    (st : btn_state) : M (option btn_state) :=
  if bool_decide (cnt = 0%nat) then ret None
  else
    match p with
    | PollError => ret None
    | PollTimeout =>
        let* ufd := gets uinput_fd in
        send_key_power ufd false >>
        ret (Some (BtnState (-1) true))
    | PollReady fds =>
        let* st' := handle_fds doubleclick st (take cnt fds) in
        ret (Some st')
    end.

(** Whether the thread is inside [poll] or has returned. *)
Inductive thread_status := Polling | Returned.

(** The loop over the successive answers of [poll]; when the answers run
    out the thread is inside [poll], unless there is no descriptor at all
    and the loop condition has failed before any [poll]. *)
Fixpoint powerbtnd_loop (doubleclick : bool) (cnt : nat) (polls : list poll_result)
    (st : btn_state) : M (btn_state * thread_status) :=
  match polls with
  | [] => ret (st, if bool_decide (cnt = 0%nat) then Returned else Polling)
  | p :: rest =>
      let* next := powerbtnd_iteration doubleclick cnt p st in
      match next with
      | Some st' => powerbtnd_loop doubleclick cnt rest st'
      | None => ret (st, Returned)
      end
  end.

Definition powerbtnd_thread_func (k : kernel) (polls : list poll_result)
  : M (btn_state * thread_status) :=
  let doubleclick := property_get_bool k "poweroff.doubleclick" false in
  let* pfds := openfds k in
  powerbtnd_loop doubleclick (List.length pfds) polls (BtnState (-1) true).

Definition init_android_power_button (k : kernel) : M unit :=
  let* cur := gets uinput_fd in
  if 0 <=? cur then ret tt
  else
    let fd := open_fd k "/dev/uinput" O_WRONLY in
    emit (Open "/dev/uinput" O_WRONLY fd) >>
    modify (set_uinput_fd fd) >>
    if fd <? 0 then ret tt
    else
      emit (UinputCreate fd "Android Power Button" [KEY_POWER; KEY_WAKEUP]) >>
      pthread_create k set_powerbtnd_thread_handle powerbtnd_thread >>
      ret tt.

(** ** autosuspend_wakeup_count.c: the suspend loop *)

(** [sem_wait]: an error leaves the semaphore alone; otherwise the caller
    takes a permit, and stays blocked while there is none. *)
Definition sem_wait (k : kernel) : M Z :=
  emit SemWait >>
  if negb (sem_wait_ok k) then ret (-1)
  else
    let* n := gets suspend_lockout in
    match n with
    | O => blocked
    | S n' => modify (set_suspend_lockout n') >> ret 0
    end.

(** [sem_post]: an error leaves the semaphore alone. *)
Definition sem_post (k : kernel) : M Z :=
  emit SemPost >>
  if negb (sem_post_ok k) then ret (-1)
  else modify (λ w, set_suspend_lockout (S (suspend_lockout w)) w) >> ret 0.

(** Where the suspend thread stands between two system calls. *)
Inductive loop_pc :=
| AtRead                            (* usleep, lseek, read of the counter *)
| AtSemWait (wakeup_count : string) (* sem_wait *)
| AtCommit (wakeup_count : string)  (* write of the token to the counter *)
| AtSuspend                         (* write of the sleep state, key, callback *)
| AtSemPost.                        (* sem_post *)

Global Instance loop_pc_eq_dec : EqDecision loop_pc.
Proof. solve_decision. Defined.

(** One system call of [suspend_thread_func] and the code up to the next. *)
Definition suspend_thread_step (k : kernel) (pc : loop_pc) : M loop_pc :=
  match pc with
  | AtRead =>
      emit (Usleep 100000) >>
      emit (Read SYS_POWER_WAKEUP_COUNT) >>
      match read_result k SYS_POWER_WAKEUP_COUNT with
      | None => ret AtRead
      | Some s =>
          let wakeup_count := String.substring 0 20 s in
          if decide (wakeup_count = "") then ret AtRead
          else ret (AtSemWait wakeup_count)
      end
  | AtSemWait wakeup_count =>
      let* r := sem_wait k in
      if r <? 0 then ret AtRead else ret (AtCommit wakeup_count)
  | AtCommit wakeup_count =>
      emit (Write SYS_POWER_WAKEUP_COUNT wakeup_count) >>
      if negb (write_ok k SYS_POWER_WAKEUP_COUNT wakeup_count) then ret AtSemPost
      else ret AtSuspend
  | AtSuspend =>
      let* state := get_sleep_state k in
      emit (Write SYS_POWER_STATE state) >>
      let success := write_ok k SYS_POWER_STATE state in
      (if success then let* ufd := gets uinput_fd in send_key_wakeup ufd
       else ret tt) >>
      let* func := gets wakeup_func in
      match func with
      | Some cb => emit (Call cb success)
      | None => ret tt
      end >>
      ret AtSemPost
  | AtSemPost =>
      sem_post k >> ret AtRead
  end.

(** The steps of one pass through the [while (1)] body, from a given
    point until the thread is back at the top of the loop; [ks] holds the
    kernel's answers for the successive system calls. *)
Fixpoint run_to_top (ks : list kernel) (pc : loop_pc) : M unit :=
  match ks with
  | [] => ret tt
  | k :: ks' =>
      let* pc' := suspend_thread_step k pc in
      match pc' with
      | AtRead => ret tt
      | _ => run_to_top ks' pc'
      end
  end.

(** One whole pass, the kernel answering from [k] throughout. *)
Definition suspend_cycle (k : kernel) : M unit := run_to_top [k; k; k; k; k] AtRead.

Definition autosuspend_wakeup_count_enable (k : kernel) : M Z := sem_post k.

Definition autosuspend_wakeup_count_disable (k : kernel) : M Z := sem_wait k.

Definition set_wakeup_callback (func : option callback) : M unit :=
  let* cur := gets wakeup_func in
  match cur with
  | Some _ => ret tt
  | None => modify (set_wakeup_func func)
  end.

Definition autosuspend_wakeup_count_init (k : kernel) : M (option backend) :=
  let close_static (fd : world → Z) : M unit :=
    let* f := gets fd in emit (Close f) in
  init_android_power_button k >>
  let sfd := open_fd k SYS_POWER_STATE O_RDWR in
  emit (Open SYS_POWER_STATE O_RDWR sfd) >>
  modify (set_state_fd sfd) >>
  if sfd <? 0 then ret None
  else
    let wfd := open_fd k SYS_POWER_WAKEUP_COUNT O_RDWR in
    emit (Open SYS_POWER_WAKEUP_COUNT O_RDWR wfd) >>
    modify (set_wakeup_count_fd wfd) >>
    if wfd <? 0 then close_static state_fd >> ret None
    else
      emit SemInit >>
      if negb (sem_init_ok k) then
        close_static wakeup_count_fd >> close_static state_fd >> ret None
      else
        modify (set_suspend_lockout 0) >>
        let* created := pthread_create k set_suspend_thread_handle suspend_thread in
        if negb created then
          emit SemDestroy >> close_static wakeup_count_fd >>
          close_static state_fd >> ret None
        else ret (Some WakeupCount).

(** ** autosuspend.c: the controller *)

(** The probing sequence of [autosuspend_init], after the [inited] test. *)
Definition autosuspend_probe (k : kernel) : M Z :=
  let out := modify (set_autosuspend_inited true) >> ret 0 in
  let '(_, buf) := property_get k "sleep.earlysuspend" (Some "1") in
  (if first_char_is "1"%char buf then
     let* ops := autosuspend_earlysuspend_init k in
     modify (set_autosuspend_ops ops)
   else ret tt) >>
  let* ops := gets autosuspend_ops in
  match ops with
  | Some _ => out
  | None =>
      let* ops := autosuspend_wakeup_count_init k in
      modify (set_autosuspend_ops ops) >>
      match ops with
      | Some _ => out
      | None => ret (-1)
      end
  end.

Definition autosuspend_init (k : kernel) : M Z :=
  let* inited := gets autosuspend_inited in
  if inited then ret 0 else autosuspend_probe k.

(** The calls through the [autosuspend_ops] pointer. A call through a
    NULL pointer has no result. *)
Definition ops_enable (k : kernel) : M Z :=
  let* ops := gets autosuspend_ops in
  match ops with
  | Some EarlySuspend => autosuspend_earlysuspend_enable k
  | Some WakeupCount => autosuspend_wakeup_count_enable k
  | None => blocked
  end.

Definition ops_disable (k : kernel) : M Z :=
  let* ops := gets autosuspend_ops in
  match ops with
  | Some EarlySuspend => autosuspend_earlysuspend_disable k
  | Some WakeupCount => autosuspend_wakeup_count_disable k
  | None => blocked
  end.

Definition autosuspend_enable (k : kernel) : M Z :=
  let* r := autosuspend_init k in
  if negb (r =? 0) then ret r
  else
    let* enabled := gets autosuspend_enabled in
    if enabled then ret 0
    else
      let* r := ops_enable k in
      if negb (r =? 0) then ret r
      else modify (set_autosuspend_enabled true) >> ret 0.

Definition autosuspend_disable (k : kernel) : M Z :=
  let* r := autosuspend_init k in
  if negb (r =? 0) then ret r
  else
    let* enabled := gets autosuspend_enabled in
    if negb enabled then ret 0
    else
      let* r := ops_disable k in
      if negb (r =? 0) then ret r
      else modify (set_autosuspend_enabled false) >> ret 0.


(** ** Definitions used by the statements *)

Definition key_edge (ufd key_code val : Z) : list action :=
  [UinputWrite ufd (InputEvent EV_KEY key_code val);
   UinputWrite ufd (InputEvent EV_SYN SYN_REPORT 0)].

(** The explicit override: the property [sleep.state] when it is set and
    not empty. *)
Definition override_property (k : kernel) : option string :=
  match props k !! "sleep.state" with
  | Some v => if decide (v = "") then None else Some v
  | None => None
  end.

(** What the probe of the power-state node for [state] finds. *)
Definition probe_finds (k : kernel) (state : string) : bool :=
  (0 <=? open_fd k SYS_POWER_STATE O_RDONLY)
  && strstr (c_string (read_buf 64 (read_result k SYS_POWER_STATE) (stack_bytes k)))
       state.

(** The sleep state a call resolves when nothing is cached. *)
Definition resolved_sleep_state (k : kernel) : string :=
  match override_property k with
  | Some v => v
  | None => if probe_finds k "mem" then "mem" else "freeze"
  end.

(** [needle] occurs in [haystack]. *)
Definition occurs_in (needle haystack : string) : Prop :=
  ∃ before after, haystack = before +:+ needle +:+ after.

(** The kernel reports a sleep state as available: the power-state node
    opens, reads, and what it reads names the state. *)
Definition kernel_reports (k : kernel) (state : string) : Prop :=
  0 <= open_fd k SYS_POWER_STATE O_RDONLY
  ∧ ∃ s, read_result k SYS_POWER_STATE = Some s ∧ occurs_in state s.

(** The precedence in the words of the specification: the explicit
    override property, else "mem" when the kernel reports it available,
    else "freeze". *)
Definition sleep_state_precedence : Prop :=
  ∀ (k : kernel) (state : string) (w' : world) (t : list action),
    get_sleep_state k boot = Some (state, w', t) →
    match override_property k with
    | Some v => state = v
    | None =>
        (kernel_reports k "mem" → state = "mem")
        ∧ (¬ kernel_reports k "mem" → state = "freeze")
    end.

(** The line feed that ends the content of a sysfs node. *)
Definition LF : string := String "010"%char "".

(** A kernel without the state "mem": the power-state node reads
    "freeze disk". The stack where [buf] lies still holds the line of a
    node that listed "mem", left there by an earlier call. *)
Definition stale_stack_kernel : kernel :=
  {| props := ∅;
     open_fd := λ _ _, 3;
     read_result := λ _, Some ("freeze disk" +:+ LF);
     write_ok := λ _ _, true;
     access_ok := λ _, true;
     sem_init_ok := true; sem_post_ok := true; sem_wait_ok := true;
     pthread_create_ok := λ _, true;
     dev_input := None;
     pthread_handle := λ _, 1;
     stack_bytes := "standby freeze mem disk" +:+ LF |}.

(** The successive calls of [get_sleep_state], one kernel per call. *)
Fixpoint get_sleep_state_calls (ks : list kernel) : M (list string) :=
  match ks with
  | [] => ret []
  | k :: ks' =>
      let* s := get_sleep_state k in
      let* rest := get_sleep_state_calls ks' in
      ret (s :: rest)
  end.

(** The successive calls of [set_wakeup_callback]. *)
Fixpoint set_wakeup_callbacks (funcs : list (option callback)) : M unit :=
  match funcs with
  | [] => ret tt
  | f :: rest => set_wakeup_callback f >> set_wakeup_callbacks rest
  end.

(** The statics of [autosuspend.c] that no backend writes. *)
Definition controller_untouched (w w' : world) : Prop :=
  autosuspend_ops w' = autosuspend_ops w
  ∧ autosuspend_enabled w' = autosuspend_enabled w
  ∧ autosuspend_inited w' = autosuspend_inited w.

(** The early-suspend configuration flag: the property
    [sleep.earlysuspend], "1" when unset, begins with the character 1. *)
Definition earlysuspend_flag (k : kernel) : bool :=
  first_char_is "1"%char (snd (property_get k "sleep.earlysuspend" (Some "1"))).

(** The power-state node can be opened for reading and writing, and read. *)
Definition power_state_readable (k : kernel) : bool :=
  (0 <=? open_fd k SYS_POWER_STATE O_RDWR)
  && match read_result k SYS_POWER_STATE with Some _ => true | None => false end.

(** Both fb-wait nodes exist. *)
Definition fb_nodes_present (k : kernel) : bool :=
  access_ok k EARLYSUSPEND_WAIT_FOR_FB_SLEEP
  && access_ok k EARLYSUSPEND_WAIT_FOR_FB_WAKE.

(** Everything [autosuspend_wakeup_count_init] needs is granted. *)
Definition wakeup_count_available (k : kernel) : bool :=
  (0 <=? open_fd k SYS_POWER_STATE O_RDWR)
  && (0 <=? open_fd k SYS_POWER_WAKEUP_COUNT O_RDWR)
  && sem_init_ok k
  && pthread_create_ok k suspend_thread.

(** The backend the first initialisation selects. *)
Definition selected_backend (k : kernel) : option backend :=
  if earlysuspend_flag k && power_state_readable k then Some EarlySuspend
  else if wakeup_count_available k then Some WakeupCount
  else None.

(** Backend selection as the specification words it: early suspend if and
    only if the flag is set and both fb-wait nodes are present, the
    wakeup count in every other case. *)
Definition selection_by_fb_nodes : Prop :=
  ∀ (k : kernel) (r : Z) (w1 : world) (t : list action),
    autosuspend_init k boot = Some (r, w1, t) →
    autosuspend_ops w1
    = if earlysuspend_flag k && fb_nodes_present k
      then Some EarlySuspend else Some WakeupCount.

(** A kernel with the early-suspend flag cleared on which every call of
    the wakeup-count backend succeeds; the counter reads "42". *)
Definition wakeup_count_kernel : kernel :=
  {| props := {[ "sleep.earlysuspend" := "0" ]};
     open_fd := λ path _, if String.eqb path "/dev/uinput" then 5 else 3;
     read_result := λ path,
       if String.eqb path SYS_POWER_WAKEUP_COUNT then Some "42"
       else Some "freeze mem disk";
     write_ok := λ _ _, true;
     access_ok := λ _, false;
     sem_init_ok := true; sem_post_ok := true; sem_wait_ok := true;
     pthread_create_ok := λ _, true;
     dev_input := None;
     pthread_handle := λ _, 1;
     stack_bytes := "" |}.

(** The same kernel with the flag left at its default and no fb-wait
    node. *)
Definition no_fb_nodes_kernel : kernel :=
  {| props := ∅;
     open_fd := open_fd wakeup_count_kernel;
     read_result := read_result wakeup_count_kernel;
     write_ok := λ _ _, true;
     access_ok := λ _, false;
     sem_init_ok := true; sem_post_ok := true; sem_wait_ok := true;
     pthread_create_ok := λ _, true;
     dev_input := None;
     pthread_handle := λ _, 1;
     stack_bytes := "" |}.

(** A kernel on which no node can be opened. *)
Definition dead_kernel : kernel :=
  {| props := ∅;
     open_fd := λ _ _, -1;
     read_result := λ _, None;
     write_ok := λ _ _, false;
     access_ok := λ _, false;
     sem_init_ok := true; sem_post_ok := true; sem_wait_ok := true;
     pthread_create_ok := λ _, true;
     dev_input := None;
     pthread_handle := λ _, 1;
     stack_bytes := "" |}.

(** The statics right after the initialisation selected the wakeup-count
    backend: the engine is disabled and the semaphore holds no permit. *)
Definition wakeup_count_selected (w : world) : Prop :=
  autosuspend_ops w = Some WakeupCount
  ∧ autosuspend_inited w = true
  ∧ autosuspend_enabled w = false
  ∧ suspend_lockout w = 0%nat.

(** The calls that only look at a node: open, read, close. *)
Definition is_file_probe (a : action) : bool :=
  match a with
  | Open _ _ _ | Read _ | Close _ => true
  | _ => false
  end.

Definition probes_only (t : list action) : Prop :=
  Forall (λ a, is_file_probe a = true) t.

(** The wording of the specification for a rejected commit: the callback
    is called with [false] and the sleep state is not written. *)
Definition rejected_commit_calls_back : Prop :=
  ∀ (k : kernel) (w w' : world) (cb : callback) (tok : string) (t : list action),
    wakeup_func w = Some cb →
    suspend_cycle k w = Some (tt, w', t) →
    Write SYS_POWER_WAKEUP_COUNT tok ∈ t →
    write_ok k SYS_POWER_WAKEUP_COUNT tok = false →
    Call cb false ∈ t ∧ ∀ s, Write SYS_POWER_STATE s ∉ t.

(** A kernel that rejects the commit: the counter moved on after it was
    read as "42". *)
Definition racing_kernel : kernel :=
  {| props := props wakeup_count_kernel;
     open_fd := open_fd wakeup_count_kernel;
     read_result := read_result wakeup_count_kernel;
     write_ok := λ path _, negb (String.eqb path SYS_POWER_WAKEUP_COUNT);
     access_ok := λ _, false;
     sem_init_ok := true; sem_post_ok := true; sem_wait_ok := true;
     pthread_create_ok := λ _, true;
     dev_input := None;
     pthread_handle := λ _, 1;
     stack_bytes := "" |}.

(** The wakeup-count backend selected, one permit posted, callback 7
    registered. *)
Definition armed_world : world :=
  set_wakeup_func (Some 7%nat)
    (set_suspend_lockout 1
       (set_autosuspend_enabled true
          (set_autosuspend_inited true
             (set_autosuspend_ops (Some WakeupCount) boot)))).

(** The release of the power key, and the report a resuming device sends. *)
Definition power_release : input_event := InputEvent EV_KEY KEY_POWER 0.
Definition resume_report : input_event := InputEvent EV_SYN SYN_REPORT 1.

(** A short and a long synthetic press of the power key. *)
Definition short_press (ufd : Z) : list action :=
  key_edge ufd KEY_POWER 1 ++ key_edge ufd KEY_POWER 0.
Definition long_press (ufd : Z) : list action :=
  key_edge ufd KEY_POWER 1 ++ [Sleep 2] ++ key_edge ufd KEY_POWER 0.

(** The wording of the specification: a release that is replayed at once
    clears the long-press flag for the next time. *)
Definition release_clears_longpress : Prop :=
  ∀ (doubleclick : bool) (st st' : btn_state) (w w' : world) (t : list action),
    doubleclick = false ∨ 0 < timeout st →
    handle_fd doubleclick st (Event power_release) w = Some (st', w', t) →
    longpress st' = false.

(** The wording of the specification: a release followed by a resume
    report before the window ends synthesises no long press. *)
Definition release_then_resume_is_short : Prop :=
  ∀ (doubleclick : bool) (st : btn_state) (w w' : world)
    (r : btn_state * thread_status) (t : list action),
    powerbtnd_loop doubleclick 1
      [PollReady [Event power_release]; PollReady [Event resume_report]; PollTimeout]
      st w = Some (r, w', t) →
    Sleep 2 ∉ t.

(** The path [openfds] builds for a directory entry. *)
Definition input_path (de : input_node) : string := "/dev/input/" +:+ d_name de.

(** The device reports the name "Power Button". *)
Definition is_power_button (de : input_node) : Prop :=
  node_name de = Some "Power Button".

(** The entries of [/dev/input]; none when the directory does not open. *)
Definition input_entries (k : kernel) : list input_node :=
  match dev_input k with Some entries => entries | None => [] end.

(** The writes and pauses of a synthetic key. *)
Definition is_key_action (a : action) : bool :=
  match a with
  | UinputWrite _ _ | Sleep _ => true
  | _ => false
  end.

(** ** The engine as a system: the callers and the suspend thread *)

(** Where the caller stands: outside any call of the controller, or inside
    one whose backend operation has returned 0 and whose write of
    [autosuspend_enabled] is still to come. No lock covers the two, so the
    suspend thread can run in between. *)
Inductive caller_pc := CallerIdle | CallerSets (enabled : bool).

(** [autosuspend_enable] up to the return of [autosuspend_ops->enable()]:
    the status with which the call returns there, or [None] when the
    backend has returned 0 and the flag is still to be written. *)
Definition autosuspend_enable_begin (k : kernel) : M (option Z) :=
  let* r := autosuspend_init k in
  if negb (r =? 0) then ret (Some r)
  else
    let* enabled := gets autosuspend_enabled in
    if enabled then ret (Some 0)
    else
      let* r := ops_enable k in
      if negb (r =? 0) then ret (Some r) else ret None.

(** [autosuspend_disable] up to the return of [autosuspend_ops->disable()]. *)
Definition autosuspend_disable_begin (k : kernel) : M (option Z) :=
  let* r := autosuspend_init k in
  if negb (r =? 0) then ret (Some r)
  else
    let* enabled := gets autosuspend_enabled in
    if negb enabled then ret (Some 0)
    else
      let* r := ops_disable k in
      if negb (r =? 0) then ret (Some r) else ret None.

(** The end of either call: the write of the flag and [return 0]. *)
Definition autosuspend_set_enabled (v : bool) : M Z :=
  modify (set_autosuspend_enabled v) >> ret 0.

(** The statics, the point the suspend thread has reached, the number of
    permits that calls of disable have taken and that no later enable has
    given back, and the point the caller has reached. *)
Record system := System {
  sys_world : world;
  sys_pc : loop_pc;
  sys_held : nat;
  sys_caller : caller_pc
}.

(** The atomic moves: the suspend thread makes its next system call; a
    caller runs an operation of the wakeup-count backend directly; the
    caller enters a call of the controller and runs it up to the return of
    the backend's semaphore operation; the caller writes the flag and
    leaves the call. The callers of the controller take turns: a call is
    entered only when the one before has been left. Each move comes with
    the kernel's answers; a move whose call would block is not enabled. *)
Inductive label :=
| LoopStep (k : kernel)
| BackendEnable (k : kernel)
| BackendDisable (k : kernel)
| ApiEnable (k : kernel)
| ApiDisable (k : kernel)
| ApiReturn.

(** The permits held after a move that left the semaphore at [w']. *)
Definition held_after_enable (s : system) (w' : world) : nat :=
  sys_held s - (suspend_lockout w' - suspend_lockout (sys_world s)).

Definition held_after_disable (s : system) (w' : world) : nat :=
  sys_held s + (suspend_lockout (sys_world s) - suspend_lockout w').

Definition after_enable (s : system) (r : option (Z * world * list action))
  : option system :=
  match r with
  | Some (_, w', _) =>
      Some (System w' (sys_pc s) (held_after_enable s w') (sys_caller s))
  | None => None
  end.

Definition after_disable (s : system) (r : option (Z * world * list action))
  : option system :=
  match r with
  | Some (_, w', _) =>
      Some (System w' (sys_pc s) (held_after_disable s w') (sys_caller s))
  | None => None
  end.

(** The caller after the first part of a call that is to write [v]. *)
Definition caller_after (status : option Z) (v : bool) : caller_pc :=
  match status with
  | Some _ => CallerIdle
  | None => CallerSets v
  end.

Definition exec (l : label) (s : system) : option system :=
  match l with
  | LoopStep k =>
      match suspend_thread_step k (sys_pc s) (sys_world s) with
      | Some (pc', w', _) => Some (System w' pc' (sys_held s) (sys_caller s))
      | None => None
      end
  | BackendEnable k =>
      after_enable s (autosuspend_wakeup_count_enable k (sys_world s))
  | BackendDisable k =>
      after_disable s (autosuspend_wakeup_count_disable k (sys_world s))
  | ApiEnable k =>
      match sys_caller s, autosuspend_enable_begin k (sys_world s) with
      | CallerIdle, Some (status, w', _) =>
          Some (System w' (sys_pc s) (held_after_enable s w')
                  (caller_after status true))
      | _, _ => None
      end
  | ApiDisable k =>
      match sys_caller s, autosuspend_disable_begin k (sys_world s) with
      | CallerIdle, Some (status, w', _) =>
          Some (System w' (sys_pc s) (held_after_disable s w')
                  (caller_after status false))
      | _, _ => None
      end
  | ApiReturn =>
      match sys_caller s with
      | CallerSets v =>
          match autosuspend_set_enabled v (sys_world s) with
          | Some (_, w', _) => Some (System w' (sys_pc s) (sys_held s) CallerIdle)
          | None => None
          end
      | CallerIdle => None
      end
  end.

Fixpoint run (ls : list label) (s : system) : option system :=
  match ls with
  | [] => Some s
  | l :: ls' =>
      match exec l s with
      | Some s' => run ls' s'
      | None => None
      end
  end.

(** The state the interleavings start from. *)
Definition start (w0 : world) : system := System w0 AtRead 0 CallerIdle.

(** The callers go through the controller. *)
Definition via_controller (l : label) : bool :=
  match l with
  | BackendEnable _ | BackendDisable _ => false
  | _ => true
  end.

(** The suspend thread holds a permit between its [sem_wait] and its
    [sem_post]. *)
Definition holds_permit (pc : loop_pc) : nat :=
  match pc with
  | AtCommit _ | AtSuspend | AtSemPost => 1
  | AtRead | AtSemWait _ => 0
  end.

(** The next move of the suspend thread is the commit write. *)
Definition commits (k : kernel) (s : system) : Prop :=
  ∃ tok, Write SYS_POWER_WAKEUP_COUNT tok
         ∈ trace_of (suspend_thread_step k (sys_pc s) (sys_world s)).

(** The wording of the specification: whatever the callers do, no commit
    runs while a disable holds a permit. *)
Definition disable_blocks_commit : Prop :=
  ∀ (w0 : world) (ls : list label) (s : system) (k : kernel),
    wakeup_count_selected w0 →
    run ls (start w0) = Some s →
    commits k s →
    sys_held s = 0%nat.

(** What the controller maintains for callers that take turns: one
    permit at most is out, in the semaphore, with the suspend thread or
    with a disable; between two calls it is out only while the engine is
    enabled, and then not with a disable. *)
Definition balanced (s : system) : Prop :=
  let w := sys_world s in
  let out := (suspend_lockout w + holds_permit (sys_pc s))%nat in
  autosuspend_ops w = Some WakeupCount
  ∧ autosuspend_inited w = true
  ∧ (out + sys_held s <= 1)%nat
  ∧ match sys_caller s with
    | CallerIdle =>
        (out <= if autosuspend_enabled w then 1 else 0)%nat
        ∧ (autosuspend_enabled w = true → sys_held s = 0%nat)
    | CallerSets true => autosuspend_enabled w = false ∧ sys_held s = 0%nat
    | CallerSets false => autosuspend_enabled w = true ∧ out = 0%nat
    end.

(** The engine is enabled only after a successful initialisation. *)
Definition enabled_after_init (w : world) : Prop :=
  autosuspend_enabled w = true → autosuspend_inited w = true.

(** ** Definitions used by the further properties *)

(** The sleep state a call of [get_sleep_state] returns: the cached one,
    or the one resolved from the kernel's answers when nothing is cached. *)
Definition sleep_state_in (k : kernel) (w : world) : string :=
  if decide (sleep_state w = "") then resolved_sleep_state k else sleep_state w.

(** The blocking read of an fb-wait node returns without error. *)
Definition fb_read_ok (k : kernel) (path : string) : bool :=
  (0 <=? open_fd k path O_RDONLY)
  && match read_result k path with Some _ => true | None => false end.

(** The successive reads of the monitor thread, one kernel per read. *)
Fixpoint earlysuspend_thread_run (ks : list kernel) (pc : monitor_pc) : M monitor_pc :=
  match ks with
  | [] => ret pc
  | k :: ks' =>
      let* pc' := earlysuspend_thread_step k pc in
      earlysuspend_thread_run ks' pc'
  end.

(** What the monitor thread maintains between two reads. *)
Definition monitor_in_step (pc : monitor_pc) (w : world) : Prop :=
  match pc with
  | InFbSleepWait => earlysuspend_state w = EARLYSUSPEND_ON
  | InFbWakeWait => earlysuspend_state w = EARLYSUSPEND_MEM
  | MonitorExited => True
  end.

(** The number of elements of a list that satisfy a test. *)
Definition count_where {A} (p : A → bool) (l : list A) : nat :=
  List.length (List.filter p l).

(** The creation of the virtual input device and the start of the
    power-button thread. *)
Definition is_button_setup (a : action) : bool :=
  match a with
  | UinputCreate _ _ _ => true
  | PthreadCreate powerbtnd_thread => true
  | _ => false
  end.

(** The successive calls of [autosuspend_init], one kernel per call. *)
Fixpoint autosuspend_init_calls (ks : list kernel) : M (list Z) :=
  match ks with
  | [] => ret []
  | k :: ks' =>
      let* r := autosuspend_init k in
      let* rest := autosuspend_init_calls ks' in
      ret (r :: rest)
  end.

(** The start of the power-button thread, and the creation of the virtual
    input device. *)
Definition starts_powerbtnd (a : action) : bool :=
  match a with PthreadCreate powerbtnd_thread => true | _ => false end.
Definition creates_uinput (a : action) : bool :=
  match a with UinputCreate _ _ _ => true | _ => false end.

(** A call of the public interface by a caller. *)
Inductive api_call :=
| CallEnable (k : kernel)
| CallDisable (k : kernel).

Definition api_run_one (c : api_call) : M Z :=
  match c with
  | CallEnable k => autosuspend_enable k
  | CallDisable k => autosuspend_disable k
  end.

(** The calls of one caller, one after the other, with their results. *)
Fixpoint api_run (cs : list api_call) : M (list Z) :=
  match cs with
  | [] => ret []
  | c :: cs' =>
      let* r := api_run_one c in
      let* rest := api_run cs' in
      ret (r :: rest)
  end.

(** The permit an enabled engine has posted. *)
Definition permit_of (w : world) : nat :=
  if autosuspend_enabled w then 1 else 0.

(** The token the suspend thread takes from what it read of the counter. *)
Definition token_of (s : string) : string := String.substring 0 20 s.

(** What a cycle that reached the sleep-state write has done after the
    commit: resolved the sleep state, written it, synthesised the wakeup
    key when the write succeeded, and called the registered callback with
    the outcome of the write. *)
Definition suspend_actions (k : kernel) (w : world) (probes : list action) : list action :=
  let state := sleep_state_in k w in
  let success := write_ok k SYS_POWER_STATE state in
  probes
  ++ [Write SYS_POWER_STATE state]
  ++ (if success
      then key_edge (uinput_fd w) KEY_WAKEUP 1 ++ key_edge (uinput_fd w) KEY_WAKEUP 0
      else [])
  ++ match wakeup_func w with
     | Some cb => [Call cb success]
     | None => []
     end.

(** The calls of one probe of the power-state node by
    [sleep_state_available]. *)
Definition power_state_probe (k : kernel) : list action :=
  let fd := open_fd k SYS_POWER_STATE O_RDONLY in
  if fd <? 0 then [Open SYS_POWER_STATE O_RDONLY fd]
  else [Open SYS_POWER_STATE O_RDONLY fd; Read SYS_POWER_STATE; Close fd].

(** The directory entries [openfds] keeps when it meets them: the name
    begins with e, the device opens, and it reports the name
    "Power Button". *)
Definition scan_match (de : input_node) : bool :=
  first_char_is "e"%char (d_name de)
  && (0 <=? node_fd de)
  && String.eqb (match node_name de with Some n => n | None => "" end)
       "Power Button".

(** The press edge of a synthetic power key. *)
Definition is_power_press (a : action) : bool :=
  match a with
  | UinputWrite _ ev =>
      (ev_type ev =? EV_KEY) && (ev_code ev =? KEY_POWER) && (ev_value ev =? 1)
  | _ => false
  end.

(** The event the code goes on with for a descriptor is the release of the
    power key: one that was read, or what [iev] held when the [read]
    failed. *)
Definition is_release_result (r : fd_result) : bool :=
  match event_handled r with
  | Some iev => is_power_release iev
  | None => false
  end.

(** What one answer of [poll] can make the monitor replay: one press for
    a timeout, at most one for each release handled on the first [cnt]
    descriptors. *)
Definition press_triggers (cnt : nat) (p : poll_result) : nat :=
  match p with
  | PollError => 0
  | PollTimeout => 1
  | PollReady fds => count_where is_release_result (take cnt fds)
  end.

Fixpoint total_triggers (cnt : nat) (polls : list poll_result) : nat :=
  match polls with
  | [] => 0
  | p :: rest => press_triggers cnt p + total_triggers cnt rest
  end.

(** What the monitor writes: edges of the power key with their reports on
    the given descriptor, and the pause of a long press. *)
Definition is_monitor_write (ufd : Z) (a : action) : Prop :=
  a = Sleep 2
  ∨ a = UinputWrite ufd (InputEvent EV_SYN SYN_REPORT 0)
  ∨ ∃ v, a = UinputWrite ufd (InputEvent EV_KEY KEY_POWER v).

Definition is_open (a : action) : bool :=
  match a with Open _ _ _ => true | _ => false end.

Definition is_close (a : action) : bool :=
  match a with Close _ => true | _ => false end.

(** * Properties *)

(** Unfolds the monad so that a run becomes a term of [option]. *)
Ltac munfold :=
  unfold bind, ret, emit, gets, modify, blocked in *.

(** Refutes a membership [H] in an explicit trace whose elements all
    differ from the sought action by a constructor or a literal. *)
Ltac not_in_trace H :=
  simpl in H;
  repeat first
    [ apply elem_of_nil in H; contradiction
    | apply elem_of_cons in H as [H|H]; [discriminate|] ].

(** ** Key synthesis *)

Lemma emit_key_run ufd key_code val w :
  emit_key ufd key_code val w
  = Some (tt, w, key_edge ufd (to_u16 key_code) (to_s32 val)).
Proof. reflexivity. Qed.

Lemma to_u16_in_range (z : Z) : 0 <= z < 65536 → to_u16 z = z.
Proof. intros Hz. unfold to_u16. apply Z.mod_small. exact Hz. Qed.

Lemma to_s32_in_range (z : Z) : -2147483648 <= z < 2147483648 → to_s32 z = z.
Proof. intros Hz. unfold to_s32. rewrite Z.mod_small by lia. lia. Qed.

Lemma send_key_wakeup_run ufd w :
  send_key_wakeup ufd w
  = Some (tt, w, key_edge ufd KEY_WAKEUP 1 ++ key_edge ufd KEY_WAKEUP 0).
Proof. reflexivity. Qed.

Lemma send_key_power_run ufd longpress w :
  send_key_power ufd longpress w
  = Some (tt, w, key_edge ufd KEY_POWER 1
                 ++ (if longpress then [Sleep 2] else [])
                 ++ key_edge ufd KEY_POWER 0).
Proof. destruct longpress; reflexivity. Qed.

(** C9: every key edge is one EV_KEY event followed at once by one
    EV_SYN/SYN_REPORT event of value 0. The EV_KEY event carries the key
    code as the __u16 and the value as the __s32 they are stored in, which
    are the code and the value given whenever these are in range, as
    KEY_POWER and KEY_WAKEUP with 0 and 1 are. [send_key_wakeup] writes a
    KEY_WAKEUP press then a KEY_WAKEUP release, [send_key_power] a
    KEY_POWER press, the pause of a long press, then the release; each of
    them returns and leaves the world as it was. *)
Theorem synthetic_keys_shape (ufd key_code val : Z) (longpress : bool) (w : world) :
  emit_key ufd key_code val w
  = Some (tt, w, [UinputWrite ufd (InputEvent EV_KEY (to_u16 key_code) (to_s32 val));
                  UinputWrite ufd (InputEvent EV_SYN SYN_REPORT 0)])
  ∧ (0 <= key_code < 65536 → -2147483648 <= val < 2147483648 →
     emit_key ufd key_code val w
     = Some (tt, w, [UinputWrite ufd (InputEvent EV_KEY key_code val);
                     UinputWrite ufd (InputEvent EV_SYN SYN_REPORT 0)]))
  ∧ send_key_wakeup ufd w
    = Some (tt, w, [UinputWrite ufd (InputEvent EV_KEY KEY_WAKEUP 1);
                    UinputWrite ufd (InputEvent EV_SYN SYN_REPORT 0);
                    UinputWrite ufd (InputEvent EV_KEY KEY_WAKEUP 0);
                    UinputWrite ufd (InputEvent EV_SYN SYN_REPORT 0)])
  ∧ send_key_power ufd longpress w
    = Some (tt, w, key_edge ufd KEY_POWER 1
                   ++ (if longpress then [Sleep 2] else [])
                   ++ key_edge ufd KEY_POWER 0).
Proof.
  split; [apply emit_key_run|].
  split.
  { intros Hcode Hval. rewrite emit_key_run.
    rewrite (to_u16_in_range _ Hcode), (to_s32_in_range _ Hval). reflexivity. }
  split; [apply send_key_wakeup_run | apply send_key_power_run].
Qed.

(** ** C strings *)

Lemma prefix_spec needle :
  ∀ haystack,
    String.prefix needle haystack = true ↔ ∃ after, haystack = needle +:+ after.
Proof.
  induction needle as [|c needle IH]; intros haystack.
  - split; [intros _; exists haystack; reflexivity|].
    intros _. destruct haystack; reflexivity.
  - destruct haystack as [|d haystack]; simpl.
    + split; [discriminate | intros (after & H); discriminate].
    + destruct (Ascii.ascii_dec c d) as [->|Hcd].
      * rewrite IH. split; intros (after & H); exists after.
        -- change (String d haystack = String d (needle +:+ after)).
           rewrite <- H. reflexivity.
        -- change (String d haystack = String d (needle +:+ after)) in H.
           congruence.
      * split; [discriminate|]. intros (after & H).
        change (String d haystack = String c (needle +:+ after)) in H.
        congruence.
Qed.

Lemma strstr_spec needle :
  ∀ haystack, strstr haystack needle = true ↔ occurs_in needle haystack.
Proof.
  unfold occurs_in.
  induction haystack as [|d haystack IH].
  - cbn [strstr]. rewrite orb_false_r, prefix_spec. split.
    + intros (after & H). exists "", after. exact H.
    + intros (before & after & H). destruct before; [eauto|discriminate].
  - cbn [strstr]. rewrite orb_true_iff, IH, prefix_spec. split.
    + intros [(after & H)|(before & after & H)].
      * exists "", after. exact H.
      * exists (String d before), after.
        change (String d haystack = String d (before +:+ needle +:+ after)).
        rewrite <- H. reflexivity.
    + intros (before & after & H). destruct before as [|e before].
      * left. exists after. exact H.
      * right. exists before, after.
        change (String d haystack = String e (before +:+ needle +:+ after)) in H.
        congruence.
Qed.

Lemma c_string_app a b : c_string a = a → c_string (a +:+ b) = a +:+ c_string b.
Proof.
  induction a as [|c a IH]; [reflexivity|].
  change (String c a +:+ b) with (String c (a +:+ b)).
  cbn [c_string]. destruct (Ascii.eqb c "000"); [discriminate|].
  intros H. injection H as H. rewrite (IH H). reflexivity.
Qed.

Lemma append_empty_r (a : string) : a +:+ "" = a.
Proof.
  induction a as [|c a IH]; [reflexivity|].
  change (String c (a +:+ "") = String c a). f_equal. exact IH.
Qed.

Lemma append_assoc (a b c : string) : (a +:+ b) +:+ c = a +:+ b +:+ c.
Proof.
  induction a as [|x a IH]; [reflexivity|].
  change (String x ((a +:+ b) +:+ c) = String x (a +:+ b +:+ c)).
  f_equal. exact IH.
Qed.

Lemma occurs_in_app needle a b : occurs_in needle a → occurs_in needle (a +:+ b).
Proof.
  intros (before & after & ->). exists before, (after +:+ b).
  rewrite !append_assoc. reflexivity.
Qed.

(** ** The sleep state *)

Lemma resolved_sleep_state_nonempty k : resolved_sleep_state k ≠ "".
Proof.
  unfold resolved_sleep_state, override_property.
  repeat case_match; simplify_eq; try discriminate; assumption.
Qed.

(** A cached state is returned as it is: no property is read, no system
    call is made and the world does not change. *)
Lemma get_sleep_state_cached k w :
  sleep_state w ≠ "" →
  get_sleep_state k w = Some (sleep_state w, w, []).
Proof.
  intros Hne. unfold get_sleep_state. munfold.
  destruct (decide (sleep_state w = "")); [contradiction | reflexivity].
Qed.

Lemma sleep_state_available_run k state w :
  ∃ t, sleep_state_available k state w = Some (probe_finds k state, w, t)
       ∧ probes_only t.
Proof.
  unfold sleep_state_available, probe_finds, probes_only. munfold.
  destruct (open_fd k SYS_POWER_STATE O_RDONLY <? 0) eqn:Hfd;
    [ apply Z.ltb_lt in Hfd | apply Z.ltb_ge in Hfd ].
  - replace (0 <=? _) with false by (symmetry; apply Z.leb_gt; lia).
    simpl. eexists. split; [reflexivity|]. repeat constructor.
  - replace (0 <=? _) with true by (symmetry; apply Z.leb_le; lia).
    simpl. eexists. split; [reflexivity|]. repeat constructor.
Qed.

(** The first call resolves by the precedence and stores the result; only
    the cache changes, and the kernel is only asked about the power-state
    node. *)
Lemma get_sleep_state_resolves k w :
  sleep_state w = "" →
  ∃ t, get_sleep_state k w
       = Some (resolved_sleep_state k, set_sleep_state (resolved_sleep_state k) w, t)
       ∧ probes_only t.
Proof.
  intros Hempty.
  unfold get_sleep_state, resolved_sleep_state, override_property, property_get.
  unfold bind at 1. unfold gets at 1. rewrite Hempty. simpl.
  destruct (props k !! "sleep.state") as [v|] eqn:Hp.
  - destruct (decide (v = "")) as [->|Hv].
    + simpl. unfold bind at 1. unfold modify at 1. unfold bind at 1.
      unfold bind at 1.
      destruct (sleep_state_available_run k default_sleep_state
                  (set_sleep_state "" w)) as (t & -> & Ht).
      unfold default_sleep_state, fallback_sleep_state.
      destruct (probe_finds k "mem"); munfold; simpl;
        rewrite ?app_nil_r; eauto.
    + destruct v as [|c v']; [congruence|].
      munfold. simpl. eexists. split; [reflexivity | constructor].
  - simpl. unfold bind at 1. unfold modify at 1. unfold bind at 1.
    unfold bind at 1.
    destruct (sleep_state_available_run k default_sleep_state
                (set_sleep_state "" w)) as (t & -> & Ht).
    unfold default_sleep_state, fallback_sleep_state.
    destruct (probe_finds k "mem"); munfold; simpl;
      rewrite ?app_nil_r; eauto.
Qed.

(** [get_sleep_state] always returns, and changes the cache only. *)
Lemma get_sleep_state_total k w :
  ∃ s t, get_sleep_state k w = Some (s, set_sleep_state s w, t)
         ∧ s ≠ "" ∧ probes_only t.
Proof.
  destruct (decide (sleep_state w = "")) as [He|Hne].
  - destruct (get_sleep_state_resolves k w He) as (t & Ht & Hp).
    eexists _, _. split; [exact Ht|].
    split; [apply resolved_sleep_state_nonempty | exact Hp].
  - exists (sleep_state w), []. split; [|split; [assumption | constructor]].
    rewrite get_sleep_state_cached by assumption.
    destruct w; reflexivity.
Qed.

Lemma get_sleep_state_calls_cached ks w :
  sleep_state w ≠ "" →
  get_sleep_state_calls ks w
  = Some (List.map (λ _, sleep_state w) ks, w, []).
Proof.
  intros Hne. induction ks as [|k ks IH]; [reflexivity|].
  simpl. unfold bind at 1. rewrite get_sleep_state_cached by assumption.
  unfold bind at 1. rewrite IH. reflexivity.
Qed.

(** C4: the precedence fails on a kernel without the state "mem". The
    power-state node reads "freeze disk", no override property is set and
    nothing is cached; [strstr] runs past the twelve bytes read into what
    the stack held behind them, finds "mem" there, and the first call of
    [get_sleep_state] returns and caches "mem" where the precedence gives
    the fallback "freeze". *)
Theorem get_sleep_state_stale_buffer :
  override_property stale_stack_kernel = None
  ∧ ¬ kernel_reports stale_stack_kernel "mem"
  ∧ get_sleep_state stale_stack_kernel boot
    = Some ("mem", set_sleep_state "mem" boot,
            [Open SYS_POWER_STATE O_RDONLY 3; Read SYS_POWER_STATE; Close 3])
  ∧ ¬ sleep_state_precedence.
Proof.
  assert (Hno : ¬ kernel_reports stale_stack_kernel "mem").
  { intros (_ & s & Hs & Hocc). injection Hs as <-.
    apply strstr_spec in Hocc. vm_compute in Hocc. discriminate. }
  assert (Hrun : get_sleep_state stale_stack_kernel boot
                 = Some ("mem", set_sleep_state "mem" boot,
                         [Open SYS_POWER_STATE O_RDONLY 3; Read SYS_POWER_STATE;
                          Close 3]))
    by (vm_compute; reflexivity).
  split; [reflexivity|]. split; [exact Hno|]. split; [exact Hrun|].
  intros Hclaim. specialize (Hclaim _ _ _ _ Hrun).
  change (override_property stale_stack_kernel) with (@None string) in Hclaim.
  destruct Hclaim as [_ Hfallback]. specialize (Hfallback Hno). discriminate.
Qed.

(** ** The wakeup callback *)

Lemma set_wakeup_callback_run func w :
  set_wakeup_callback func w
  = Some (tt, match wakeup_func w with
              | Some _ => w
              | None => set_wakeup_func func w
              end, []).
Proof.
  unfold set_wakeup_callback. munfold.
  destruct (wakeup_func w); reflexivity.
Qed.

Lemma set_wakeup_callbacks_keep funcs cb w :
  wakeup_func w = Some cb →
  set_wakeup_callbacks funcs w = Some (tt, w, []).
Proof.
  intros Hcb. induction funcs as [|f rest IH]; [reflexivity|].
  simpl. unfold bind. rewrite set_wakeup_callback_run, Hcb, IH. reflexivity.
Qed.

(** C6: [set_wakeup_callback] stores the callback only when none is
    registered; once [cb] is registered, every later call, whatever it
    passes, leaves the world and so the registered [cb] as they are. *)
Theorem set_wakeup_callback_first_wins
    (cb : callback) (later : list (option callback)) (w : world) :
  wakeup_func w = None →
  set_wakeup_callback (Some cb) w = Some (tt, set_wakeup_func (Some cb) w, [])
  ∧ set_wakeup_callbacks later (set_wakeup_func (Some cb) w)
    = Some (tt, set_wakeup_func (Some cb) w, [])
  ∧ wakeup_func (set_wakeup_func (Some cb) w) = Some cb.
Proof.
  intros Hnone. split.
  - rewrite set_wakeup_callback_run, Hnone. reflexivity.
  - split; [|reflexivity].
    apply (set_wakeup_callbacks_keep later cb). reflexivity.
Qed.

Lemma set_wakeup_callback_first_wins_witness :
  wakeup_func boot = None
  ∧ set_wakeup_callbacks [Some 2%nat; None; Some 3%nat] (set_wakeup_func (Some 1%nat) boot)
    = Some (tt, set_wakeup_func (Some 1%nat) boot, []).
Proof.
  split; [reflexivity|].
  apply (set_wakeup_callback_first_wins 1%nat [Some 2%nat; None; Some 3%nat] boot).
  reflexivity.
Defined.

(** ** The controller *)

Lemma controller_untouched_refl w : controller_untouched w w.
Proof. repeat split. Qed.

Lemma controller_untouched_trans w1 w2 w3 :
  controller_untouched w1 w2 → controller_untouched w2 w3 →
  controller_untouched w1 w3.
Proof. unfold controller_untouched. intuition congruence. Qed.

Lemma ltb_leb_neg (x : Z) : (x <? 0) = negb (0 <=? x).
Proof. destruct (Z.ltb_spec x 0), (Z.leb_spec 0 x); simpl; lia || reflexivity. Qed.

Lemma open_file_run k file sz fd w :
  let flag := match fd with Some _ => O_RDWR | None => O_RDONLY end in
  ∃ t, open_file k file sz fd w
       = Some ((if open_fd k file flag <? 0 then -1
                else match read_result k file with Some _ => 0 | None => -1 end),
               match fd with
               | Some store => store (open_fd k file flag) w
               | None => w
               end, t).
Proof. unfold open_file. munfold. destruct fd; simpl; eauto. Qed.

Lemma start_earlysuspend_thread_run k w :
  ∃ t, start_earlysuspend_thread k w
       = Some (tt,
               (if fb_nodes_present k then
                  let w1 := set_earlysuspend_thread_handle
                              (pthread_handle k earlysuspend_thread) w in
                  if pthread_create_ok k earlysuspend_thread
                  then set_wait_for_earlysuspend true w1 else w1
                else w), t).
Proof.
  unfold start_earlysuspend_thread, fb_nodes_present, wait_for_fb_wake.
  munfold.
  destruct (access_ok k EARLYSUSPEND_WAIT_FOR_FB_SLEEP); cbn [negb andb]; eauto.
  destruct (access_ok k EARLYSUSPEND_WAIT_FOR_FB_WAKE); cbn [negb andb]; eauto.
  destruct (open_file_run k EARLYSUSPEND_WAIT_FOR_FB_WAKE 1 None w) as [t ->].
  unfold pthread_create. munfold.
  destruct (pthread_create_ok k earlysuspend_thread); cbn [negb andb]; eauto.
Qed.

Lemma autosuspend_earlysuspend_init_run k w :
  ∃ w' t, autosuspend_earlysuspend_init k w
          = Some ((if power_state_readable k then Some EarlySuspend else None), w', t)
          ∧ controller_untouched w w'
          ∧ wakeup_func w' = wakeup_func w
          ∧ wait_for_earlysuspend w'
            = wait_for_earlysuspend w
              || (power_state_readable k
                  && (fb_nodes_present k && pthread_create_ok k earlysuspend_thread)).
Proof.
  unfold autosuspend_earlysuspend_init, power_state_readable.
  unfold bind at 1.
  destruct (open_file_run k SYS_POWER_STATE 128 (Some set_sPowerStatefd) w)
    as [t ->].
  rewrite (ltb_leb_neg (open_fd k SYS_POWER_STATE O_RDWR)).
  destruct (0 <=? open_fd k SYS_POWER_STATE O_RDWR); cbn [negb andb].
  - destruct (read_result k SYS_POWER_STATE); cbn [negb andb].
    + change (0 <? 0) with false. cbv iota. unfold bind at 1.
      destruct (start_earlysuspend_thread_run k
                  (set_sPowerStatefd (open_fd k SYS_POWER_STATE O_RDWR) w))
        as [t' ->].
      munfold. eexists _, _. split; [reflexivity|].
      destruct (fb_nodes_present k), (pthread_create_ok k earlysuspend_thread);
        simpl; rewrite ?orb_true_r, ?orb_false_r; repeat split.
    + munfold. eexists _, _. split; [reflexivity|].
      rewrite orb_false_r. repeat split.
  - munfold. eexists _, _. split; [reflexivity|].
    rewrite orb_false_r. repeat split.
Qed.

Lemma init_android_power_button_run k w :
  ∃ w' t, init_android_power_button k w = Some (tt, w', t)
          ∧ controller_untouched w w'
          ∧ wakeup_func w' = wakeup_func w
          ∧ wait_for_earlysuspend w' = wait_for_earlysuspend w.
Proof.
  unfold init_android_power_button. munfold.
  destruct (0 <=? uinput_fd w); simpl.
  - eexists _, _. split; [reflexivity|]. repeat split.
  - unfold pthread_create. munfold.
    destruct (open_fd k "/dev/uinput" O_WRONLY <? 0); simpl;
      (eexists _, _; split; [reflexivity|]; repeat split).
Qed.

Lemma autosuspend_wakeup_count_init_run k w :
  ∃ w' t, autosuspend_wakeup_count_init k w
          = Some ((if wakeup_count_available k then Some WakeupCount else None), w', t)
          ∧ controller_untouched w w'
          ∧ wakeup_func w' = wakeup_func w
          ∧ wait_for_earlysuspend w' = wait_for_earlysuspend w
          ∧ (wakeup_count_available k = true → suspend_lockout w' = 0%nat).
Proof.
  unfold autosuspend_wakeup_count_init, wakeup_count_available.
  unfold bind at 1.
  destruct (init_android_power_button_run k w) as (w' & t & -> & Hc & Hf & Hw).
  rewrite (ltb_leb_neg (open_fd k SYS_POWER_STATE O_RDWR)).
  rewrite (ltb_leb_neg (open_fd k SYS_POWER_WAKEUP_COUNT O_RDWR)).
  destruct Hc as (Hc1 & Hc2 & Hc3).
  unfold pthread_create. munfold.
  destruct (0 <=? open_fd k SYS_POWER_STATE O_RDWR); cbn [negb andb];
    [|eexists _, _; split; [reflexivity|]; repeat split; done].
  destruct (0 <=? open_fd k SYS_POWER_WAKEUP_COUNT O_RDWR); cbn [negb andb];
    [|eexists _, _; split; [reflexivity|]; repeat split; done].
  destruct (sem_init_ok k); cbn [negb andb];
    [|eexists _, _; split; [reflexivity|]; repeat split; done].
  destruct (pthread_create_ok k suspend_thread); cbn [negb andb];
    eexists _, _; (split; [reflexivity|]); repeat split; simpl; done.
Qed.

(** The probing sequence always returns; it selects by [selected_backend]
    when no backend is recorded yet, and it writes the [inited] flag only
    on success. *)
Lemma autosuspend_probe_run k w :
  autosuspend_ops w = None →
  ∃ w1 t,
    autosuspend_probe k w
    = Some (match selected_backend k with Some _ => 0 | None => -1 end, w1, t)
    ∧ autosuspend_ops w1 = selected_backend k
    ∧ autosuspend_inited w1
      = match selected_backend k with
        | Some _ => true
        | None => autosuspend_inited w
        end
    ∧ autosuspend_enabled w1 = autosuspend_enabled w
    ∧ wakeup_func w1 = wakeup_func w
    ∧ (selected_backend k = Some WakeupCount → suspend_lockout w1 = 0%nat)
    ∧ wait_for_earlysuspend w1
      = wait_for_earlysuspend w
        || (earlysuspend_flag k && power_state_readable k
            && (fb_nodes_present k && pthread_create_ok k earlysuspend_thread)).
Proof.
  intros Hops.
  unfold autosuspend_probe, selected_backend, earlysuspend_flag.
  destruct (property_get k "sleep.earlysuspend" (Some "1")) as [len buf].
  cbn [snd].
  destruct (first_char_is "1" buf); cbn [andb].
  - unfold bind at 1. unfold bind at 1.
    destruct (autosuspend_earlysuspend_init_run k w)
      as (w' & t & -> & (Ho & He & Hi) & Hf & Hw).
    destruct (power_state_readable k); munfold; cbn [andb] in *.
    + simpl. eexists _, _. split; [reflexivity|].
      simpl. repeat split; try done.
    + simpl.
      destruct (autosuspend_wakeup_count_init_run
                  k (set_autosuspend_ops None w'))
        as (w'' & t' & -> & (Ho' & He' & Hi') & Hf' & Hw' & Hs).
      simpl in *. rewrite orb_false_r in Hw.
      destruct (wakeup_count_available k); simpl;
        (eexists _, _; split; [reflexivity|]); simpl;
        rewrite ?orb_false_r; repeat split; try congruence; auto.
  - munfold. simpl. rewrite Hops.
    destruct (autosuspend_wakeup_count_init_run k w)
      as (w'' & t' & -> & (Ho' & He' & Hi') & Hf' & Hw' & Hs).
    destruct (wakeup_count_available k); simpl;
      (eexists _, _; split; [reflexivity|]); simpl;
      rewrite ?orb_false_r; repeat split; try congruence; auto.
Qed.

(** Whatever the statics are, [autosuspend_init] returns 0 or -1, keeps
    the enabled flag, and sets [inited] exactly when it returns 0. *)
Lemma autosuspend_init_total k w :
  ∃ r w1 t,
    autosuspend_init k w = Some (r, w1, t)
    ∧ autosuspend_enabled w1 = autosuspend_enabled w
    ∧ ((r = 0 ∧ autosuspend_inited w1 = true)
       ∨ (r = -1 ∧ autosuspend_inited w1 = false
          ∧ autosuspend_inited w = false ∧ autosuspend_ops w1 = None)).
Proof.
  unfold autosuspend_init. unfold bind, gets.
  destruct (autosuspend_inited w) eqn:Hin.
  - unfold ret. eexists _, _, _. split; [reflexivity|]. split; [reflexivity|].
    left. split; [reflexivity | exact Hin].
  - destruct (autosuspend_ops w) as [b|] eqn:Hops.
    + unfold autosuspend_probe.
      destruct (property_get k "sleep.earlysuspend" (Some "1")) as [len buf].
      destruct (first_char_is "1" buf).
      * unfold bind at 1. unfold bind at 1.
        destruct (autosuspend_earlysuspend_init_run k w)
          as (w' & t & -> & (Ho & He & Hi) & Hf & Hw).
        destruct (power_state_readable k); munfold; simpl.
        -- eexists _, _, _. split; [reflexivity|]. simpl.
           split; [exact He|]. left. split; reflexivity.
        -- destruct (autosuspend_wakeup_count_init_run
                       k (set_autosuspend_ops None w'))
             as (w'' & t' & -> & (Ho' & He' & Hi') & Hf' & Hw' & Hs).
           simpl in *.
           destruct (wakeup_count_available k); simpl;
             (eexists _, _, _; split; [reflexivity|]); simpl;
             (split; [congruence|]).
           ++ left. split; reflexivity.
           ++ right. repeat split; congruence.
      * munfold. simpl. rewrite Hops.
        eexists _, _, _. split; [reflexivity|]. simpl.
        split; [reflexivity|]. left. split; reflexivity.
    + destruct (autosuspend_probe_run k w Hops)
        as (w1 & t & -> & Ho & Hi & He & _).
      eexists _, _, _. split; [reflexivity|]. split; [exact He|].
      destruct (selected_backend k).
      * left. split; [reflexivity | exact Hi].
      * right. repeat split; congruence.
Qed.

Lemma autosuspend_init_inited k w :
  autosuspend_inited w = true →
  autosuspend_init k w = Some (0, w, []).
Proof.
  intros Hin. unfold autosuspend_init, bind, gets. rewrite Hin. reflexivity.
Qed.

Lemma sem_post_run k w :
  sem_post k w
  = Some ((if sem_post_ok k then 0 else -1),
          (if sem_post_ok k then set_suspend_lockout (S (suspend_lockout w)) w else w),
          [SemPost]).
Proof. unfold sem_post. munfold. destruct (sem_post_ok k); reflexivity. Qed.

Lemma sem_wait_run k w :
  sem_wait k w
  = if sem_wait_ok k then
      match suspend_lockout w with
      | O => None
      | S n => Some (0, set_suspend_lockout n w, [SemWait])
      end
    else Some (-1, w, [SemWait]).
Proof.
  unfold sem_wait. munfold.
  destruct (sem_wait_ok k); simpl; [|reflexivity].
  destruct (suspend_lockout w); reflexivity.
Qed.

(** No backend operation writes the statics of the controller. *)
Lemma ops_enable_untouched k w r w' t :
  ops_enable k w = Some (r, w', t) → controller_untouched w w'.
Proof.
  unfold ops_enable, autosuspend_earlysuspend_enable,
    autosuspend_wakeup_count_enable, wait_for_state.
  unfold bind at 1. unfold gets at 1.
  destruct (autosuspend_ops w) as [[|]|]; [| |discriminate].
  - unfold bind at 1.
    destruct (get_sleep_state_total k w) as (s & ts & -> & _ & _).
    munfold. intros H.
    repeat (case_match; simplify_eq/=); repeat split.
  - rewrite sem_post_run. intros H. simplify_eq.
    destruct (sem_post_ok k); repeat split.
Qed.

Lemma ops_disable_untouched k w r w' t :
  ops_disable k w = Some (r, w', t) → controller_untouched w w'.
Proof.
  unfold ops_disable, autosuspend_earlysuspend_disable,
    autosuspend_wakeup_count_disable, wait_for_state.
  unfold bind at 1. unfold gets at 1.
  destruct (autosuspend_ops w) as [[|]|]; [| |discriminate].
  - munfold. intros H.
    repeat (case_match; simplify_eq/=); repeat split.
  - rewrite sem_wait_run. intros H.
    repeat (case_match; simplify_eq/=); repeat split.
Qed.

Lemma eqb0_negb (r : Z) : r ≠ 0 → negb (r =? 0) = true.
Proof. intros H. apply negb_true_iff, Z.eqb_neq. exact H. Qed.

Lemma autosuspend_enable_after_init k w w1 t1 :
  autosuspend_init k w = Some (0, w1, t1) →
  autosuspend_enable k w
  = if autosuspend_enabled w1 then Some (0, w1, t1)
    else match ops_enable k w1 with
         | None => None
         | Some (r, w2, t2) =>
             if r =? 0 then Some (0, set_autosuspend_enabled true w2, t1 ++ t2)
             else Some (r, w2, t1 ++ t2)
         end.
Proof.
  intros Hinit. unfold autosuspend_enable.
  unfold bind at 1. rewrite Hinit. cbn [negb Z.eqb].
  unfold bind at 1. unfold gets at 1.
  destruct (autosuspend_enabled w1).
  - unfold ret. rewrite app_nil_r. reflexivity.
  - unfold bind at 1.
    destruct (ops_enable k w1) as [[[r w2] t2]|]; [|reflexivity].
    destruct (r =? 0); cbn [negb]; munfold; rewrite !app_nil_r; reflexivity.
Qed.

Lemma autosuspend_disable_after_init k w w1 t1 :
  autosuspend_init k w = Some (0, w1, t1) →
  autosuspend_disable k w
  = if autosuspend_enabled w1 then
      match ops_disable k w1 with
      | None => None
      | Some (r, w2, t2) =>
          if r =? 0 then Some (0, set_autosuspend_enabled false w2, t1 ++ t2)
          else Some (r, w2, t1 ++ t2)
      end
    else Some (0, w1, t1).
Proof.
  intros Hinit. unfold autosuspend_disable.
  unfold bind at 1. rewrite Hinit. cbn [negb Z.eqb].
  unfold bind at 1. unfold gets at 1.
  destruct (autosuspend_enabled w1); cbn [negb].
  - unfold bind at 1.
    destruct (ops_disable k w1) as [[[r w2] t2]|]; [|reflexivity].
    destruct (r =? 0); cbn [negb]; munfold; rewrite !app_nil_r; reflexivity.
  - unfold ret. rewrite app_nil_r. reflexivity.
Qed.

(** C5: once initialisation has succeeded, [autosuspend_enable] returns 0
    without calling the backend when the engine is already enabled, and
    then makes no call and changes nothing at all;
    otherwise it calls the backend's enable, returns its status code and
    leaves the engine disabled when that code is not 0, and sets the
    engine enabled when it is 0. [autosuspend_disable] is the mirror image
    for the disabled engine. *)
Theorem autosuspend_enable_disable_forward
    (k : kernel) (w w1 : world) (t1 : list action) :
  autosuspend_init k w = Some (0, w1, t1) →
  (autosuspend_inited w = true → w1 = w ∧ t1 = [])
  ∧ (enabled_after_init w → autosuspend_enabled w = true →
       autosuspend_enable k w = Some (0, w, []))
  ∧ (autosuspend_enabled w = true →
       autosuspend_enable k w = Some (0, w1, t1)
       ∧ autosuspend_enabled w1 = true)
  ∧ (autosuspend_enabled w = false →
       ∀ r w2 t2, ops_enable k w1 = Some (r, w2, t2) →
         (r ≠ 0 → autosuspend_enable k w = Some (r, w2, t1 ++ t2)
                  ∧ autosuspend_enabled w2 = false)
         ∧ (r = 0 → autosuspend_enable k w
                    = Some (0, set_autosuspend_enabled true w2, t1 ++ t2)))
  ∧ (autosuspend_enabled w = false →
       autosuspend_disable k w = Some (0, w1, t1)
       ∧ autosuspend_enabled w1 = false)
  ∧ (autosuspend_enabled w = true →
       ∀ r w2 t2, ops_disable k w1 = Some (r, w2, t2) →
         (r ≠ 0 → autosuspend_disable k w = Some (r, w2, t1 ++ t2)
                  ∧ autosuspend_enabled w2 = true)
         ∧ (r = 0 → autosuspend_disable k w
                    = Some (0, set_autosuspend_enabled false w2, t1 ++ t2))).
Proof.
  intros Hinit.
  destruct (autosuspend_init_total k w) as (r0 & w0 & t0 & Hrun & Hen & _).
  rewrite Hinit in Hrun. injection Hrun as <- <- <-.
  assert (Hnoop : autosuspend_inited w = true → w1 = w ∧ t1 = []).
  { intros Hin. rewrite (autosuspend_init_inited k w Hin) in Hinit.
    injection Hinit as <- <-. split; reflexivity. }
  rewrite (autosuspend_enable_after_init k w w1 t1 Hinit).
  rewrite (autosuspend_disable_after_init k w w1 t1 Hinit).
  rewrite Hen.
  split; [exact Hnoop|].
  split.
  { intros Hcons Hw. destruct (Hnoop (Hcons Hw)) as [-> ->].
    rewrite Hw. reflexivity. }
  split; [intros Hw; rewrite Hw; split; reflexivity|].
  split.
  { intros Hw r w2 t2 Hops. rewrite Hw, Hops. split.
    - intros Hr. apply Z.eqb_neq in Hr. rewrite Hr. split; [reflexivity|].
      apply ops_enable_untouched in Hops as (_ & He & _). congruence.
    - intros ->. reflexivity. }
  split; [intros Hw; rewrite Hw; split; reflexivity|].
  intros Hw r w2 t2 Hops. rewrite Hw, Hops. split.
  - intros Hr. apply Z.eqb_neq in Hr. rewrite Hr. split; [reflexivity|].
    apply ops_disable_untouched in Hops as (_ & He & _). congruence.
  - intros ->. reflexivity.
Qed.

Lemma autosuspend_enable_init_fails k w r w1 t :
  autosuspend_init k w = Some (r, w1, t) → r ≠ 0 →
  autosuspend_enable k w = Some (r, w1, t).
Proof.
  intros Hinit Hr. unfold autosuspend_enable.
  unfold bind at 1. rewrite Hinit. rewrite (eqb0_negb r Hr).
  unfold ret. rewrite app_nil_r. reflexivity.
Qed.

Lemma autosuspend_disable_init_fails k w r w1 t :
  autosuspend_init k w = Some (r, w1, t) → r ≠ 0 →
  autosuspend_disable k w = Some (r, w1, t).
Proof.
  intros Hinit Hr. unfold autosuspend_disable.
  unfold bind at 1. rewrite Hinit. rewrite (eqb0_negb r Hr).
  unfold ret. rewrite app_nil_r. reflexivity.
Qed.

(** In every state the two calls can produce from the start, an enabled
    engine is an initialised one, so the call that finds the engine
    enabled returns at once: it makes no system call and changes
    nothing. *)
Lemma enabled_after_init_boot : enabled_after_init boot.
Proof. intros H. discriminate. Qed.

Lemma autosuspend_enable_keeps_enabled_after_init k w r w' t :
  enabled_after_init w →
  autosuspend_enable k w = Some (r, w', t) →
  enabled_after_init w'.
Proof.
  intros Hcons Hrun.
  destruct (autosuspend_init_total k w)
    as (r0 & w1 & t1 & Hinit & Hen & [[-> Hin1]|(-> & Hin1 & Hin & _)]).
  - rewrite (autosuspend_enable_after_init k w w1 t1 Hinit) in Hrun.
    destruct (autosuspend_enabled w1).
    + simplify_eq. intros _. exact Hin1.
    + destruct (ops_enable k w1) as [[[r1 w2] t2]|] eqn:Hops; [|discriminate].
      apply ops_enable_untouched in Hops as (_ & _ & Hi).
      destruct (r1 =? 0); simplify_eq; intros _; simpl; congruence.
  - rewrite (autosuspend_enable_init_fails k w _ w1 t1 Hinit) in Hrun
      by discriminate.
    simplify_eq. intros He. rewrite Hen in He.
    specialize (Hcons He). congruence.
Qed.

Lemma autosuspend_disable_keeps_enabled_after_init k w r w' t :
  enabled_after_init w →
  autosuspend_disable k w = Some (r, w', t) →
  enabled_after_init w'.
Proof.
  intros Hcons Hrun.
  destruct (autosuspend_init_total k w)
    as (r0 & w1 & t1 & Hinit & Hen & [[-> Hin1]|(-> & Hin1 & Hin & _)]).
  - rewrite (autosuspend_disable_after_init k w w1 t1 Hinit) in Hrun.
    destruct (autosuspend_enabled w1).
    + destruct (ops_disable k w1) as [[[r1 w2] t2]|] eqn:Hops; [|discriminate].
      apply ops_disable_untouched in Hops as (_ & _ & Hi).
      destruct (r1 =? 0); simplify_eq; intros _; simpl; congruence.
    + simplify_eq. intros _. exact Hin1.
  - rewrite (autosuspend_disable_init_fails k w _ w1 t1 Hinit) in Hrun
      by discriminate.
    simplify_eq. intros He. rewrite Hen in He.
    specialize (Hcons He). congruence.
Qed.

(** From a disabled engine on the wakeup-count backend: a failing
    [sem_post] is returned and leaves the engine disabled. *)
Lemma autosuspend_enable_disable_forward_witness :
  let w := set_autosuspend_inited true (set_autosuspend_ops (Some WakeupCount) boot) in
  let k := Kernel ∅ (λ _ _, 3) (λ _, None) (λ _ _, true) (λ _, true)
             true false true (λ _, true) None (λ _, 1) "" in
  autosuspend_init k w = Some (0, w, [])
  ∧ autosuspend_enable k w = Some (-1, w, [] ++ [SemPost])
  ∧ autosuspend_enabled w = false.
Proof.
  intros w k.
  assert (Hinit : autosuspend_init k w = Some (0, w, [])) by reflexivity.
  split; [exact Hinit|].
  destruct (autosuspend_enable_disable_forward k w w [] Hinit)
    as (_ & _ & _ & Hen & _).
  destruct (Hen eq_refl (-1) w [SemPost] eq_refl) as [Hfail _].
  apply Hfail. discriminate.
Defined.

(** C10: when [autosuspend_init] fails, the [inited] flag stays unset and
    [autosuspend_enable] and [autosuspend_disable] return the error; the
    next initialisation runs the whole probing sequence again and selects
    by what the kernel then answers. When it succeeds, the flag is set
    and every later initialisation returns 0 at once, without a system
    call. *)
Theorem autosuspend_init_failure_not_latched
    (k : kernel) (w : world) (r : Z) (w1 : world) (t : list action) :
  autosuspend_init k w = Some (r, w1, t) →
  (r ≠ 0 →
     autosuspend_inited w1 = false
     ∧ autosuspend_enable k w = Some (r, w1, t)
     ∧ autosuspend_disable k w = Some (r, w1, t)
     ∧ ∀ k2, autosuspend_init k2 w1 = autosuspend_probe k2 w1
             ∧ ∃ w2 t2,
                 autosuspend_init k2 w1
                 = Some (match selected_backend k2 with Some _ => 0 | None => -1 end,
                         w2, t2)
                 ∧ autosuspend_ops w2 = selected_backend k2)
  ∧ (r = 0 →
     autosuspend_inited w1 = true
     ∧ ∀ k2, autosuspend_init k2 w1 = Some (0, w1, [])).
Proof.
  intros Hinit.
  destruct (autosuspend_init_total k w) as (r0 & w0 & t0 & Hrun & Hen & Hcase).
  rewrite Hinit in Hrun. injection Hrun as <- <- <-.
  split.
  - intros Hr. destruct Hcase as [[-> _]|(-> & Hin1 & Hin & Hops)]; [done|].
    split; [exact Hin1|].
    split; [apply (autosuspend_enable_init_fails k w _ w1 t Hinit Hr)|].
    split; [apply (autosuspend_disable_init_fails k w _ w1 t Hinit Hr)|].
    intros k2.
    assert (Hre : autosuspend_init k2 w1 = autosuspend_probe k2 w1).
    { unfold autosuspend_init, bind, gets. rewrite Hin1.
      destruct (autosuspend_probe k2 w1) as [[[? ?] ?]|]; reflexivity. }
    split; [exact Hre|].
    destruct (autosuspend_probe_run k2 w1 Hops) as (w2 & t2 & Hp & Ho & _).
    exists w2, t2. split; [|exact Ho].
    rewrite Hre. exact Hp.
  - intros ->. destruct Hcase as [[_ Hin1]|(? & _)]; [|done].
    split; [exact Hin1|]. intros k2. apply autosuspend_init_inited, Hin1.
Qed.

(** On a kernel where nothing opens the first call fails, leaving the
    invalid descriptors in their statics; the next call, on a kernel that
    offers the wakeup count, selects it. *)
Lemma autosuspend_init_failure_not_latched_witness :
  let w1 := set_state_fd (-1) (set_sPowerStatefd (-1) boot) in
  autosuspend_init dead_kernel boot
  = Some (-1, w1, trace_of (autosuspend_init dead_kernel boot))
  ∧ autosuspend_enable dead_kernel boot
    = Some (-1, w1, trace_of (autosuspend_init dead_kernel boot))
  ∧ ∃ w2 t2, autosuspend_init wakeup_count_kernel w1 = Some (0, w2, t2)
             ∧ autosuspend_ops w2 = Some WakeupCount.
Proof.
  intros w1.
  assert (Hinit : autosuspend_init dead_kernel boot
                  = Some (-1, w1, trace_of (autosuspend_init dead_kernel boot)))
    by (vm_compute; reflexivity).
  split; [exact Hinit|].
  destruct (autosuspend_init_failure_not_latched dead_kernel boot _ _ _ Hinit)
    as [Hfail _].
  destruct (Hfail ltac:(discriminate)) as (_ & Hen & _ & Hnext).
  split; [exact Hen|].
  destruct (Hnext wakeup_count_kernel) as (_ & w2 & t2 & Hrun & Hops).
  exists w2, t2. split; [exact Hrun | exact Hops].
Defined.

(** ** Backend selection *)

(** With the flag at its default and a readable power-state node, early
    suspend is selected although no fb-wait node exists; the
    specification's wording would have the wakeup count here. *)
Lemma selection_by_fb_nodes_fails :
  (∃ w1 t, autosuspend_init no_fb_nodes_kernel boot = Some (0, w1, t)
           ∧ earlysuspend_flag no_fb_nodes_kernel = true
           ∧ fb_nodes_present no_fb_nodes_kernel = false
           ∧ autosuspend_ops w1 = Some EarlySuspend)
  ∧ ¬ selection_by_fb_nodes.
Proof.
  split.
  - eexists _, _. split; [vm_compute; reflexivity|].
    repeat split.
  - intros Hsel.
    assert (Hrun : ∃ w1 t,
               autosuspend_init no_fb_nodes_kernel boot = Some (0, w1, t)
               ∧ autosuspend_ops w1 = Some EarlySuspend)
      by (eexists _, _; split; [vm_compute; reflexivity | reflexivity]).
    destruct Hrun as (w1 & t & Hrun & Hops).
    specialize (Hsel _ _ _ _ Hrun). rewrite Hops in Hsel.
    vm_compute in Hsel. discriminate.
Qed.

(** The first initialisation starts the monitor thread exactly when it
    gets to the early-suspend backend, the power-state node opens and
    reads, and both fb-wait nodes exist. *)
Lemma autosuspend_init_monitor_thread k r w1 t :
  autosuspend_init k boot = Some (r, w1, t) →
  PthreadCreate earlysuspend_thread ∈ t
  ↔ earlysuspend_flag k = true ∧ power_state_readable k = true
    ∧ fb_nodes_present k = true.
Proof.
  unfold autosuspend_init, autosuspend_probe, autosuspend_earlysuspend_init,
    start_earlysuspend_thread, wait_for_fb_wake, open_file, pthread_create,
    autosuspend_wakeup_count_init, init_android_power_button,
    earlysuspend_flag, power_state_readable, fb_nodes_present.
  munfold. simpl.
  rewrite !ltb_leb_neg.
  destruct (property_get k "sleep.earlysuspend" (Some "1")) as [len buf].
  cbn [snd].
  destruct (first_char_is "1" buf),
    (0 <=? open_fd k SYS_POWER_STATE O_RDWR),
    (read_result k SYS_POWER_STATE),
    (access_ok k EARLYSUSPEND_WAIT_FOR_FB_SLEEP),
    (access_ok k EARLYSUSPEND_WAIT_FOR_FB_WAKE); simpl; intros H;
    repeat (case_match; simplify_eq/=); try simplify_eq/=;
    (split;
     [ intros Hin; first [ solve [exfalso; not_in_trace Hin] | repeat split ]
     | intros (Hf & Hr & Hn);
       first [ discriminate | rewrite !elem_of_cons; auto 20 ] ]).
Qed.

(** C3 (amended): the first initialisation always returns, and what it
    selects is a function of the kernel's answers: early suspend exactly
    when the flag is set and the power-state node opens and reads, the
    wakeup count exactly when that does not hold and the wakeup-count
    initialisation succeeds, and nothing (status -1) otherwise. Absent
    fb-wait nodes do not fail early suspend: they only leave the monitor
    thread unstarted and [wait_for_earlysuspend] unset. *)
Theorem backend_selection (k : kernel) :
  ∃ w1 t,
    autosuspend_init k boot
    = Some (match selected_backend k with Some _ => 0 | None => -1 end, w1, t)
    ∧ (autosuspend_ops w1 = Some EarlySuspend
       ↔ earlysuspend_flag k = true ∧ power_state_readable k = true)
    ∧ (autosuspend_ops w1 = Some WakeupCount
       ↔ ¬ (earlysuspend_flag k = true ∧ power_state_readable k = true)
         ∧ wakeup_count_available k = true)
    ∧ (autosuspend_ops w1 = None
       ↔ ¬ (earlysuspend_flag k = true ∧ power_state_readable k = true)
         ∧ wakeup_count_available k = false)
    ∧ (wait_for_earlysuspend w1 = true
       ↔ autosuspend_ops w1 = Some EarlySuspend
         ∧ fb_nodes_present k = true
         ∧ pthread_create_ok k earlysuspend_thread = true)
    ∧ (PthreadCreate earlysuspend_thread ∈ t
       ↔ autosuspend_ops w1 = Some EarlySuspend ∧ fb_nodes_present k = true).
Proof.
  destruct (autosuspend_probe_run k boot eq_refl)
    as (w1 & t & Hrun & Hops & _ & _ & _ & _ & Hwait).
  exists w1, t.
  assert (Hinit : autosuspend_init k boot
                  = Some (match selected_backend k with
                          | Some _ => 0 | None => -1 end, w1, t)).
  { unfold autosuspend_init, bind, gets. simpl. rewrite Hrun.
    destruct (selected_backend k); reflexivity. }
  split; [exact Hinit|].
  rewrite (autosuspend_init_monitor_thread k _ w1 t Hinit).
  rewrite Hwait, Hops. unfold selected_backend. simpl.
  destruct (earlysuspend_flag k), (power_state_readable k),
    (wakeup_count_available k), (fb_nodes_present k),
    (pthread_create_ok k earlysuspend_thread); simpl;
    repeat split; intros; try discriminate; try tauto;
    try (destruct_and?; discriminate);
    try (intros [? ?]; discriminate).
Qed.

(** ** The suspend loop, step by step *)

Section Steps.

(** The kernel that answers the step. *)
Variable k : kernel.

Lemma step_AtRead w :
  suspend_thread_step k AtRead w
  = Some (match read_result k SYS_POWER_WAKEUP_COUNT with
          | None => AtRead
          | Some s => if decide (String.substring 0 20 s = "") then AtRead
                      else AtSemWait (String.substring 0 20 s)
          end, w, [Usleep 100000; Read SYS_POWER_WAKEUP_COUNT]).
Proof.
  unfold suspend_thread_step. munfold.
  destruct (read_result k SYS_POWER_WAKEUP_COUNT) as [s|]; [|reflexivity].
  destruct (decide (String.substring 0 20 s = "")); reflexivity.
Qed.

Lemma step_AtSemWait tok w :
  suspend_thread_step k (AtSemWait tok) w
  = if sem_wait_ok k then
      match suspend_lockout w with
      | O => None
      | S n => Some (AtCommit tok, set_suspend_lockout n w, [SemWait])
      end
    else Some (AtRead, w, [SemWait]).
Proof.
  unfold suspend_thread_step. unfold bind. rewrite sem_wait_run.
  destruct (sem_wait_ok k); [|reflexivity].
  destruct (suspend_lockout w); reflexivity.
Qed.

Lemma step_AtCommit tok w :
  suspend_thread_step k (AtCommit tok) w
  = Some ((if write_ok k SYS_POWER_WAKEUP_COUNT tok then AtSuspend else AtSemPost),
          w, [Write SYS_POWER_WAKEUP_COUNT tok]).
Proof.
  unfold suspend_thread_step. munfold.
  destruct (write_ok k SYS_POWER_WAKEUP_COUNT tok); reflexivity.
Qed.

Lemma step_AtSuspend w :
  ∃ s t,
    get_sleep_state k w = Some (s, set_sleep_state s w, t)
    ∧ probes_only t
    ∧ suspend_thread_step k AtSuspend w
      = Some (AtSemPost, set_sleep_state s w,
              t ++ [Write SYS_POWER_STATE s]
                ++ (if write_ok k SYS_POWER_STATE s
                    then key_edge (uinput_fd w) KEY_WAKEUP 1
                         ++ key_edge (uinput_fd w) KEY_WAKEUP 0
                    else [])
                ++ match wakeup_func w with
                   | Some cb => [Call cb (write_ok k SYS_POWER_STATE s)]
                   | None => []
                   end).
Proof.
  destruct (get_sleep_state_total k w) as (s & t & Hs & _ & Hp).
  exists s, t. split; [exact Hs|]. split; [exact Hp|].
  unfold suspend_thread_step. unfold bind at 1. rewrite Hs.
  clear Hs. destruct w as [? ? ? ? ? ? ? ? ufd ? ? ? ? func ?].
  unfold send_key_wakeup, emit_key. munfold. simpl.
  destruct (write_ok k SYS_POWER_STATE s), func; simpl;
    rewrite ?app_nil_r; reflexivity.
Qed.

Lemma step_AtSemPost w :
  suspend_thread_step k AtSemPost w
  = Some (AtRead,
          (if sem_post_ok k then set_suspend_lockout (S (suspend_lockout w)) w else w),
          [SemPost]).
Proof.
  unfold suspend_thread_step. unfold bind. rewrite sem_post_run. reflexivity.
Qed.

Lemma run_to_top_cons ks pc w :
  run_to_top (k :: ks) pc w
  = match suspend_thread_step k pc w with
    | None => None
    | Some (AtRead, w1, t1) => Some (tt, w1, t1)
    | Some (pc', w1, t1) =>
        match run_to_top ks pc' w1 with
        | None => None
        | Some (_, w2, t2) => Some (tt, w2, t1 ++ t2)
        end
    end.
Proof.
  simpl. unfold bind.
  destruct (suspend_thread_step k pc w) as [[[pc' w1] t1]|]; [|reflexivity].
  destruct pc'; unfold ret; rewrite ?app_nil_r; try reflexivity;
    match goal with
    | |- context [run_to_top ks ?p w1] =>
        destruct (run_to_top ks p w1) as [[[[] ?] ?]|]; reflexivity
    end.
Qed.

End Steps.

(** From the commit on, a rejected write leads straight to [sem_post]. *)
Lemma run_to_top_rejected k1 k2 ks tok w :
  write_ok k1 SYS_POWER_WAKEUP_COUNT tok = false →
  run_to_top (k1 :: k2 :: ks) (AtCommit tok) w
  = Some (tt,
          (if sem_post_ok k2 then set_suspend_lockout (S (suspend_lockout w)) w else w),
          [Write SYS_POWER_WAKEUP_COUNT tok; SemPost]).
Proof.
  intros Hrej. rewrite run_to_top_cons, step_AtCommit, Hrej.
  rewrite run_to_top_cons, step_AtSemPost. reflexivity.
Qed.

(** A rejected commit is followed by neither callback nor sleep-state
    write: the registered callback 7 is not called at all. *)
Lemma rejected_commit_calls_back_fails :
  suspend_cycle racing_kernel armed_world
  = Some (tt, armed_world,
          [Usleep 100000; Read SYS_POWER_WAKEUP_COUNT; SemWait;
           Write SYS_POWER_WAKEUP_COUNT "42"; SemPost])
  ∧ ¬ rejected_commit_calls_back.
Proof.
  split; [vm_compute; reflexivity|].
  intros Hclaim.
  destruct (Hclaim racing_kernel armed_world armed_world 7%nat "42"
              [Usleep 100000; Read SYS_POWER_WAKEUP_COUNT; SemWait;
               Write SYS_POWER_WAKEUP_COUNT "42"; SemPost])
    as [Hcall _].
  - reflexivity.
  - vm_compute. reflexivity.
  - rewrite !elem_of_cons. auto 10.
  - reflexivity.
  - rewrite !elem_of_cons, elem_of_nil in Hcall.
    repeat (destruct Hcall as [Hcall|Hcall]; [discriminate|]). exact Hcall.
Qed.

Lemma probes_only_no_write t path data :
  probes_only t → Write path data ∉ t.
Proof.
  intros Hp Hin. unfold probes_only in Hp. rewrite Forall_forall in Hp.
  specialize (Hp _ Hin). discriminate.
Qed.

Lemma get_sleep_state_in k w :
  ∃ t, get_sleep_state k w
       = Some (sleep_state_in k w, set_sleep_state (sleep_state_in k w) w, t)
       ∧ probes_only t ∧ sleep_state_in k w ≠ "".
Proof.
  unfold sleep_state_in.
  destruct (decide (sleep_state w = "")) as [He|Hne].
  - destruct (get_sleep_state_resolves k w He) as (t & Ht & Hp).
    exists t. split; [exact Ht|]. split; [exact Hp|].
    apply resolved_sleep_state_nonempty.
  - exists []. rewrite (get_sleep_state_cached k w Hne).
    split; [destruct w; reflexivity|]. split; [constructor | exact Hne].
Qed.

Lemma sleep_state_in_lockout k n w :
  sleep_state_in k (set_suspend_lockout n w) = sleep_state_in k w.
Proof. destruct w; reflexivity. Qed.

Lemma step_AtSuspend_exact k w :
  ∃ probes,
    probes_only probes
    ∧ sleep_state_in k w ≠ ""
    ∧ suspend_thread_step k AtSuspend w
      = Some (AtSemPost, set_sleep_state (sleep_state_in k w) w,
              suspend_actions k w probes).
Proof.
  destruct (get_sleep_state_in k w) as (t & Hget & Hp & Hne).
  destruct (step_AtSuspend k w) as (st & ts & Hs & _ & Hstep).
  rewrite Hget in Hs. injection Hs as <- _ <-.
  exists t. split; [exact Hp|]. split; [exact Hne|].
  rewrite Hstep. unfold suspend_actions. reflexivity.
Qed.

Lemma suspend_actions_no_sem k w probes a :
  probes_only probes →
  a ∈ suspend_actions k w probes →
  a ≠ SemPost ∧ a ≠ SemWait ∧ (∀ tok, a ≠ Write SYS_POWER_WAKEUP_COUNT tok).
Proof.
  intros Hp Hin. unfold suspend_actions in Hin.
  unfold probes_only in Hp. rewrite Forall_forall in Hp.
  apply elem_of_app in Hin as [Hin|Hin].
  { specialize (Hp _ Hin). destruct a; try discriminate;
      repeat split; intros; discriminate. }
  apply elem_of_cons in Hin as [->|Hin];
    [repeat split; intros; discriminate|].
  apply elem_of_app in Hin as [Hin|Hin].
  - destruct (write_ok k SYS_POWER_STATE (sleep_state_in k w)); simpl in Hin;
      repeat (apply elem_of_cons in Hin as [->|Hin];
              [repeat split; intros; discriminate|]);
      apply elem_of_nil in Hin; contradiction.
  - destruct (wakeup_func w);
      repeat (apply elem_of_cons in Hin as [->|Hin];
              [repeat split; intros; discriminate|]);
      apply elem_of_nil in Hin; contradiction.
Qed.

(** The five ways through the body of the loop. *)
Lemma suspend_cycle_cases k w :
  ((read_result k SYS_POWER_WAKEUP_COUNT = None
    ∨ ∃ s, read_result k SYS_POWER_WAKEUP_COUNT = Some s ∧ token_of s = "")
   ∧ suspend_cycle k w
     = Some (tt, w, [Usleep 100000; Read SYS_POWER_WAKEUP_COUNT]))
  ∨ ∃ s, read_result k SYS_POWER_WAKEUP_COUNT = Some s ∧ token_of s ≠ ""
    ∧ ((sem_wait_ok k = false
        ∧ suspend_cycle k w
          = Some (tt, w, [Usleep 100000; Read SYS_POWER_WAKEUP_COUNT; SemWait]))
       ∨ (sem_wait_ok k = true ∧ suspend_lockout w = 0%nat
          ∧ suspend_cycle k w = None)
       ∨ ∃ n, sem_wait_ok k = true ∧ suspend_lockout w = S n
         ∧ ((write_ok k SYS_POWER_WAKEUP_COUNT (token_of s) = false
             ∧ suspend_cycle k w
               = Some (tt,
                       (if sem_post_ok k
                        then set_suspend_lockout (S n) (set_suspend_lockout n w)
                        else set_suspend_lockout n w),
                       [Usleep 100000; Read SYS_POWER_WAKEUP_COUNT; SemWait;
                        Write SYS_POWER_WAKEUP_COUNT (token_of s); SemPost]))
            ∨ (write_ok k SYS_POWER_WAKEUP_COUNT (token_of s) = true
               ∧ ∃ probes,
                   probes_only probes
                   ∧ sleep_state_in k w ≠ ""
                   ∧ suspend_cycle k w
                     = Some (tt,
                             (if sem_post_ok k
                              then set_suspend_lockout (S n)
                                     (set_sleep_state (sleep_state_in k w)
                                        (set_suspend_lockout n w))
                              else set_sleep_state (sleep_state_in k w)
                                     (set_suspend_lockout n w)),
                             [Usleep 100000; Read SYS_POWER_WAKEUP_COUNT; SemWait;
                              Write SYS_POWER_WAKEUP_COUNT (token_of s)]
                             ++ suspend_actions k w probes ++ [SemPost])))).
Proof.
  unfold suspend_cycle, token_of.
  rewrite run_to_top_cons, step_AtRead.
  destruct (read_result k SYS_POWER_WAKEUP_COUNT) as [s|]; [|left; auto].
  destruct (decide (String.substring 0 20 s = "")) as [He|Hne];
    [left; split; [right; eauto | reflexivity]|].
  right. exists s. split; [reflexivity|]. split; [exact Hne|].
  rewrite run_to_top_cons, step_AtSemWait.
  destruct (sem_wait_ok k); [|left; auto].
  right.
  destruct (suspend_lockout w) as [|n] eqn:Hsem; [left; auto|].
  right. exists n. split; [reflexivity|]. split; [reflexivity|].
  destruct (write_ok k SYS_POWER_WAKEUP_COUNT (String.substring 0 20 s)) eqn:Hok.
  - right. split; [reflexivity|].
    destruct (step_AtSuspend_exact k (set_suspend_lockout n w))
      as (probes & Hp & Hnonempty & Hstep).
    rewrite sleep_state_in_lockout in Hnonempty, Hstep.
    exists probes. split; [exact Hp|]. split; [exact Hnonempty|].
    rewrite run_to_top_cons, step_AtCommit, Hok.
    rewrite run_to_top_cons, Hstep.
    rewrite run_to_top_cons, step_AtSemPost.
    assert (Hacts : suspend_actions k (set_suspend_lockout n w) probes
                    = suspend_actions k w probes).
    { unfold suspend_actions. rewrite sleep_state_in_lockout.
      destruct w; reflexivity. }
    rewrite Hacts. simpl.
    destruct (sem_post_ok k); reflexivity.
  - left. split; [reflexivity|].
    rewrite (run_to_top_rejected k k _ _ _ Hok).
    simpl. destruct (sem_post_ok k); reflexivity.
Qed.

(** A cycle calls the callback with [false] only after an accepted commit
    and a failed write of the sleep state. *)
Lemma callback_false_in_cycle k w w' t cb :
  suspend_cycle k w = Some (tt, w', t) →
  Call cb false ∈ t →
  wakeup_func w = Some cb
  ∧ (∃ tok, Write SYS_POWER_WAKEUP_COUNT tok ∈ t
            ∧ write_ok k SYS_POWER_WAKEUP_COUNT tok = true)
  ∧ write_ok k SYS_POWER_STATE (sleep_state_in k w) = false.
Proof.
  intros Hrun Hin.
  destruct (suspend_cycle_cases k w) as [[_ Hc]|(s & _ & _ & Hc)].
  { rewrite Hc in Hrun. simplify_eq. not_in_trace Hin. }
  destruct Hc as [[_ Hc]|[(_ & _ & Hc)|(n & _ & _ & Hc)]].
  { rewrite Hc in Hrun. simplify_eq. not_in_trace Hin. }
  { rewrite Hc in Hrun. discriminate. }
  destruct Hc as [[_ Hc]|(Hok & probes & Hp & _ & Hc)].
  { rewrite Hc in Hrun. simplify_eq. not_in_trace Hin. }
  rewrite Hc in Hrun. simplify_eq.
  repeat (apply elem_of_cons in Hin as [Hin|Hin]; [discriminate|]).
  apply elem_of_app in Hin as [Hin|Hin]; [|not_in_trace Hin].
  unfold suspend_actions in Hin.
  apply elem_of_app in Hin as [Hin|Hin].
  { unfold probes_only in Hp. rewrite Forall_forall in Hp.
    specialize (Hp _ Hin). discriminate. }
  apply elem_of_cons in Hin as [Hin|Hin]; [discriminate|].
  apply elem_of_app in Hin as [Hin|Hin].
  { destruct (write_ok k SYS_POWER_STATE (sleep_state_in k w));
      not_in_trace Hin. }
  destruct (wakeup_func w) as [cb'|]; [|not_in_trace Hin].
  apply elem_of_cons in Hin as [Hin|Hin]; [|not_in_trace Hin].
  injection Hin as -> Hfalse.
  split; [reflexivity|]. split; [|symmetry; exact Hfalse].
  exists (token_of s). split; [|exact Hok].
  simpl. rewrite !elem_of_cons. auto 10.
Qed.

(** C2 (amended): in every cycle in which the commit write of the token
    is rejected, the cycle is exactly: the pause, the read of the
    counter, [sem_wait], the rejected write, [sem_post]. The sleep-state
    node is not written, no key is synthesised, and the wakeup callback is
    not called at all in that cycle; the registered callback and the
    cached sleep state stay as they were. A cycle calls the callback with
    [false] only when its commit was accepted and its write of the sleep
    state then failed. *)
Theorem rejected_commit_skips_suspend
    (k : kernel) (w w' : world) (t : list action) (tok : string) :
  suspend_cycle k w = Some (tt, w', t) →
  Write SYS_POWER_WAKEUP_COUNT tok ∈ t →
  write_ok k SYS_POWER_WAKEUP_COUNT tok = false →
  t = [Usleep 100000; Read SYS_POWER_WAKEUP_COUNT; SemWait;
       Write SYS_POWER_WAKEUP_COUNT tok; SemPost]
  ∧ (∀ s, Write SYS_POWER_STATE s ∉ t)
  ∧ (∀ cb success, Call cb success ∉ t)
  ∧ (∀ fd ev, UinputWrite fd ev ∉ t)
  ∧ wakeup_func w' = wakeup_func w
  ∧ sleep_state w' = sleep_state w
  ∧ (∀ k2 w2 w3 t2 cb,
       suspend_cycle k2 w2 = Some (tt, w3, t2) →
       Call cb false ∈ t2 →
       wakeup_func w2 = Some cb
       ∧ (∃ tok2, Write SYS_POWER_WAKEUP_COUNT tok2 ∈ t2
                  ∧ write_ok k2 SYS_POWER_WAKEUP_COUNT tok2 = true)
       ∧ write_ok k2 SYS_POWER_STATE (sleep_state_in k2 w2) = false).
Proof.
  intros Hrun Hin Hrej.
  assert (Hshape :
    t = [Usleep 100000; Read SYS_POWER_WAKEUP_COUNT; SemWait;
         Write SYS_POWER_WAKEUP_COUNT tok; SemPost]
    ∧ wakeup_func w' = wakeup_func w ∧ sleep_state w' = sleep_state w).
  { unfold suspend_cycle in Hrun.
    rewrite run_to_top_cons, step_AtRead in Hrun.
    destruct (read_result k SYS_POWER_WAKEUP_COUNT) as [s|].
    2:{ simplify_eq. not_in_trace Hin. }
    destruct (decide (String.substring 0 20 s = "")) as [He|Hne].
    { simplify_eq. not_in_trace Hin. }
    set (tok' := String.substring 0 20 s) in *.
    rewrite run_to_top_cons, step_AtSemWait in Hrun.
    destruct (sem_wait_ok k).
    2:{ simplify_eq. not_in_trace Hin. }
    destruct (suspend_lockout w) as [|n] eqn:Hsem; [discriminate|].
    destruct (write_ok k SYS_POWER_WAKEUP_COUNT tok') eqn:Hok.
    - exfalso.
      rewrite run_to_top_cons, step_AtCommit, Hok in Hrun.
      rewrite run_to_top_cons in Hrun.
      destruct (step_AtSuspend k (set_suspend_lockout n w))
        as (st & ts & _ & Hp & Hstep).
      rewrite Hstep in Hrun.
      rewrite run_to_top_cons, step_AtSemPost in Hrun.
      simplify_eq.
      repeat (apply elem_of_cons in Hin as [Hin|Hin]; [discriminate|]).
      apply elem_of_cons in Hin as [Hin|Hin];
        [injection Hin as ->; congruence|].
      apply elem_of_app in Hin as [Hin|Hin].
      + apply elem_of_app in Hin as [Hin|Hin];
          [exact (probes_only_no_write _ _ _ Hp Hin)|].
        apply elem_of_cons in Hin as [Hin|Hin]; [discriminate|].
        apply elem_of_app in Hin as [Hin|Hin].
        * destruct (write_ok k SYS_POWER_STATE st); not_in_trace Hin.
        * destruct (wakeup_func _); not_in_trace Hin.
      + not_in_trace Hin.
    - rewrite (run_to_top_rejected k k _ tok' _ Hok) in Hrun.
      simplify_eq.
      repeat (apply elem_of_cons in Hin as [Hin|Hin]; [discriminate|]).
      apply elem_of_cons in Hin as [Hin|Hin]; [|not_in_trace Hin].
      injection Hin as ->.
      split; [reflexivity|].
      destruct (sem_post_ok k); split; reflexivity. }
  destruct Hshape as (-> & Hf & Hs).
  split; [reflexivity|].
  split; [intros; intros Hin'; not_in_trace Hin'|].
  split; [intros; intros Hin'; not_in_trace Hin'|].
  split; [intros; intros Hin'; not_in_trace Hin'|].
  split; [exact Hf|]. split; [exact Hs|].
  intros k2 w2 w3 t2 cb. apply callback_false_in_cycle.
Qed.

(** The counter reads "42" and has moved on before the commit. *)
Lemma rejected_commit_skips_suspend_witness :
  suspend_cycle racing_kernel armed_world
  = Some (tt, armed_world,
          [Usleep 100000; Read SYS_POWER_WAKEUP_COUNT; SemWait;
           Write SYS_POWER_WAKEUP_COUNT "42"; SemPost])
  ∧ (∀ cb success,
       Call cb success ∉ [Usleep 100000; Read SYS_POWER_WAKEUP_COUNT; SemWait;
                          Write SYS_POWER_WAKEUP_COUNT "42"; SemPost]).
Proof.
  assert (Hrun : suspend_cycle racing_kernel armed_world
                 = Some (tt, armed_world,
                         [Usleep 100000; Read SYS_POWER_WAKEUP_COUNT; SemWait;
                          Write SYS_POWER_WAKEUP_COUNT "42"; SemPost]))
    by (vm_compute; reflexivity).
  split; [exact Hrun|].
  assert (Hin : Write SYS_POWER_WAKEUP_COUNT "42"
                ∈ [Usleep 100000; Read SYS_POWER_WAKEUP_COUNT; SemWait;
                   Write SYS_POWER_WAKEUP_COUNT "42"; SemPost])
    by (rewrite !elem_of_cons; auto 10).
  apply (rejected_commit_skips_suspend racing_kernel armed_world armed_world
           _ "42" Hrun Hin eq_refl).
Defined.

(** ** The power-button monitor *)

Lemma release_not_resume iev :
  is_power_release iev = true → is_resume iev = false.
Proof.
  unfold is_power_release, is_resume, EV_KEY, EV_SYN.
  destruct (ev_type iev =? 1) eqn:H1; [|discriminate].
  apply Z.eqb_eq in H1. rewrite H1. reflexivity.
Qed.

(** A failed [read] is handled as the event that [iev] holds. *)
Lemma handle_fd_event doubleclick st r iev :
  event_handled r = Some iev →
  handle_fd doubleclick st r = handle_fd doubleclick st (Event iev).
Proof. intros Hev. unfold handle_fd. rewrite Hev. reflexivity. Qed.

Lemma handle_release_now doubleclick st iev w :
  is_power_release iev = true →
  negb doubleclick || (0 <? timeout st) = true →
  handle_fd doubleclick st (Event iev) w
  = Some (BtnState (-1) (longpress st), w,
          if longpress st then long_press (uinput_fd w)
          else short_press (uinput_fd w)).
Proof.
  intros Hrel Hnow. unfold handle_fd. cbn [event_handled]. rewrite Hrel, Hnow.
  unfold bind at 1. unfold gets at 1. unfold bind at 1.
  rewrite send_key_power_run. unfold ret.
  destruct (longpress st); reflexivity.
Qed.

Lemma handle_release_arm st iev w :
  is_power_release iev = true →
  timeout st <= 0 →
  handle_fd true st (Event iev) w = Some (BtnState 1000 (longpress st), w, []).
Proof.
  intros Hrel Hto. unfold handle_fd. cbn [event_handled]. rewrite Hrel.
  replace (0 <? timeout st) with false by (symmetry; apply Z.ltb_ge; lia).
  reflexivity.
Qed.

Lemma handle_resume doubleclick st iev w :
  is_resume iev = true →
  handle_fd doubleclick st (Event iev) w = Some (BtnState 1000 false, w, []).
Proof.
  intros Hres. unfold handle_fd. cbn [event_handled].
  destruct (is_power_release iev) eqn:Hrel.
  - apply release_not_resume in Hrel. congruence.
  - rewrite Hres. reflexivity.
Qed.

Lemma powerbtnd_timeout doubleclick cnt st w :
  powerbtnd_iteration doubleclick (S cnt) PollTimeout st w
  = Some (Some (BtnState (-1) true), w, short_press (uinput_fd w)).
Proof. reflexivity. Qed.

Lemma powerbtnd_one_event doubleclick cnt st r w :
  powerbtnd_iteration doubleclick (S cnt) (PollReady [r]) st w
  = match handle_fd doubleclick st r w with
    | Some (st', w', t) => Some (Some st', w', t)
    | None => None
    end.
Proof.
  unfold powerbtnd_iteration. simpl. rewrite take_nil. simpl. unfold bind.
  destruct (handle_fd doubleclick st r w) as [[[st' w'] t]|]; [|reflexivity].
  unfold ret. rewrite !app_nil_r. reflexivity.
Qed.

Lemma powerbtnd_loop_cons doubleclick cnt p polls st w :
  powerbtnd_loop doubleclick cnt (p :: polls) st w
  = match powerbtnd_iteration doubleclick cnt p st w with
    | None => None
    | Some (None, w1, t1) => Some ((st, Returned), w1, t1)
    | Some (Some st1, w1, t1) =>
        match powerbtnd_loop doubleclick cnt polls st1 w1 with
        | None => None
        | Some (r, w2, t2) => Some (r, w2, t1 ++ t2)
        end
    end.
Proof.
  simpl. unfold bind.
  destruct (powerbtnd_iteration doubleclick cnt p st w)
    as [[[[st1|] w1] t1]|]; [| |reflexivity].
  - destruct (powerbtnd_loop doubleclick cnt polls st1 w1)
      as [[[r w2] t2]|]; reflexivity.
  - unfold ret. rewrite app_nil_r. reflexivity.
Qed.

(** One descriptor leaves the long-press flag as it is, unless the event
    it goes on with is a resume report, which clears it. *)
Lemma handle_fd_flag doubleclick st r w st' w' t :
  handle_fd doubleclick st r w = Some (st', w', t) →
  longpress st' = longpress st
  ∨ (longpress st' = false
     ∧ ∃ iev, event_handled r = Some iev ∧ is_resume iev = true).
Proof.
  destruct (event_handled r) as [iev|] eqn:Hev.
  2:{ unfold handle_fd. rewrite Hev. intros H. unfold ret in H.
      simplify_eq. left. reflexivity. }
  rewrite (handle_fd_event doubleclick st r iev Hev).
  destruct (is_power_release iev) eqn:Hrel.
  - destruct (negb doubleclick || (0 <? timeout st)) eqn:Hnow.
    + rewrite (handle_release_now doubleclick st iev w Hrel Hnow).
      intros H. simplify_eq. left. reflexivity.
    + unfold handle_fd. cbn [event_handled]. rewrite Hrel, Hnow.
      intros H. unfold ret in H. simplify_eq. left. reflexivity.
  - destruct (is_resume iev) eqn:Hres.
    + rewrite (handle_resume doubleclick st iev w Hres).
      intros H. simplify_eq. right. split; [reflexivity|]. eauto.
    + unfold handle_fd. cbn [event_handled]. rewrite Hrel, Hres.
      intros H. unfold ret in H. simplify_eq. left. reflexivity.
Qed.

Lemma handle_fds_flag doubleclick rs :
  ∀ st w st' w' t,
    handle_fds doubleclick st rs w = Some (st', w', t) →
    longpress st' = true → longpress st = true.
Proof.
  induction rs as [|r rs IH]; intros st w st' w' t Hrun Hset.
  - simpl in Hrun. unfold ret in Hrun. simplify_eq. exact Hset.
  - simpl in Hrun. unfold bind in Hrun.
    destruct (handle_fd doubleclick st r w) as [[[st1 w1] t1]|] eqn:H1;
      [|discriminate].
    destruct (handle_fds doubleclick st1 rs w1) as [[[st2 w2] t2]|] eqn:H2;
      [|discriminate].
    simplify_eq.
    pose proof (IH _ _ _ _ _ H2 Hset) as Hmid.
    destruct (handle_fd_flag _ _ _ _ _ _ _ H1) as [Heq|[Hclr _]]; congruence.
Qed.

(** With double click off the release is replayed at once with the flag
    as it stands, long at start-up, and the flag stays set; the resume
    report that follows cannot take the long press back. *)
Lemma power_button_wording_fails :
  handle_fd false (BtnState (-1) true) (Event power_release) boot
  = Some (BtnState (-1) true, boot, long_press (-1))
  ∧ handle_fd true (BtnState 1000 false) (Event power_release) boot
    = Some (BtnState (-1) false, boot, short_press (-1))
  ∧ ¬ release_clears_longpress
  ∧ ¬ release_then_resume_is_short.
Proof.
  split; [reflexivity|]. split; [reflexivity|]. split.
  - intros Hclaim.
    specialize (Hclaim false (BtnState (-1) true) (BtnState (-1) true)
                  boot boot (long_press (-1)) (or_introl eq_refl) eq_refl).
    discriminate.
  - intros Hclaim.
    apply (Hclaim false (BtnState (-1) true) boot boot
             (BtnState (-1) true, Polling)
             (long_press (-1) ++ short_press (-1)) eq_refl).
    unfold long_press, short_press, key_edge. simpl.
    rewrite !elem_of_cons. auto 10.
Qed.

(** C7 (amended): a power-key release is replayed at once when double
    click is off or a window is pending, as a long or a short press by
    the long-press flag, and the flag is left as it is; with double click
    on and no window pending the release only arms the 1000 ms window. A
    poll that times out synthesises exactly one short press, clears the
    window and sets the flag again. A resume report clears the flag and
    arms a fresh window, so with double click on and no window pending a
    release followed by a resume report synthesises nothing by itself, and
    the press that completes the window, on its timeout or on the next
    release, is one short press. Nothing but a resume report clears the
    flag, and nothing but a poll that times out sets it again. *)
Theorem power_button_release_and_window
    (doubleclick : bool) (st : btn_state) (release resume : input_event)
    (cnt : nat) (w : world) :
  is_power_release release = true →
  is_resume resume = true →
  (doubleclick = false ∨ 0 < timeout st →
     handle_fd doubleclick st (Event release) w
     = Some (BtnState (-1) (longpress st), w,
             if longpress st then long_press (uinput_fd w)
             else short_press (uinput_fd w)))
  ∧ (doubleclick = true ∧ timeout st <= 0 →
       handle_fd doubleclick st (Event release) w
       = Some (BtnState 1000 (longpress st), w, []))
  ∧ powerbtnd_iteration doubleclick (S cnt) PollTimeout st w
    = Some (Some (BtnState (-1) true), w, short_press (uinput_fd w))
  ∧ handle_fd doubleclick st (Event resume) w = Some (BtnState 1000 false, w, [])
  ∧ (doubleclick = true ∧ timeout st <= 0 →
       powerbtnd_loop doubleclick (S cnt)
         [PollReady [Event release]; PollReady [Event resume]; PollTimeout] st w
       = Some ((BtnState (-1) true, Polling), w, short_press (uinput_fd w))
       ∧ powerbtnd_loop doubleclick (S cnt)
           [PollReady [Event release]; PollReady [Event resume];
            PollReady [Event release]] st w
         = Some ((BtnState (-1) false, Polling), w, short_press (uinput_fd w)))
  ∧ (∀ r st' w' t,
       handle_fd doubleclick st r w = Some (st', w', t) →
       longpress st' = longpress st
       ∨ (longpress st' = false
          ∧ ∃ iev, event_handled r = Some iev ∧ is_resume iev = true))
  ∧ (∀ p st' w' t,
       powerbtnd_iteration doubleclick (S cnt) p st w = Some (Some st', w', t) →
       longpress st = false → longpress st' = true → p = PollTimeout).
Proof.
  intros Hrel Hres.
  split.
  { intros Hnow. apply handle_release_now; [exact Hrel|].
    destruct Hnow as [->|Hto]; [reflexivity|].
    apply orb_true_iff. right. apply Z.ltb_lt. exact Hto. }
  split.
  { intros [-> Hto]. apply handle_release_arm; assumption. }
  split; [apply powerbtnd_timeout|].
  split; [apply handle_resume; exact Hres|].
  split.
  { intros [-> Hto]. split.
    - rewrite powerbtnd_loop_cons, powerbtnd_one_event.
      rewrite (handle_release_arm st release w Hrel Hto).
      rewrite powerbtnd_loop_cons, powerbtnd_one_event.
      rewrite (handle_resume true _ resume w Hres).
      rewrite powerbtnd_loop_cons, powerbtnd_timeout.
      simpl. rewrite ?app_nil_r. reflexivity.
    - rewrite powerbtnd_loop_cons, powerbtnd_one_event.
      rewrite (handle_release_arm st release w Hrel Hto).
      rewrite powerbtnd_loop_cons, powerbtnd_one_event.
      rewrite (handle_resume true _ resume w Hres).
      rewrite powerbtnd_loop_cons, powerbtnd_one_event.
      rewrite (handle_release_now true (BtnState 1000 false) release w Hrel eq_refl).
      simpl. rewrite ?app_nil_r. reflexivity. }
  split.
  { intros r st' w' t. apply handle_fd_flag. }
  intros p st' w' t Hit Hclear Hset.
  destruct p as [| |fds]; [discriminate | reflexivity | exfalso].
  unfold powerbtnd_iteration in Hit. cbn [bool_decide decide_rel] in Hit.
  simpl in Hit. unfold bind in Hit.
  destruct (handle_fds doubleclick st (take (S cnt) fds) w)
    as [[[st1 w1] t1]|] eqn:Hfds; [|discriminate].
  unfold ret in Hit. simplify_eq.
  pose proof (handle_fds_flag _ _ _ _ _ _ _ Hfds Hset). congruence.
Qed.

(** Double click on, no window pending, flag set as at start-up. *)
Lemma power_button_release_and_window_witness :
  is_power_release power_release = true
  ∧ is_resume resume_report = true
  ∧ powerbtnd_loop true 1
      [PollReady [Event power_release]; PollReady [Event resume_report]; PollTimeout]
      (BtnState (-1) true) boot
    = Some ((BtnState (-1) true, Polling), boot, short_press (-1)).
Proof.
  split; [reflexivity|]. split; [reflexivity|].
  destruct (power_button_release_and_window true (BtnState (-1) true)
              power_release resume_report 0 boot eq_refl eq_refl)
    as (_ & _ & _ & _ & Hscen & _).
  assert (Hto : timeout (BtnState (-1) true) <= 0) by (simpl; lia).
  destruct (Hscen (conj eq_refl Hto)) as [Hshort _].
  exact Hshort.
Defined.

(** ** The start-up scan of the power-button monitor *)

Lemma name_matches de :
  String.eqb (match node_name de with Some n => n | None => "" end) "Power Button" = true
  ↔ is_power_button de.
Proof.
  unfold is_power_button. rewrite String.eqb_eq.
  destruct (node_name de); split; intros H; try congruence; discriminate.
Qed.

(** The scan returns, leaves the world alone, keeps at most
    [MAX_POWERBTNS] descriptors, keeps only power buttons, closes only
    other devices, and closes them right after opening them. *)
Lemma openfds_scan_spec entries :
  ∀ pfds w,
    ∃ kept t,
      openfds_scan entries pfds w = Some (pfds ++ kept, w, t)
      ∧ (List.length (pfds ++ kept) <= Nat.max (List.length pfds) MAX_POWERBTNS)%nat
      ∧ (∀ fd, fd ∈ kept →
           ∃ de, de ∈ entries ∧ node_fd de = fd ∧ 0 <= fd ∧ is_power_button de)
      ∧ (∀ a, a ∈ t →
           ∃ de, de ∈ entries
                 ∧ (a = Open (input_path de) O_RDWR (node_fd de)
                    ∨ (a = Close (node_fd de) ∧ 0 <= node_fd de
                       ∧ ¬ is_power_button de)))
      ∧ (∀ t1 t2 path fd,
           t = t1 ++ Open path O_RDWR fd :: t2 → 0 <= fd →
           (∃ t3, t2 = Close fd :: t3)
           ∨ (∃ de, de ∈ entries ∧ path = input_path de ∧ node_fd de = fd
                    ∧ is_power_button de ∧ fd ∈ kept)).
Proof.
  induction entries as [|de rest IH]; intros pfds w.
  { exists [], []. simpl. rewrite app_nil_r.
    split; [reflexivity|]. split; [lia|].
    split; [intros fd Hin; apply elem_of_nil in Hin; contradiction|].
    split; [intros a Hin; apply elem_of_nil in Hin; contradiction|].
    intros [|? ?] ? ? ? Heq; discriminate. }
  simpl.
  destruct (bool_decide (List.length pfds < MAX_POWERBTNS)%nat) eqn:Hcnt.
  2:{ exists [], []. unfold ret. rewrite app_nil_r.
      split; [reflexivity|]. split; [lia|].
      split; [intros fd Hin; apply elem_of_nil in Hin; contradiction|].
      split; [intros a Hin; apply elem_of_nil in Hin; contradiction|].
      intros [|? ?] ? ? ? Heq; discriminate. }
  apply bool_decide_eq_true in Hcnt.
  assert (Hweak : ∀ x : input_node, x ∈ rest → x ∈ de :: rest)
    by (intros x Hx; apply elem_of_cons; right; exact Hx).
  destruct (first_char_is "e" (d_name de)); cbn [negb].
  2:{ destruct (IH pfds w) as (kept & t & Hrun & Hlen & Hkept & Hacts & Hprompt).
      exists kept, t. split; [exact Hrun|]. split; [exact Hlen|].
      split; [intros fd Hin; destruct (Hkept fd Hin) as (d & ? & ?); eauto|].
      split; [intros a Hin; destruct (Hacts a Hin) as (d & ? & ?); eauto|].
      intros t1 t2 path fd Heq Hfd.
      destruct (Hprompt t1 t2 path fd Heq Hfd) as [?|(d & ? & ?)]; eauto. }
  unfold bind at 1. unfold emit at 1.
  destruct (node_fd de <? 0) eqn:Hfd;
    [apply Z.ltb_lt in Hfd | apply Z.ltb_ge in Hfd].
  { destruct (IH pfds w) as (kept & t & Hrun & Hlen & Hkept & Hacts & Hprompt).
    rewrite Hrun. exists kept, (Open (input_path de) O_RDWR (node_fd de) :: t).
    split; [reflexivity|]. split; [exact Hlen|].
    split; [intros fd Hin; destruct (Hkept fd Hin) as (d & ? & ?); eauto|].
    split.
    - intros a Hin. apply elem_of_cons in Hin as [->|Hin].
      + exists de. split; [apply list_elem_of_here | left; reflexivity].
      + destruct (Hacts a Hin) as (d & ? & ?); eauto.
    - intros [|a t1] t2 path fd Heq Hpos; simpl in Heq.
      + injection Heq as <- <- <-. lia.
      + injection Heq as <- Heq.
        destruct (Hprompt t1 t2 path fd Heq Hpos) as [?|(d & ? & ?)]; eauto. }
  destruct (String.eqb (match node_name de with Some n => n | None => "" end)
              "Power Button") eqn:Hname; cbn [negb].
  - (* a power button: kept *)
    apply name_matches in Hname.
    destruct (IH (pfds ++ [node_fd de]) w)
      as (kept & t & Hrun & Hlen & Hkept & Hacts & Hprompt).
    rewrite Hrun. rewrite <- app_assoc. simpl.
    exists (node_fd de :: kept), (Open (input_path de) O_RDWR (node_fd de) :: t).
    split; [reflexivity|].
    split.
    { rewrite <- app_assoc in Hlen. simpl in Hlen.
      rewrite length_app in Hlen |- *. rewrite length_app in Hlen.
      simpl in *. unfold MAX_POWERBTNS in *. lia. }
    split.
    { intros fd Hin. apply elem_of_cons in Hin as [->|Hin].
      - exists de. split; [apply list_elem_of_here|]. auto.
      - destruct (Hkept fd Hin) as (d & ? & ?); eauto. }
    split.
    { intros a Hin. apply elem_of_cons in Hin as [->|Hin].
      - exists de. split; [apply list_elem_of_here | left; reflexivity].
      - destruct (Hacts a Hin) as (d & ? & ?); eauto. }
    intros [|a t1] t2 path fd Heq Hpos; simpl in Heq.
    + injection Heq as <- <- <-. right. exists de.
      split; [apply list_elem_of_here|]. split; [reflexivity|].
      split; [reflexivity|]. split; [exact Hname | apply list_elem_of_here].
    + injection Heq as <- Heq.
      destruct (Hprompt t1 t2 path fd Heq Hpos) as [?|(d & ? & ? & ? & ? & ?)];
        [left; assumption|].
      right. exists d. repeat split; auto.
      apply elem_of_cons. right. assumption.
  - (* another device: closed at once *)
    assert (Hnot : ¬ is_power_button de).
    { intros Hpb. apply name_matches in Hpb. congruence. }
    unfold bind at 1. unfold emit at 1.
    destruct (IH pfds w) as (kept & t & Hrun & Hlen & Hkept & Hacts & Hprompt).
    rewrite Hrun.
    exists kept, (Open (input_path de) O_RDWR (node_fd de)
                  :: Close (node_fd de) :: t).
    split; [reflexivity|]. split; [exact Hlen|].
    split; [intros fd Hin; destruct (Hkept fd Hin) as (d & ? & ?); eauto|].
    split.
    { intros a Hin. apply elem_of_cons in Hin as [->|Hin].
      - exists de. split; [apply list_elem_of_here | left; reflexivity].
      - apply elem_of_cons in Hin as [->|Hin].
        + exists de. split; [apply list_elem_of_here|]. right. auto.
        + destruct (Hacts a Hin) as (d & ? & ?); eauto. }
    intros [|a [|b t1]] t2 path fd Heq Hpos; simpl in Heq.
    + injection Heq as <- <- <-. left. eauto.
    + injection Heq as <- Heq. discriminate.
    + injection Heq as <- <- Heq.
      destruct (Hprompt t1 t2 path fd Heq Hpos) as [?|(d & ? & ?)]; eauto.
Qed.

(** The descriptors the scan adds are those of the first matching
    entries, as many as there is room for. *)
Lemma openfds_scan_result entries :
  ∀ pfds w,
    ∃ t, openfds_scan entries pfds w
         = Some (pfds ++ take (MAX_POWERBTNS - List.length pfds)
                           (List.map node_fd (List.filter scan_match entries)),
                 w, t).
Proof.
  unfold MAX_POWERBTNS.
  induction entries as [|de rest IH]; intros pfds w.
  { simpl. rewrite take_nil, app_nil_r. eexists. reflexivity. }
  simpl.
  destruct (bool_decide (List.length pfds < MAX_POWERBTNS)%nat) eqn:Hcnt.
  2:{ apply bool_decide_eq_false in Hcnt. unfold MAX_POWERBTNS in Hcnt.
      replace (3 - List.length pfds)%nat with 0%nat by lia.
      simpl. rewrite app_nil_r. eexists. reflexivity. }
  apply bool_decide_eq_true in Hcnt. unfold MAX_POWERBTNS in Hcnt.
  unfold scan_match at 1.
  destruct (first_char_is "e" (d_name de)); cbn [negb andb]; [|apply IH].
  unfold bind at 1. unfold emit at 1.
  rewrite (ltb_leb_neg (node_fd de)).
  destruct (0 <=? node_fd de); cbn [negb andb].
  2:{ destruct (IH pfds w) as [t ->]. eexists. reflexivity. }
  destruct (String.eqb _ "Power Button"); cbn [negb].
  - destruct (IH (pfds ++ [node_fd de]) w) as [t ->].
    eexists. rewrite length_app. simpl.
    replace (3 - List.length pfds)%nat
      with (S (3 - (List.length pfds + 1)))%nat by lia.
    simpl. rewrite <- app_assoc. reflexivity.
  - unfold bind at 1. unfold emit at 1.
    destruct (IH pfds w) as [t ->]. eexists. reflexivity.
Qed.

(** Every descriptor the scan adds comes from an [open] of the scan. *)
Lemma openfds_scan_opened entries :
  ∀ pfds w r w' t,
    openfds_scan entries pfds w = Some (r, w', t) →
    ∀ fd, fd ∈ r →
          fd ∈ pfds
          ∨ ∃ de, de ∈ entries ∧ node_fd de = fd
                  ∧ Open (input_path de) O_RDWR fd ∈ t.
Proof.
  induction entries as [|de rest IH]; intros pfds w r w' t Hrun fd Hin.
  { simpl in Hrun. unfold ret in Hrun. simplify_eq. left. exact Hin. }
  simpl in Hrun.
  destruct (bool_decide (List.length pfds < MAX_POWERBTNS)%nat);
    [|unfold ret in Hrun; simplify_eq; left; exact Hin].
  assert (Hlater : ∀ pfds1 w1 t1 a,
             openfds_scan rest pfds1 w1 = Some (r, w', t1) →
             fd ∈ pfds1
             ∨ ∃ d, d ∈ de :: rest ∧ node_fd d = fd
                    ∧ Open (input_path d) O_RDWR fd ∈ a ++ t1).
  { intros pfds1 w1 t1 a Hrest.
    destruct (IH pfds1 w1 r w' t1 Hrest fd Hin) as [?|(d & Hd & Hfd & Hop)];
      [left; assumption|].
    right. exists d. split; [apply elem_of_cons; right; exact Hd|].
    split; [exact Hfd|]. apply elem_of_app. right. exact Hop. }
  destruct (first_char_is "e" (d_name de)); cbn [negb] in Hrun;
    [|exact (Hlater pfds w t [] Hrun)].
  unfold bind at 1 in Hrun. unfold emit at 1 in Hrun.
  destruct (node_fd de <? 0).
  { destruct (openfds_scan rest pfds w) as [[[r1 w1] t1]|] eqn:Hrest;
      [|discriminate].
    simplify_eq. exact (Hlater pfds w t1 [_] Hrest). }
  destruct (String.eqb _ "Power Button"); cbn [negb] in Hrun.
  - destruct (openfds_scan rest (pfds ++ [node_fd de]) w)
      as [[[r1 w1] t1]|] eqn:Hrest; [|discriminate].
    simplify_eq.
    destruct (Hlater _ w t1 [Open (input_path de) O_RDWR (node_fd de)] Hrest)
      as [Hold|Hnew]; [|right; exact Hnew].
    apply elem_of_app in Hold as [Hold|Hold]; [left; exact Hold|].
    apply elem_of_cons in Hold as [->|Hold]; [|not_in_trace Hold].
    right. exists de. split; [apply list_elem_of_here|].
    split; [reflexivity | apply list_elem_of_here].
  - unfold bind at 1 in Hrun. unfold emit at 1 in Hrun.
    destruct (openfds_scan rest pfds w) as [[[r1 w1] t1]|] eqn:Hrest;
      [|discriminate].
    simplify_eq. exact (Hlater pfds w t1 [_; _] Hrest).
Qed.

Lemma handle_fd_keys doubleclick st r w :
  ∃ st' t, handle_fd doubleclick st r w = Some (st', w, t)
           ∧ Forall (λ a, is_key_action a = true) t.
Proof.
  unfold handle_fd.
  destruct (event_handled r) as [iev|];
    [|eexists _, _; split; [reflexivity|constructor]].
  destruct (is_power_release iev).
  - destruct (negb doubleclick || (0 <? timeout st)).
    + unfold bind at 1. unfold gets at 1. unfold bind at 1.
      rewrite send_key_power_run. unfold ret. simpl.
      eexists _, _. split; [reflexivity|].
      destruct (longpress st); repeat constructor.
    + eexists _, _. split; [reflexivity|constructor].
  - destruct (is_resume iev); eexists _, _; (split; [reflexivity|constructor]).
Qed.

Lemma handle_fds_keys doubleclick rs :
  ∀ st w, ∃ st' t, handle_fds doubleclick st rs w = Some (st', w, t)
                   ∧ Forall (λ a, is_key_action a = true) t.
Proof.
  induction rs as [|r rs IH]; intros st w.
  - eexists _, _. split; [reflexivity|constructor].
  - simpl. unfold bind.
    destruct (handle_fd_keys doubleclick st r w) as (st1 & t1 & -> & H1).
    destruct (IH st1 w) as (st2 & t2 & -> & H2).
    eexists _, _. split; [reflexivity|]. apply Forall_app. split; assumption.
Qed.

(** The loop returns for every sequence of poll results, never writes a
    static, and does nothing but write keys and pause. *)
Lemma powerbtnd_loop_keys doubleclick cnt polls :
  ∀ st w, ∃ r t, powerbtnd_loop doubleclick cnt polls st w = Some (r, w, t)
                 ∧ Forall (λ a, is_key_action a = true) t.
Proof.
  induction polls as [|p polls IH]; intros st w.
  - eexists _, _. split; [reflexivity|constructor].
  - rewrite powerbtnd_loop_cons. unfold powerbtnd_iteration.
    destruct (bool_decide (cnt = 0%nat)).
    { eexists _, _. split; [reflexivity|constructor]. }
    destruct p as [| |fds].
    + eexists _, _. split; [reflexivity|constructor].
    + unfold bind at 1. unfold gets at 1. unfold bind at 1.
      rewrite send_key_power_run. unfold ret. simpl.
      destruct (IH (BtnState (-1) true) w) as (st2 & t2 & -> & H2).
      eexists _, _. split; [reflexivity|]. repeat constructor. exact H2.
    + unfold bind at 1.
      destruct (handle_fds_keys doubleclick (take cnt fds) st w)
        as (st1 & t1 & -> & H1).
      unfold ret.
      destruct (IH st1 w) as (st2 & t2 & -> & H2).
      eexists _, _. split; [reflexivity|].
      rewrite app_nil_r. apply Forall_app. split; assumption.
Qed.

Lemma powerbtnd_loop_no_device doubleclick polls st w :
  powerbtnd_loop doubleclick 0 polls st w = Some ((st, Returned), w, []).
Proof. destruct polls; reflexivity. Qed.

(** C8: the monitor thread opens [/dev/input] once, at its start. The scan
    keeps the first 3 devices, in the order of the directory, whose entry
    begins with e, that open and that report the name "Power Button", and
    no other: each descriptor kept was opened by the scan and belongs to
    such a device; every other device it managed to open is closed by the
    very next call, and only such devices are closed. For every sequence
    of poll results the thread leaves the statics of the backend as they
    were, and after the scan it only writes keys; with no matching device
    it returns at once, having written no key at all. *)
Theorem power_button_scan (k : kernel) (polls : list poll_result) (w : world) :
  ∃ pfds scan r keys,
    openfds k w = Some (pfds, w, Opendir "/dev/input" :: scan)
    ∧ powerbtnd_thread_func k polls w
      = Some (r, w, Opendir "/dev/input" :: scan ++ keys)
    ∧ (∀ path, Opendir path ∉ scan ++ keys)
    ∧ Forall (λ a, is_key_action a = true) keys
    ∧ (List.length pfds <= MAX_POWERBTNS)%nat
    ∧ pfds = take MAX_POWERBTNS
               (List.map node_fd (List.filter scan_match (input_entries k)))
    ∧ (∀ fd, fd ∈ pfds →
         ∃ de, de ∈ input_entries k ∧ node_fd de = fd ∧ 0 <= fd
               ∧ is_power_button de)
    ∧ (∀ fd, fd ∈ pfds →
         ∃ de, de ∈ input_entries k ∧ node_fd de = fd
               ∧ Open (input_path de) O_RDWR fd ∈ scan)
    ∧ (∀ fd, Close fd ∈ scan →
         ∃ de, de ∈ input_entries k ∧ node_fd de = fd ∧ ¬ is_power_button de)
    ∧ (∀ t1 t2 path fd,
         scan = t1 ++ Open path O_RDWR fd :: t2 → 0 <= fd →
         (∃ t3, t2 = Close fd :: t3)
         ∨ (∃ de, de ∈ input_entries k ∧ path = input_path de
                  ∧ node_fd de = fd ∧ is_power_button de ∧ fd ∈ pfds))
    ∧ (pfds = [] → keys = [] ∧ r = (BtnState (-1) true, Returned)).
Proof.
  unfold powerbtnd_thread_func, openfds, input_entries.
  destruct (dev_input k) as [entries|].
  - destruct (openfds_scan_spec entries [] w)
      as (kept & t & Hrun & Hlen & Hkept & Hacts & Hprompt).
    simpl in Hrun, Hlen.
    destruct (powerbtnd_loop_keys
                (property_get_bool k "poweroff.doubleclick" false)
                (List.length kept) polls (BtnState (-1) true) w)
      as (st & keys & Hloop & Hkeys).
    exists kept, (t ++ [Closedir "/dev/input"]), st, keys.
    split.
    { unfold bind at 1. unfold emit at 1. unfold bind at 1. rewrite Hrun.
      munfold. simpl. rewrite ?app_nil_r. reflexivity. }
    split.
    { unfold bind at 1. unfold bind at 1. unfold emit at 1.
      unfold bind at 1. rewrite Hrun. munfold. rewrite Hloop.
      simpl. rewrite ?app_nil_r, <- ?app_assoc. reflexivity. }
    split.
    { intros path Hin. rewrite !elem_of_app in Hin.
      destruct Hin as [[Hin|Hin]|Hin].
      - destruct (Hacts _ Hin) as (de & _ & [?|[? _]]); discriminate.
      - not_in_trace Hin.
      - rewrite Forall_forall in Hkeys. specialize (Hkeys _ Hin). discriminate. }
    split; [exact Hkeys|].
    split; [unfold MAX_POWERBTNS in *; lia|].
    split.
    { destruct (openfds_scan_result entries [] w) as [t' Hres].
      rewrite Hrun in Hres. simpl in Hres. rewrite ?Nat.sub_0_r in Hres.
      injection Hres as Hres _. exact Hres. }
    split; [exact Hkept|].
    split.
    { intros fd Hin.
      destruct (openfds_scan_opened entries [] w kept w t Hrun fd Hin)
        as [Hnil|(de & Hde & Hfd & Hop)]; [apply elem_of_nil in Hnil; contradiction|].
      exists de. split; [exact Hde|]. split; [exact Hfd|].
      apply elem_of_app. left. exact Hop. }
    split.
    { intros fd Hin. apply elem_of_app in Hin as [Hin|Hin]; [|not_in_trace Hin].
      destruct (Hacts _ Hin) as (de & Hde & [?|(Heq & _ & Hnot)]); [discriminate|].
      injection Heq as ->. eauto. }
    split.
    { intros t1 t2 path fd Heq Hpos.
      destruct (decide (t2 = [])) as [->|Hne].
      { exfalso. apply (f_equal (@rev action)) in Heq.
        rewrite !rev_app_distr in Heq. simpl in Heq. discriminate. }
      destruct (exists_last Hne) as (t2' & last & ->).
      rewrite app_comm_cons, app_assoc in Heq.
      apply app_inj_tail in Heq as [Heq <-].
      destruct (Hprompt t1 t2' path fd Heq Hpos) as [(t3 & ->)|?];
        [left; eexists; simpl; reflexivity | right; assumption]. }
    intros ->. simpl in Hloop. rewrite powerbtnd_loop_no_device in Hloop.
    injection Hloop as <- <-. split; reflexivity.
  - exists [], [], (BtnState (-1) true, Returned), [].
    split; [reflexivity|].
    split.
    { unfold bind at 1. unfold bind at 1. munfold. simpl.
      rewrite powerbtnd_loop_no_device. reflexivity. }
    split; [intros path Hin; not_in_trace Hin|].
    split; [constructor|]. split; [simpl; lia|].
    split; [reflexivity|].
    split; [intros fd Hin; apply elem_of_nil in Hin; contradiction|].
    split; [intros fd Hin; apply elem_of_nil in Hin; contradiction|].
    split; [intros fd Hin; apply elem_of_nil in Hin; contradiction|].
    split; [intros [|? ?] ? ? ? Heq; discriminate|].
    intros _. split; reflexivity.
Qed.

(** ** The lockout semaphore *)

Lemma ops_enable_wakeup_count k w :
  autosuspend_ops w = Some WakeupCount → ops_enable k w = sem_post k w.
Proof.
  intros Hops. unfold ops_enable, bind, gets. rewrite Hops.
  unfold autosuspend_wakeup_count_enable.
  destruct (sem_post k w) as [[[? ?] ?]|]; reflexivity.
Qed.

Lemma ops_disable_wakeup_count k w :
  autosuspend_ops w = Some WakeupCount → ops_disable k w = sem_wait k w.
Proof.
  intros Hops. unfold ops_disable, bind, gets. rewrite Hops.
  unfold autosuspend_wakeup_count_disable.
  destruct (sem_wait k w) as [[[? ?] ?]|]; reflexivity.
Qed.

(** The state the interleavings start from is the one the first
    initialisation leaves when it selects the wakeup count. *)
Lemma wakeup_count_selected_after_init k :
  selected_backend k = Some WakeupCount →
  ∃ w1 t, autosuspend_init k boot = Some (0, w1, t) ∧ wakeup_count_selected w1.
Proof.
  intros Hsel.
  destruct (autosuspend_probe_run k boot eq_refl)
    as (w1 & t & Hrun & Hops & Hin & Hen & _ & Hsem & _).
  rewrite Hsel in Hrun, Hops, Hin.
  exists w1, t. split.
  - unfold autosuspend_init, bind, gets. simpl. rewrite Hrun. reflexivity.
  - repeat split; auto.
Qed.

(** The two moves of a call of the controller make up the call. *)
Lemma autosuspend_enable_split k w :
  autosuspend_enable k w
  = bind (autosuspend_enable_begin k)
      (λ status, match status with
                 | Some r => ret r
                 | None => autosuspend_set_enabled true
                 end) w.
Proof.
  unfold autosuspend_enable, autosuspend_enable_begin, autosuspend_set_enabled.
  munfold.
  destruct (autosuspend_init k w) as [[[r w1] t1]|]; [|reflexivity].
  destruct (negb (r =? 0)); [rewrite ?app_nil_r; reflexivity|].
  destruct (autosuspend_enabled w1); [rewrite ?app_nil_r; reflexivity|].
  destruct (ops_enable k w1) as [[[r2 w2] t2]|]; [|reflexivity].
  destruct (negb (r2 =? 0)); rewrite ?app_nil_r, <- ?app_assoc; reflexivity.
Qed.

Lemma autosuspend_disable_split k w :
  autosuspend_disable k w
  = bind (autosuspend_disable_begin k)
      (λ status, match status with
                 | Some r => ret r
                 | None => autosuspend_set_enabled false
                 end) w.
Proof.
  unfold autosuspend_disable, autosuspend_disable_begin, autosuspend_set_enabled.
  munfold.
  destruct (autosuspend_init k w) as [[[r w1] t1]|]; [|reflexivity].
  destruct (negb (r =? 0)); [rewrite ?app_nil_r; reflexivity|].
  destruct (autosuspend_enabled w1); cbn [negb];
    [|rewrite ?app_nil_r; reflexivity].
  destruct (ops_disable k w1) as [[[r2 w2] t2]|]; [|reflexivity].
  destruct (negb (r2 =? 0)); rewrite ?app_nil_r, <- ?app_assoc; reflexivity.
Qed.

(** The first move of a call once the wakeup count is selected. *)
Lemma autosuspend_enable_begin_run k w :
  autosuspend_ops w = Some WakeupCount →
  autosuspend_inited w = true →
  autosuspend_enable_begin k w
  = if autosuspend_enabled w then Some (Some 0, w, [])
    else if sem_post_ok k
         then Some (None, set_suspend_lockout (S (suspend_lockout w)) w, [SemPost])
         else Some (Some (-1), w, [SemPost]).
Proof.
  intros Hops Hin. unfold autosuspend_enable_begin.
  unfold bind at 1. rewrite (autosuspend_init_inited k w Hin). cbn [negb Z.eqb].
  unfold bind at 1. unfold gets at 1.
  destruct (autosuspend_enabled w); [reflexivity|].
  unfold bind at 1. rewrite (ops_enable_wakeup_count k w Hops), sem_post_run.
  destruct (sem_post_ok k); reflexivity.
Qed.

Lemma autosuspend_disable_begin_run k w :
  autosuspend_ops w = Some WakeupCount →
  autosuspend_inited w = true →
  autosuspend_disable_begin k w
  = if autosuspend_enabled w then
      if sem_wait_ok k then
        match suspend_lockout w with
        | O => None
        | S n => Some (None, set_suspend_lockout n w, [SemWait])
        end
      else Some (Some (-1), w, [SemWait])
    else Some (Some 0, w, []).
Proof.
  intros Hops Hin. unfold autosuspend_disable_begin.
  unfold bind at 1. rewrite (autosuspend_init_inited k w Hin). cbn [negb Z.eqb].
  unfold bind at 1. unfold gets at 1.
  destruct (autosuspend_enabled w); [|reflexivity]. cbn [negb].
  unfold bind at 1. rewrite (ops_disable_wakeup_count k w Hops), sem_wait_run.
  destruct (sem_wait_ok k); [|reflexivity].
  destruct (suspend_lockout w); reflexivity.
Qed.

Lemma balanced_start w0 :
  wakeup_count_selected w0 → balanced (start w0).
Proof.
  intros (Hops & Hin & Hen & Hsem). unfold balanced, start. simpl.
  rewrite Hen, Hsem. repeat split; auto; lia.
Qed.

(** A step of the suspend thread moves the permit between the semaphore
    and the thread, or loses it; it writes no static of the controller. *)
Lemma suspend_thread_step_permit k pc w pc' w' t :
  suspend_thread_step k pc w = Some (pc', w', t) →
  controller_untouched w w'
  ∧ (suspend_lockout w' + holds_permit pc' <= suspend_lockout w + holds_permit pc)%nat.
Proof.
  intros Hstep. destruct pc as [|tok|tok| |].
  - rewrite step_AtRead in Hstep. simplify_eq.
    split; [apply controller_untouched_refl|].
    destruct (read_result k SYS_POWER_WAKEUP_COUNT) as [c|]; [|simpl; lia].
    destruct (decide (String.substring 0 20 c = "")); simpl; lia.
  - rewrite step_AtSemWait in Hstep.
    destruct (sem_wait_ok k).
    + destruct (suspend_lockout w) as [|n] eqn:Hn; [discriminate|].
      simplify_eq. split; [repeat split|]. simpl. lia.
    + simplify_eq. split; [apply controller_untouched_refl|]. simpl. lia.
  - rewrite step_AtCommit in Hstep. simplify_eq.
    split; [apply controller_untouched_refl|].
    destruct (write_ok k SYS_POWER_WAKEUP_COUNT tok); simpl; lia.
  - destruct (step_AtSuspend k w) as (st & ts & _ & _ & Hs).
    rewrite Hs in Hstep. simplify_eq. split; [repeat split|]. simpl. lia.
  - rewrite step_AtSemPost in Hstep. simplify_eq.
    destruct (sem_post_ok k); (split; [repeat split|]); simpl; lia.
Qed.

Lemma balanced_loop_step k s s' :
  balanced s → exec (LoopStep k) s = Some s' → balanced s'.
Proof.
  destruct s as [w pc held c]. unfold balanced. simpl.
  intros (Hops & Hin & Hall & Hc) Hexec.
  destruct (suspend_thread_step k pc w) as [[[pc' w'] t]|] eqn:Hstep;
    [|discriminate].
  destruct (suspend_thread_step_permit _ _ _ _ _ _ Hstep)
    as ((Ho & He & Hi) & Hle).
  simplify_eq. simpl. rewrite Ho, He, Hi.
  split; [exact Hops|]. split; [exact Hin|]. split; [lia|].
  destruct c as [|[|]].
  - destruct Hc as [Hout Hheld]. split; [|exact Hheld].
    destruct (autosuspend_enabled w); lia.
  - exact Hc.
  - destruct Hc as [Hen Hout]. split; [exact Hen | lia].
Qed.

Lemma balanced_api_enable k s s' :
  balanced s → exec (ApiEnable k) s = Some s' → balanced s'.
Proof.
  destruct s as [w pc held c]. unfold balanced. simpl.
  intros (Hops & Hin & Hall & Hc) Hexec.
  destruct c as [|v]; [|discriminate]. destruct Hc as [Hout Hheld].
  rewrite (autosuspend_enable_begin_run k w Hops Hin) in Hexec.
  unfold held_after_enable in Hexec. simpl in Hexec.
  destruct (autosuspend_enabled w) eqn:He.
  - simplify_eq. simpl. rewrite He. repeat split; auto; lia.
  - destruct (sem_post_ok k); simplify_eq; simpl.
    + repeat split; auto; lia.
    + rewrite He. repeat split; auto; try lia; discriminate.
Qed.

Lemma balanced_api_disable k s s' :
  balanced s → exec (ApiDisable k) s = Some s' → balanced s'.
Proof.
  destruct s as [w pc held c]. unfold balanced. simpl.
  intros (Hops & Hin & Hall & Hc) Hexec.
  destruct c as [|v]; [|discriminate]. destruct Hc as [Hout Hheld].
  rewrite (autosuspend_disable_begin_run k w Hops Hin) in Hexec.
  unfold held_after_disable in Hexec. simpl in Hexec.
  destruct (autosuspend_enabled w) eqn:He.
  - specialize (Hheld eq_refl). subst held.
    destruct (sem_wait_ok k).
    + destruct (suspend_lockout w) as [|n] eqn:Hn; [discriminate|].
      simplify_eq. simpl. repeat split; auto; lia.
    + simplify_eq. simpl. rewrite He. repeat split; auto; lia.
  - simplify_eq. simpl. rewrite He. repeat split; auto; lia.
Qed.

Lemma balanced_api_return s s' :
  balanced s → exec ApiReturn s = Some s' → balanced s'.
Proof.
  destruct s as [w pc held c]. unfold balanced. simpl.
  intros (Hops & Hin & Hall & Hc) Hexec.
  destruct c as [|[|]]; [discriminate| |]; simplify_eq; simpl.
  - destruct Hc as [_ Hheld]. repeat split; auto; lia.
  - destruct Hc as [_ Hout]. repeat split; auto; try lia; discriminate.
Qed.

Lemma balanced_run ls :
  ∀ s s', Forall (λ l, via_controller l = true) ls →
          balanced s → run ls s = Some s' → balanced s'.
Proof.
  induction ls as [|l ls IH]; intros s s' Hvia Hbal Hrun.
  - simpl in Hrun. congruence.
  - simpl in Hrun. destruct (exec l s) as [s1|] eqn:Hexec; [|discriminate].
    apply Forall_cons in Hvia as [Hl Hvia].
    apply (IH s1 s' Hvia); [|exact Hrun].
    destruct l; try discriminate.
    + exact (balanced_loop_step _ _ _ Hbal Hexec).
    + exact (balanced_api_enable _ _ _ Hbal Hexec).
    + exact (balanced_api_disable _ _ _ Hbal Hexec).
    + exact (balanced_api_return _ _ Hbal Hexec).
Qed.

(** The commit write is the move from [AtCommit], and nothing else. *)
Lemma commits_at_commit k s :
  commits k s → ∃ tok, sys_pc s = AtCommit tok.
Proof.
  destruct s as [w pc held]. unfold commits. simpl. intros (tok & Hin).
  destruct pc as [|tok'|tok'| |];
    [exfalso | exfalso | eauto | exfalso | exfalso].
  - rewrite step_AtRead in Hin. not_in_trace Hin.
  - rewrite step_AtSemWait in Hin.
    destruct (sem_wait_ok k); [destruct (suspend_lockout w)|];
      not_in_trace Hin.
  - destruct (step_AtSuspend k w) as (st & ts & _ & Hp & Hstep).
    rewrite Hstep in Hin. simpl in Hin.
    apply elem_of_app in Hin as [Hin|Hin];
      [exact (probes_only_no_write _ _ _ Hp Hin)|].
    apply elem_of_cons in Hin as [Hin|Hin]; [discriminate|].
    apply elem_of_app in Hin as [Hin|Hin].
    + destruct (write_ok k SYS_POWER_STATE st); not_in_trace Hin.
    + destruct (wakeup_func w); not_in_trace Hin.
  - rewrite step_AtSemPost in Hin. not_in_trace Hin.
Qed.

(** The thread reaches the commit only through a successful [sem_wait]
    that took a permit. *)
Lemma commit_after_sem_wait k pc w tok w' t :
  suspend_thread_step k pc w = Some (AtCommit tok, w', t) →
  pc = AtSemWait tok ∧ sem_wait_ok k = true
  ∧ suspend_lockout w = S (suspend_lockout w') ∧ t = [SemWait].
Proof.
  intros Hstep. destruct pc as [|tok'|tok'| |].
  - rewrite step_AtRead in Hstep.
    destruct (read_result k SYS_POWER_WAKEUP_COUNT) as [c|]; [|discriminate].
    destruct (decide (String.substring 0 20 c = "")); discriminate.
  - rewrite step_AtSemWait in Hstep.
    destruct (sem_wait_ok k); [|discriminate].
    destruct (suspend_lockout w) as [|n] eqn:Hn; [discriminate|].
    simplify_eq. simpl. auto.
  - rewrite step_AtCommit in Hstep.
    destruct (write_ok k SYS_POWER_WAKEUP_COUNT tok'); discriminate.
  - destruct (step_AtSuspend k w) as (st & ts & _ & _ & Hs).
    rewrite Hs in Hstep. discriminate.
  - rewrite step_AtSemPost in Hstep. discriminate.
Qed.

(** From the commit to the top of the loop there is exactly one
    [sem_post], the last call of the cycle, whatever the kernel answers. *)
Lemma one_sem_post_after_commit k1 k2 k3 tok w :
  ∃ w' t,
    run_to_top [k1; k2; k3] (AtCommit tok) w
    = Some (tt, w', Write SYS_POWER_WAKEUP_COUNT tok :: (t ++ [SemPost]))
    ∧ (SemPost ∉ t) ∧ (SemWait ∉ t).
Proof.
  rewrite run_to_top_cons, step_AtCommit.
  destruct (write_ok k1 SYS_POWER_WAKEUP_COUNT tok).
  - rewrite run_to_top_cons.
    destruct (step_AtSuspend k2 w) as (st & ts & _ & Hp & ->).
    rewrite run_to_top_cons, step_AtSemPost.
    eexists _, _. split; [simpl; reflexivity|].
    unfold probes_only in Hp. rewrite Forall_forall in Hp.
    split; intros Hin.
    + apply elem_of_app in Hin as [Hin|Hin];
        [specialize (Hp _ Hin); discriminate|].
      apply elem_of_cons in Hin as [Hin|Hin]; [discriminate|].
      apply elem_of_app in Hin as [Hin|Hin].
      * destruct (write_ok k2 SYS_POWER_STATE st); not_in_trace Hin.
      * destruct (wakeup_func w); not_in_trace Hin.
    + apply elem_of_app in Hin as [Hin|Hin];
        [specialize (Hp _ Hin); discriminate|].
      apply elem_of_cons in Hin as [Hin|Hin]; [discriminate|].
      apply elem_of_app in Hin as [Hin|Hin].
      * destruct (write_ok k2 SYS_POWER_STATE st); not_in_trace Hin.
      * destruct (wakeup_func w); not_in_trace Hin.
  - rewrite run_to_top_cons, step_AtSemPost.
    exists (if sem_post_ok k2 then set_suspend_lockout (S (suspend_lockout w)) w else w), [].
    split; [reflexivity|].
    split; intros Hin; apply elem_of_nil in Hin; exact Hin.
Qed.

(** Two enables post two permits; the disable that follows takes one and
    holds it, and the suspend thread still finds a permit and reaches the
    commit write. *)
Lemma disable_blocks_commit_fails :
  (∃ s, run [BackendEnable wakeup_count_kernel; BackendEnable wakeup_count_kernel;
             BackendDisable wakeup_count_kernel;
             LoopStep wakeup_count_kernel; LoopStep wakeup_count_kernel]
          (start (set_autosuspend_inited true
                    (set_autosuspend_ops (Some WakeupCount) boot)))
        = Some s
        ∧ sys_pc s = AtCommit "42" ∧ sys_held s = 1%nat)
  ∧ ¬ disable_blocks_commit.
Proof.
  split.
  - eexists. split; [vm_compute; reflexivity|]. split; reflexivity.
  - intros Hclaim.
    specialize (Hclaim
      (set_autosuspend_inited true (set_autosuspend_ops (Some WakeupCount) boot))
      [BackendEnable wakeup_count_kernel; BackendEnable wakeup_count_kernel;
       BackendDisable wakeup_count_kernel;
       LoopStep wakeup_count_kernel; LoopStep wakeup_count_kernel]
      (System (set_suspend_lockout 0
                 (set_autosuspend_inited true
                    (set_autosuspend_ops (Some WakeupCount) boot)))
         (AtCommit "42") 1 CallerIdle)
      wakeup_count_kernel).
    assert (Hheld : 1%nat = 0%nat); [|discriminate].
    apply Hclaim.
    + repeat split.
    + vm_compute. reflexivity.
    + exists "42". cbv [sys_pc sys_world]. rewrite step_AtCommit.
      apply list_elem_of_here.
Qed.

(** C1 (amended): when the callers go through the controller one call at
    a time, then for every interleaving of their enable and disable calls
    with the steps of the suspend thread, the semaphore and the thread
    together never hold more than the one permit of an enabled engine,
    and the thread is never at the commit write while a disable holds a
    permit it has taken. The thread reaches the commit only through a
    [sem_wait] that succeeded and took a permit, and from the commit to
    the end of the cycle it calls [sem_post] exactly once, as the last
    call of the cycle. *)
Theorem lockout_excludes_commit
    (w0 : world) (ls : list label) (s : system) (k : kernel) :
  wakeup_count_selected w0 →
  Forall (λ l, via_controller l = true) ls →
  run ls (start w0) = Some s →
  (commits k s → sys_held s = 0%nat)
  ∧ (suspend_lockout (sys_world s) + holds_permit (sys_pc s) <= 1)%nat
  ∧ (∀ pc w tok w' t,
       suspend_thread_step k pc w = Some (AtCommit tok, w', t) →
       pc = AtSemWait tok ∧ sem_wait_ok k = true
       ∧ suspend_lockout w = S (suspend_lockout w') ∧ t = [SemWait])
  ∧ (∀ k1 k2 k3 tok w,
       ∃ w' t,
         run_to_top [k1; k2; k3] (AtCommit tok) w
         = Some (tt, w', Write SYS_POWER_WAKEUP_COUNT tok :: (t ++ [SemPost]))
         ∧ (SemPost ∉ t) ∧ (SemWait ∉ t)).
Proof.
  intros Hsel Hvia Hrun.
  pose proof (balanced_run ls _ _ Hvia (balanced_start w0 Hsel) Hrun)
    as (Hops & Hin & Hout & _).
  split.
  { intros Hc. apply commits_at_commit in Hc as (tok & Hpc).
    rewrite Hpc in Hout. simpl in Hout. lia. }
  split; [lia|].
  split.
  { intros pc w tok w' t. apply commit_after_sem_wait. }
  intros k1 k2 k3 tok w. apply one_sem_post_after_commit.
Qed.

(** An enable posts the permit and, before it has written the flag, the
    suspend thread reads the counter and takes the permit: at the commit
    no disable holds a permit. *)
Lemma lockout_excludes_commit_witness :
  let w0 := set_autosuspend_inited true (set_autosuspend_ops (Some WakeupCount) boot) in
  let k := wakeup_count_kernel in
  wakeup_count_selected w0
  ∧ ∃ s, run [ApiEnable k; LoopStep k; LoopStep k] (start w0) = Some s
         ∧ commits k s
         ∧ sys_held s = 0%nat.
Proof.
  intros w0 k.
  assert (Hsel : wakeup_count_selected w0) by (repeat split).
  split; [exact Hsel|].
  assert (Hvia : Forall (λ l, via_controller l = true)
                   [ApiEnable k; LoopStep k; LoopStep k])
    by (repeat constructor).
  eexists. split; [vm_compute; reflexivity|].
  assert (Hc : commits k
                 (System (set_suspend_lockout 0 w0) (AtCommit "42") 0
                    (CallerSets true))).
  { exists "42". cbv [sys_pc sys_world]. rewrite step_AtCommit.
    apply list_elem_of_here. }
  split; [exact Hc|].
  destruct (lockout_excludes_commit w0 [ApiEnable k; LoopStep k; LoopStep k]
              (System (set_suspend_lockout 0 w0) (AtCommit "42") 0
                 (CallerSets true)) k Hsel Hvia)
    as [Hsafe _]; [vm_compute; reflexivity|].
  exact (Hsafe Hc).
Defined.

(** * Further properties of the three files *)

(** ** The early-suspend backend *)

Lemma autosuspend_earlysuspend_enable_run k w :
  ∃ t, probes_only t
       ∧ autosuspend_earlysuspend_enable k w
         = if write_ok k SYS_POWER_STATE (sleep_state_in k w) then
             if wait_for_earlysuspend w then
               if decide (earlysuspend_state w = EARLYSUSPEND_MEM) then
                 Some (0, set_sleep_state (sleep_state_in k w) w,
                       t ++ [Write SYS_POWER_STATE (sleep_state_in k w)])
               else None
             else Some (0, set_sleep_state (sleep_state_in k w) w,
                        t ++ [Write SYS_POWER_STATE (sleep_state_in k w)])
           else Some (-1, set_sleep_state (sleep_state_in k w) w,
                      t ++ [Write SYS_POWER_STATE (sleep_state_in k w)]).
Proof.
  destruct (get_sleep_state_in k w) as (t & Hs & Hp & _).
  exists t. split; [exact Hp|].
  unfold autosuspend_earlysuspend_enable. unfold bind at 1. rewrite Hs.
  clear Hs. set (s := sleep_state_in k w). clearbody s.
  destruct w as [? ? ? ? ? ? wait st ? ? ? ? ? ? ?].
  unfold wait_for_state. munfold. simpl.
  destruct (write_ok k SYS_POWER_STATE s); simpl; [|reflexivity].
  destruct wait; simpl; [|reflexivity].
  destruct (decide (st = EARLYSUSPEND_MEM)); reflexivity.
Qed.

Lemma autosuspend_earlysuspend_disable_run k w :
  autosuspend_earlysuspend_disable k w
  = if wait_for_earlysuspend w then
      if decide (earlysuspend_state w = EARLYSUSPEND_ON) then
        Some (0, w, [Write SYS_POWER_STATE "on"])
      else None
    else Some (0, w, [Write SYS_POWER_STATE "on"]).
Proof.
  unfold autosuspend_earlysuspend_disable, wait_for_state, pwr_state_on.
  munfold.
  destruct (wait_for_earlysuspend w); [|reflexivity].
  destruct (decide (earlysuspend_state w = EARLYSUSPEND_ON)); reflexivity.
Qed.

(** X1: [autosuspend_earlysuspend_enable] writes the sleep state to the
    power-state node as its last call. It stays blocked exactly when that
    write succeeded, waiting is on and the framebuffer state is not MEM.
    When it returns, it returns -1 for a failed write, without waiting,
    and 0 otherwise; a 0 with waiting on means the state is MEM. Only the
    cached sleep state changes. *)
Theorem earlysuspend_enable_waits_for_mem (k : kernel) (w : world) :
  (autosuspend_earlysuspend_enable k w = None
   ↔ write_ok k SYS_POWER_STATE (sleep_state_in k w) = true
     ∧ wait_for_earlysuspend w = true
     ∧ earlysuspend_state w ≠ EARLYSUSPEND_MEM)
  ∧ (∀ r w' t,
       autosuspend_earlysuspend_enable k w = Some (r, w', t) →
       r = (if write_ok k SYS_POWER_STATE (sleep_state_in k w) then 0 else -1)
       ∧ w' = set_sleep_state (sleep_state_in k w) w
       ∧ (∃ probes, probes_only probes
                    ∧ t = probes ++ [Write SYS_POWER_STATE (sleep_state_in k w)])
       ∧ (r = 0 → wait_for_earlysuspend w = true →
          earlysuspend_state w = EARLYSUSPEND_MEM)).
Proof.
  destruct (autosuspend_earlysuspend_enable_run k w) as (t0 & Hp & ->).
  destruct (write_ok k SYS_POWER_STATE (sleep_state_in k w)),
    (wait_for_earlysuspend w),
    (decide (earlysuspend_state w = EARLYSUSPEND_MEM)) as [Hst|Hst];
    (split; [split; [intros H; try discriminate; auto
                    | intros (H1 & H2 & H3); try discriminate; try contradiction;
                      reflexivity]
            | intros r w' t H; try discriminate; simplify_eq;
              repeat split; eauto; try discriminate]).
Qed.

Lemma ops_disable_earlysuspend k w :
  autosuspend_ops w = Some EarlySuspend →
  ops_disable k w = autosuspend_earlysuspend_disable k w.
Proof.
  intros Hops. unfold ops_disable, bind, gets. rewrite Hops.
  destruct (autosuspend_earlysuspend_disable k w) as [[[? ?] ?]|]; reflexivity.
Qed.

(** X2: on the early-suspend backend [autosuspend_disable] never reports
    an error. From an enabled engine it writes "on" to the power-state
    node and, whether or not that write succeeded, returns 0 with the
    engine disabled; it stays blocked exactly when waiting is on and the
    framebuffer state is not ON. *)
Theorem earlysuspend_disable_never_fails (k : kernel) (w : world) :
  autosuspend_ops w = Some EarlySuspend →
  autosuspend_inited w = true →
  autosuspend_enabled w = true →
  (autosuspend_disable k w = None
   ↔ wait_for_earlysuspend w = true ∧ earlysuspend_state w ≠ EARLYSUSPEND_ON)
  ∧ (∀ r w' t,
       autosuspend_disable k w = Some (r, w', t) →
       r = 0 ∧ w' = set_autosuspend_enabled false w
       ∧ t = [Write SYS_POWER_STATE "on"]).
Proof.
  intros Hops Hin Hen.
  rewrite (autosuspend_disable_after_init k w w []
             (autosuspend_init_inited k w Hin)).
  rewrite Hen, (ops_disable_earlysuspend k w Hops).
  rewrite autosuspend_earlysuspend_disable_run.
  destruct (wait_for_earlysuspend w);
    [destruct (decide (earlysuspend_state w = EARLYSUSPEND_ON)) as [Hst|Hst]|];
    simpl; split.
  - split; [discriminate | intros [_ H]; contradiction].
  - intros r w' t H. simplify_eq. auto.
  - split; [auto | reflexivity].
  - intros r w' t H. discriminate.
  - split; [discriminate | intros [H _]; discriminate].
  - intros r w' t H. simplify_eq. auto.
Qed.

(** The write of "on" is refused and the call still disables the engine. *)
Lemma earlysuspend_disable_never_fails_witness :
  let w := set_autosuspend_enabled true
             (set_autosuspend_inited true
                (set_autosuspend_ops (Some EarlySuspend) boot)) in
  write_ok dead_kernel SYS_POWER_STATE "on" = false
  ∧ autosuspend_disable dead_kernel w
    = Some (0, set_autosuspend_enabled false w, [Write SYS_POWER_STATE "on"]).
Proof.
  intros w. split; [reflexivity|].
  destruct (earlysuspend_disable_never_fails dead_kernel w eq_refl eq_refl eq_refl)
    as [_ Hret].
  destruct (autosuspend_disable dead_kernel w) as [[[r w'] t]|] eqn:Hrun.
  - destruct (Hret r w' t eq_refl) as (-> & -> & ->). reflexivity.
  - vm_compute in Hrun. discriminate.
Defined.

(** ** The early-suspend monitor thread *)

Lemma earlysuspend_thread_step_run k pc w :
  ∃ t, earlysuspend_thread_step k pc w
       = Some (match pc with
               | InFbSleepWait =>
                   if fb_read_ok k EARLYSUSPEND_WAIT_FOR_FB_SLEEP
                   then (InFbWakeWait, set_earlysuspend_state EARLYSUSPEND_MEM w)
                   else (MonitorExited, w)
               | InFbWakeWait =>
                   if fb_read_ok k EARLYSUSPEND_WAIT_FOR_FB_WAKE
                   then (InFbSleepWait, set_earlysuspend_state EARLYSUSPEND_ON w)
                   else (MonitorExited, w)
               | MonitorExited => (MonitorExited, w)
               end, t)
       ∧ (pc = MonitorExited → t = []).
Proof.
  unfold earlysuspend_thread_step, wait_for_fb_sleep, wait_for_fb_wake, fb_read_ok.
  destruct pc.
  - unfold bind at 1.
    destruct (open_file_run k EARLYSUSPEND_WAIT_FOR_FB_SLEEP 1 None w) as [t ->].
    rewrite (ltb_leb_neg (open_fd k EARLYSUSPEND_WAIT_FOR_FB_SLEEP O_RDONLY)).
    destruct (0 <=? open_fd k EARLYSUSPEND_WAIT_FOR_FB_SLEEP O_RDONLY);
      cbn [negb andb];
      [destruct (read_result k EARLYSUSPEND_WAIT_FOR_FB_SLEEP)|];
      munfold; simpl; eexists; (split; [reflexivity | discriminate]).
  - unfold bind at 1.
    destruct (open_file_run k EARLYSUSPEND_WAIT_FOR_FB_WAKE 1 None w) as [t ->].
    rewrite (ltb_leb_neg (open_fd k EARLYSUSPEND_WAIT_FOR_FB_WAKE O_RDONLY)).
    destruct (0 <=? open_fd k EARLYSUSPEND_WAIT_FOR_FB_WAKE O_RDONLY);
      cbn [negb andb];
      [destruct (read_result k EARLYSUSPEND_WAIT_FOR_FB_WAKE)|];
      munfold; simpl; eexists; (split; [reflexivity | discriminate]).
  - exists []. split; reflexivity.
Qed.

Lemma earlysuspend_thread_run_exited ks w :
  earlysuspend_thread_run ks MonitorExited w = Some (MonitorExited, w, []).
Proof.
  induction ks as [|k ks IH]; [reflexivity|].
  simpl. unfold bind. simpl. rewrite IH. reflexivity.
Qed.

Lemma set_earlysuspend_state_same w :
  w = set_earlysuspend_state (earlysuspend_state w) w.
Proof. destruct w; reflexivity. Qed.

Lemma earlysuspend_thread_step_inv k pc w :
  monitor_in_step pc w →
  ∃ pc1 w1 t1,
    earlysuspend_thread_step k pc w = Some (pc1, w1, t1)
    ∧ monitor_in_step pc1 w1
    ∧ w1 = set_earlysuspend_state (earlysuspend_state w1) w
    ∧ (pc = MonitorExited → pc1 = MonitorExited).
Proof.
  intros Hinv.
  destruct (earlysuspend_thread_step_run k pc w) as (t1 & Hstep & _).
  destruct pc.
  - destruct (fb_read_ok k EARLYSUSPEND_WAIT_FOR_FB_SLEEP);
      eexists _, _, _; (split; [exact Hstep|]);
      repeat split; auto using set_earlysuspend_state_same; discriminate.
  - destruct (fb_read_ok k EARLYSUSPEND_WAIT_FOR_FB_WAKE);
      eexists _, _, _; (split; [exact Hstep|]);
      repeat split; auto using set_earlysuspend_state_same; discriminate.
  - eexists _, _, _. split; [exact Hstep|].
    repeat split; auto using set_earlysuspend_state_same.
Qed.

Lemma earlysuspend_thread_run_inv ks :
  ∀ pc w pc' w' t,
    monitor_in_step pc w →
    earlysuspend_thread_run ks pc w = Some (pc', w', t) →
    monitor_in_step pc' w'
    ∧ w' = set_earlysuspend_state (earlysuspend_state w') w
    ∧ (pc = MonitorExited → pc' = MonitorExited).
Proof.
  induction ks as [|k ks IH]; intros pc w pc' w' t Hinv Hrun.
  - simpl in Hrun. unfold ret in Hrun. simplify_eq.
    repeat split; auto using set_earlysuspend_state_same.
  - simpl in Hrun. unfold bind in Hrun.
    destruct (earlysuspend_thread_step_inv k pc w Hinv)
      as (pc1 & w1 & t1 & Hstep & H1 & Hf & Hex).
    rewrite Hstep in Hrun.
    destruct (earlysuspend_thread_run ks pc1 w1) as [[[pc2 w2] t2]|] eqn:Hrest;
      [|discriminate].
    simplify_eq.
    destruct (IH pc1 w1 pc' w' t2 H1 Hrest) as (Hi & Hf' & Hex').
    split; [exact Hi|].
    split; [|auto].
    rewrite Hf', Hf. destruct w; reflexivity.
Qed.

(** X3: the monitor thread, started while the framebuffer state is ON,
    keeps the state in step with the read it is in: ON while it waits for
    the framebuffer to sleep, MEM while it waits for it to wake. It writes
    no other static of the three files, and once a read has failed the
    thread makes no further call and never changes the state again. *)
Theorem monitor_tracks_framebuffer
    (ks later : list kernel) (w : world) (pc' : monitor_pc) (w' : world)
    (t : list action) :
  earlysuspend_state w = EARLYSUSPEND_ON →
  earlysuspend_thread_run ks InFbSleepWait w = Some (pc', w', t) →
  (pc' = InFbSleepWait → earlysuspend_state w' = EARLYSUSPEND_ON)
  ∧ (pc' = InFbWakeWait → earlysuspend_state w' = EARLYSUSPEND_MEM)
  ∧ (pc' = MonitorExited →
       earlysuspend_thread_run later pc' w' = Some (MonitorExited, w', []))
  ∧ controller_untouched w w'
  ∧ wait_for_earlysuspend w' = wait_for_earlysuspend w
  ∧ sleep_state w' = sleep_state w
  ∧ suspend_lockout w' = suspend_lockout w
  ∧ w' = set_earlysuspend_state (earlysuspend_state w') w.
Proof.
  intros Hon Hrun.
  destruct (earlysuspend_thread_run_inv ks InFbSleepWait w pc' w' t Hon Hrun)
    as (Hinv & Hf & _).
  split; [intros ->; exact Hinv|].
  split; [intros ->; exact Hinv|].
  split; [intros ->; apply earlysuspend_thread_run_exited|].
  rewrite Hf. repeat split.
Qed.

(** The framebuffer sleeps, wakes, and the third read fails. *)
Lemma monitor_tracks_framebuffer_witness :
  ∃ w' t,
    earlysuspend_thread_run [wakeup_count_kernel; wakeup_count_kernel; dead_kernel]
      InFbSleepWait boot = Some (MonitorExited, w', t)
    ∧ earlysuspend_thread_run [wakeup_count_kernel] MonitorExited w'
      = Some (MonitorExited, w', []).
Proof.
  eexists _, _. split; [vm_compute; reflexivity|].
  destruct (monitor_tracks_framebuffer
              [wakeup_count_kernel; wakeup_count_kernel; dead_kernel]
              [wakeup_count_kernel] boot MonitorExited _ _ eq_refl
              ltac:(vm_compute; reflexivity))
    as (_ & _ & Hdead & _).
  exact (Hdead eq_refl).
Defined.

(** ** Initialisation of the wakeup-count backend *)

Lemma init_android_power_button_exact k w :
  init_android_power_button k w
  = if 0 <=? uinput_fd w then Some (tt, w, [])
    else if open_fd k "/dev/uinput" O_WRONLY <? 0 then
      Some (tt, set_uinput_fd (open_fd k "/dev/uinput" O_WRONLY) w,
            [Open "/dev/uinput" O_WRONLY (open_fd k "/dev/uinput" O_WRONLY)])
    else
      Some (tt, set_powerbtnd_thread_handle (pthread_handle k powerbtnd_thread)
                  (set_uinput_fd (open_fd k "/dev/uinput" O_WRONLY) w),
            [Open "/dev/uinput" O_WRONLY (open_fd k "/dev/uinput" O_WRONLY);
             UinputCreate (open_fd k "/dev/uinput" O_WRONLY)
               "Android Power Button" [KEY_POWER; KEY_WAKEUP];
             PthreadCreate powerbtnd_thread]).
Proof.
  unfold init_android_power_button, pthread_create. munfold.
  destruct (0 <=? uinput_fd w); [reflexivity|].
  destruct (open_fd k "/dev/uinput" O_WRONLY <? 0); reflexivity.
Qed.

Lemma autosuspend_wakeup_count_init_exact k w :
  ∃ w1 t1,
    init_android_power_button k w = Some (tt, w1, t1)
    ∧ autosuspend_wakeup_count_init k w
      = let sfd := open_fd k SYS_POWER_STATE O_RDWR in
        let wfd := open_fd k SYS_POWER_WAKEUP_COUNT O_RDWR in
        let w2 := set_state_fd sfd w1 in
        let w3 := set_wakeup_count_fd wfd w2 in
        let w4 := set_suspend_thread_handle (pthread_handle k suspend_thread)
                    (set_suspend_lockout 0 w3) in
        if sfd <? 0 then
          Some (None, w2, t1 ++ [Open SYS_POWER_STATE O_RDWR sfd])
        else if wfd <? 0 then
          Some (None, w3,
                t1 ++ [Open SYS_POWER_STATE O_RDWR sfd;
                       Open SYS_POWER_WAKEUP_COUNT O_RDWR wfd;
                       Close sfd])
        else if negb (sem_init_ok k) then
          Some (None, w3,
                t1 ++ [Open SYS_POWER_STATE O_RDWR sfd;
                       Open SYS_POWER_WAKEUP_COUNT O_RDWR wfd;
                       SemInit; Close wfd; Close sfd])
        else if negb (pthread_create_ok k suspend_thread) then
          Some (None, w4,
                t1 ++ [Open SYS_POWER_STATE O_RDWR sfd;
                       Open SYS_POWER_WAKEUP_COUNT O_RDWR wfd;
                       SemInit; PthreadCreate suspend_thread; SemDestroy;
                       Close wfd; Close sfd])
        else
          Some (Some WakeupCount, w4,
                t1 ++ [Open SYS_POWER_STATE O_RDWR sfd;
                       Open SYS_POWER_WAKEUP_COUNT O_RDWR wfd;
                       SemInit; PthreadCreate suspend_thread]).
Proof.
  destruct (init_android_power_button k w) as [[[[] w1] t1]|] eqn:Hbtn.
  2:{ rewrite init_android_power_button_exact in Hbtn.
      repeat case_match; discriminate. }
  exists w1, t1. split; [reflexivity|].
  unfold autosuspend_wakeup_count_init. unfold bind at 1. rewrite Hbtn.
  unfold pthread_create. munfold. cbv zeta.
  destruct (open_fd k SYS_POWER_STATE O_RDWR <? 0); [reflexivity|].
  destruct (open_fd k SYS_POWER_WAKEUP_COUNT O_RDWR <? 0); [reflexivity|].
  destruct (sem_init_ok k); cbn [negb]; [|reflexivity].
  destruct (pthread_create_ok k suspend_thread); reflexivity.
Qed.

Lemma init_android_power_button_setup k w w1 t1 :
  init_android_power_button k w = Some (tt, w1, t1) →
  ∀ a, a ∈ t1 →
       a = Open "/dev/uinput" O_WRONLY (open_fd k "/dev/uinput" O_WRONLY)
       ∨ is_button_setup a = true.
Proof.
  rewrite init_android_power_button_exact. intros Hrun a Hin.
  destruct (0 <=? uinput_fd w); [simplify_eq; not_in_trace Hin|].
  destruct (open_fd k "/dev/uinput" O_WRONLY <? 0); simplify_eq;
    repeat (apply elem_of_cons in Hin as [->|Hin]; [auto|]);
    not_in_trace Hin.
Qed.

(** X4: [autosuspend_wakeup_count_init] fails exactly when the power-state
    node or the counter does not open, the semaphore cannot be initialised
    or the suspend thread cannot be created. A failed initialisation
    closes every node it opened and destroys the semaphore it had
    initialised when the thread could not be created; a successful one
    closes nothing, leaves the semaphore at 0 and creates the suspend
    thread right after initialising the semaphore. *)
Theorem wakeup_count_init_cleans_up
    (k : kernel) (w : world) (r : option backend) (w' : world) (t : list action) :
  autosuspend_wakeup_count_init k w = Some (r, w', t) →
  (r = None ↔ wakeup_count_available k = false)
  ∧ (r = None →
       (∀ path fd, Open path O_RDWR fd ∈ t → 0 <= fd → Close fd ∈ t)
       ∧ (PthreadCreate suspend_thread ∈ t → SemDestroy ∈ t)
       ∧ (SemDestroy ∈ t → SemInit ∈ t ∧ sem_init_ok k = true))
  ∧ (r = Some WakeupCount →
       (∀ fd, Close fd ∉ t)
       ∧ (SemDestroy ∉ t)
       ∧ suspend_lockout w' = 0%nat
       ∧ ∃ t1, t = t1 ++ [SemInit; PthreadCreate suspend_thread]).
Proof.
  intros Hrun.
  destruct (autosuspend_wakeup_count_init_exact k w) as (w1 & t1 & Hbtn & Hexact).
  rewrite Hexact in Hrun. clear Hexact. cbv zeta in Hrun.
  pose proof (init_android_power_button_setup k w w1 t1 Hbtn) as Hsetup.
  assert (Hpre : ∀ a, a ∈ t1 →
            (∀ path fd, a ≠ Open path O_RDWR fd)
            ∧ (∀ fd, a ≠ Close fd) ∧ a ≠ SemDestroy ∧ a ≠ SemInit
            ∧ a ≠ PthreadCreate suspend_thread).
  { intros a Hin. destruct (Hsetup a Hin) as [->|Hb].
    - repeat split; intros; discriminate.
    - destruct a as [| | | | | | | | | | | | | | | th |]; try discriminate;
        try destruct th; try discriminate;
        repeat split; intros; discriminate. }
  unfold wakeup_count_available.
  rewrite (ltb_leb_neg (open_fd k SYS_POWER_STATE O_RDWR)) in Hrun.
  rewrite (ltb_leb_neg (open_fd k SYS_POWER_WAKEUP_COUNT O_RDWR)) in Hrun.
  destruct (0 <=? open_fd k SYS_POWER_STATE O_RDWR) eqn:Hs; cbn [negb andb] in *.
  2:{ simplify_eq. apply Z.leb_gt in Hs.
      split; [split; reflexivity|]. split; [|discriminate].
      intros _. split; [|split].
      - intros path fd Hin Hfd. apply elem_of_app in Hin as [Hin|Hin].
        + destruct (Hpre _ Hin) as (Hno & _). destruct (Hno path fd eq_refl).
        + apply elem_of_cons in Hin as [Hin|Hin]; [|not_in_trace Hin].
          simplify_eq. lia.
      - intros Hin. apply elem_of_app in Hin as [Hin|Hin];
          [destruct (Hpre _ Hin) as (_ & _ & _ & _ & ?); done | not_in_trace Hin].
      - intros Hin. apply elem_of_app in Hin as [Hin|Hin];
          [destruct (Hpre _ Hin) as (_ & _ & ? & _); done | not_in_trace Hin]. }
  destruct (0 <=? open_fd k SYS_POWER_WAKEUP_COUNT O_RDWR) eqn:Hc;
    cbn [negb andb] in *.
  2:{ simplify_eq. apply Z.leb_gt in Hc.
      split; [split; reflexivity|]. split; [|discriminate].
      intros _. split; [|split].
      - intros path fd Hin Hfd. apply elem_of_app. right.
        apply elem_of_app in Hin as [Hin|Hin].
        + destruct (Hpre _ Hin) as (Hno & _). destruct (Hno path fd eq_refl).
        + apply elem_of_cons in Hin as [Hin|Hin].
          { simplify_eq. rewrite !elem_of_cons. auto. }
          apply elem_of_cons in Hin as [Hin|Hin]; [|not_in_trace Hin].
          simplify_eq. lia.
      - intros Hin. apply elem_of_app in Hin as [Hin|Hin];
          [destruct (Hpre _ Hin) as (_ & _ & _ & _ & ?); done | not_in_trace Hin].
      - intros Hin. apply elem_of_app in Hin as [Hin|Hin];
          [destruct (Hpre _ Hin) as (_ & _ & ? & _); done | not_in_trace Hin]. }
  destruct (sem_init_ok k) eqn:Hi; cbn [negb andb] in *.
  2:{ simplify_eq.
      split; [split; reflexivity|]. split; [|discriminate].
      intros _. split; [|split].
      - intros path fd Hin Hfd. apply elem_of_app. right.
        apply elem_of_app in Hin as [Hin|Hin].
        + destruct (Hpre _ Hin) as (Hno & _). destruct (Hno path fd eq_refl).
        + apply elem_of_cons in Hin as [Hin|Hin].
          { simplify_eq. rewrite !elem_of_cons. auto 10. }
          apply elem_of_cons in Hin as [Hin|Hin]; [|not_in_trace Hin].
          simplify_eq. rewrite !elem_of_cons. auto 10.
      - intros Hin. apply elem_of_app in Hin as [Hin|Hin];
          [destruct (Hpre _ Hin) as (_ & _ & _ & _ & ?); done | not_in_trace Hin].
      - intros Hin. apply elem_of_app in Hin as [Hin|Hin];
          [destruct (Hpre _ Hin) as (_ & _ & ? & _); done | not_in_trace Hin]. }
  destruct (pthread_create_ok k suspend_thread) eqn:Hp; cbn [negb andb] in *.
  - simplify_eq.
    split; [split; discriminate|]. split; [discriminate|].
    intros _. split; [|split; [|split]].
    + intros fd Hin. apply elem_of_app in Hin as [Hin|Hin];
        [destruct (Hpre _ Hin) as (_ & Hno & _); destruct (Hno fd eq_refl)
        | not_in_trace Hin].
    + intros Hin. apply elem_of_app in Hin as [Hin|Hin];
        [destruct (Hpre _ Hin) as (_ & _ & ? & _); done | not_in_trace Hin].
    + reflexivity.
    + eexists (t1 ++ [_; _]). rewrite <- app_assoc. reflexivity.
  - simplify_eq.
    split; [split; reflexivity|]. split; [|discriminate].
    intros _. split; [|split].
    + intros path fd Hin Hfd. apply elem_of_app. right.
      apply elem_of_app in Hin as [Hin|Hin].
      * destruct (Hpre _ Hin) as (Hno & _). destruct (Hno path fd eq_refl).
      * apply elem_of_cons in Hin as [Hin|Hin].
        { simplify_eq. rewrite !elem_of_cons. auto 10. }
        apply elem_of_cons in Hin as [Hin|Hin]; [|not_in_trace Hin].
        simplify_eq. rewrite !elem_of_cons. auto 10.
    + intros _. apply elem_of_app. right. rewrite !elem_of_cons. auto 10.
    + intros _. split; [|reflexivity].
      apply elem_of_app. right. rewrite !elem_of_cons. auto 10.
Qed.

(** The counter does not open: the power-state node is closed again. *)
Lemma wakeup_count_init_cleans_up_witness :
  let k := Kernel ∅ (λ path _, if String.eqb path SYS_POWER_WAKEUP_COUNT then -1 else 4)
             (λ _, None) (λ _ _, true) (λ _, true) true true true (λ _, true) None (λ _, 1) "" in
  ∃ w' t,
    autosuspend_wakeup_count_init k boot = Some (None, w', t)
    ∧ Open SYS_POWER_STATE O_RDWR 4 ∈ t
    ∧ Close 4 ∈ t.
Proof.
  intros k.
  destruct (autosuspend_wakeup_count_init k boot) as [[[r w'] t]|] eqn:Hrun;
    [|vm_compute in Hrun; discriminate].
  assert (Hr : r = None).
  { vm_compute in Hrun. injection Hrun as <- _ _. reflexivity. }
  subst r. exists w', t. split; [reflexivity|].
  assert (Hopen : Open SYS_POWER_STATE O_RDWR 4 ∈ t).
  { vm_compute in Hrun. injection Hrun as _ <-.
    rewrite !elem_of_cons. auto 10. }
  split; [exact Hopen|].
  destruct (wakeup_count_init_cleans_up k boot None w' t Hrun)
    as (_ & Hfail & _).
  destruct (Hfail eq_refl) as (Hclose & _).
  apply (Hclose SYS_POWER_STATE 4 Hopen). lia.
Defined.

Lemma count_where_app {A} (p : A → bool) (l1 l2 : list A) :
  count_where p (l1 ++ l2) = (count_where p l1 + count_where p l2)%nat.
Proof. unfold count_where. rewrite List.filter_app, length_app. reflexivity. Qed.

Lemma autosuspend_init_button_setup k w r w' t :
  autosuspend_init k w = Some (r, w', t) →
  count_where starts_powerbtnd t = count_where creates_uinput t
  ∧ (0 <= uinput_fd w →
     uinput_fd w' = uinput_fd w ∧ count_where starts_powerbtnd t = 0%nat)
  ∧ (uinput_fd w < 0 →
     (count_where starts_powerbtnd t = 0%nat ∧ uinput_fd w' < 0)
     ∨ (count_where starts_powerbtnd t = 1%nat ∧ 0 <= uinput_fd w')).
Proof.
  destruct w as [ops en ini ss pfd eth wt st ufd sfd wfd sth sem func pth].
  unfold autosuspend_init, autosuspend_probe, autosuspend_earlysuspend_init,
    start_earlysuspend_thread, wait_for_fb_wake, open_file,
    autosuspend_wakeup_count_init, init_android_power_button.
  munfold. simpl.
  destruct (property_get k "sleep.earlysuspend" (Some "1")) as [len buf].
  intros H.
  repeat (case_match; simplify_eq/=);
    unfold count_where; simpl;
    repeat match goal with
           | H : (_ <=? _) = true |- _ => apply Z.leb_le in H
           | H : (_ <=? _) = false |- _ => apply Z.leb_gt in H
           | H : (_ <? _) = true |- _ => apply Z.ltb_lt in H
           | H : (_ <? _) = false |- _ => apply Z.ltb_ge in H
           end;
    (split; [reflexivity|]); split; intros; try lia; auto; try (split; [reflexivity|lia]);
    try (left; split; [reflexivity|lia]); try (right; split; [reflexivity|lia]).
Qed.

Lemma autosuspend_init_calls_setup ks :
  ∀ w, ∃ rs w' t,
    autosuspend_init_calls ks w = Some (rs, w', t)
    ∧ List.length rs = List.length ks
    ∧ count_where starts_powerbtnd t = count_where creates_uinput t
    ∧ (0 <= uinput_fd w →
       uinput_fd w' = uinput_fd w ∧ count_where starts_powerbtnd t = 0%nat)
    ∧ (uinput_fd w < 0 →
       (count_where starts_powerbtnd t = 0%nat ∧ uinput_fd w' < 0)
       ∨ (count_where starts_powerbtnd t = 1%nat ∧ 0 <= uinput_fd w')).
Proof.
  induction ks as [|k ks IH]; intros w.
  - exists [], w, []. split; [reflexivity|]. split; [reflexivity|].
    split; [reflexivity|]. split; [auto|]. intros H. left. auto.
  - simpl. unfold bind at 1.
    destruct (autosuspend_init_total k w) as (r & w1 & t1 & Hinit & _).
    rewrite Hinit.
    destruct (autosuspend_init_button_setup k w r w1 t1 Hinit)
      as (Heq1 & Hpos1 & Hneg1).
    destruct (IH w1) as (rs & w' & t2 & Hrest & Hlen & Heq2 & Hpos2 & Hneg2).
    unfold bind at 1. rewrite Hrest. unfold ret.
    exists (r :: rs), w', (t1 ++ t2 ++ []).
    split; [reflexivity|]. split; [simpl; congruence|].
    rewrite app_nil_r, !count_where_app.
    split; [congruence|]. split.
    + intros Hfd. destruct (Hpos1 Hfd) as [Hu1 Hc1].
      destruct (Hpos2 ltac:(lia)) as [Hu2 Hc2]. split; [congruence | lia].
    + intros Hfd. destruct (Hneg1 Hfd) as [[Hc1 Hu1]|[Hc1 Hu1]].
      * destruct (Hneg2 Hu1) as [[Hc2 Hu2]|[Hc2 Hu2]];
          [left | right]; split; lia.
      * destruct (Hpos2 Hu1) as [Hu2 Hc2]. right. split; lia.
Qed.

(** X5: however often the initialisation is attempted, and whether the
    attempts fail or succeed, the virtual input device is created at most
    once and the power-button thread is started at most once, right when
    the device is created; once the device descriptor is valid no attempt
    creates either again. *)
Theorem power_button_set_up_once (ks : list kernel) (w : world) :
  ∃ rs w' t,
    autosuspend_init_calls ks w = Some (rs, w', t)
    ∧ List.length rs = List.length ks
    ∧ (count_where starts_powerbtnd t <= 1)%nat
    ∧ count_where creates_uinput t = count_where starts_powerbtnd t
    ∧ (0 <= uinput_fd w → count_where starts_powerbtnd t = 0%nat)
    ∧ (count_where starts_powerbtnd t = 1%nat → 0 <= uinput_fd w').
Proof.
  destruct (autosuspend_init_calls_setup ks w)
    as (rs & w' & t & Hrun & Hlen & Heq & Hpos & Hneg).
  exists rs, w', t. split; [exact Hrun|]. split; [exact Hlen|].
  destruct (Z.lt_ge_cases (uinput_fd w) 0) as [Hlt|Hge].
  - destruct (Hneg Hlt) as [[Hc Hu]|[Hc Hu]]; repeat split; try lia.
  - destruct (Hpos Hge) as [Hu Hc]. repeat split; try lia.
Qed.

(** ** The public interface *)

Lemma ops_enable_status k w r w' t :
  ops_enable k w = Some (r, w', t) → r = 0 ∨ r = -1.
Proof.
  unfold ops_enable. unfold bind at 1. unfold gets at 1.
  destruct (autosuspend_ops w) as [[|]|]; [| |discriminate].
  - destruct (autosuspend_earlysuspend_enable_run k w) as (t0 & _ & ->).
    intros H. repeat case_match; simplify_eq; auto.
  - unfold autosuspend_wakeup_count_enable. rewrite sem_post_run.
    intros H. destruct (sem_post_ok k); simplify_eq; auto.
Qed.

Lemma ops_disable_status k w r w' t :
  ops_disable k w = Some (r, w', t) → r = 0 ∨ r = -1.
Proof.
  unfold ops_disable. unfold bind at 1. unfold gets at 1.
  destruct (autosuspend_ops w) as [[|]|]; [| |discriminate].
  - rewrite autosuspend_earlysuspend_disable_run.
    intros H. repeat case_match; simplify_eq; auto.
  - unfold autosuspend_wakeup_count_disable. rewrite sem_wait_run.
    intros H. repeat case_match; simplify_eq; auto.
Qed.

Lemma autosuspend_enable_post k w r w' t :
  autosuspend_enable k w = Some (r, w', t) →
  (r = 0 ∨ r = -1)
  ∧ (r = 0 → autosuspend_enabled w' = true ∧ autosuspend_inited w' = true)
  ∧ (r = -1 → autosuspend_enabled w' = autosuspend_enabled w)
  ∧ (autosuspend_inited w = true →
     autosuspend_inited w' = true ∧ autosuspend_ops w' = autosuspend_ops w).
Proof.
  intros Hrun.
  destruct (autosuspend_init_total k w)
    as (r0 & w1 & t1 & Hinit & Hen & [[-> Hin1]|(-> & Hin1 & Hin & _)]).
  - assert (Hkeep : autosuspend_inited w = true → w1 = w).
    { intros Hi. rewrite (autosuspend_init_inited k w Hi) in Hinit.
      congruence. }
    rewrite (autosuspend_enable_after_init k w w1 t1 Hinit) in Hrun.
    destruct (autosuspend_enabled w1) eqn:He1.
    + simplify_eq. split; [auto|]. split; [auto|].
      split; [discriminate|]. intros Hi. rewrite (Hkeep Hi). auto.
    + destruct (ops_enable k w1) as [[[r1 w2] t2]|] eqn:Hops; [|discriminate].
      pose proof (ops_enable_status _ _ _ _ _ Hops) as Hst.
      apply ops_enable_untouched in Hops as (Ho & He & Hi2).
      destruct Hst as [->| ->]; simpl in Hrun; simplify_eq; simpl.
      * split; [auto|]. split; [split; [reflexivity | congruence]|].
        split; [discriminate|]. intros Hi. rewrite <- (Hkeep Hi).
        split; congruence.
      * split; [auto|]. split; [discriminate|].
        split; [congruence|]. intros Hi. rewrite <- (Hkeep Hi).
        split; congruence.
  - rewrite (autosuspend_enable_init_fails k w _ w1 t1 Hinit) in Hrun
      by discriminate.
    simplify_eq. split; [auto|]. split; [discriminate|].
    split; [auto|]. congruence.
Qed.

Lemma autosuspend_disable_post k w r w' t :
  autosuspend_disable k w = Some (r, w', t) →
  (r = 0 ∨ r = -1)
  ∧ (r = 0 → autosuspend_enabled w' = false ∧ autosuspend_inited w' = true)
  ∧ (r = -1 → autosuspend_enabled w' = autosuspend_enabled w)
  ∧ (autosuspend_inited w = true →
     autosuspend_inited w' = true ∧ autosuspend_ops w' = autosuspend_ops w).
Proof.
  intros Hrun.
  destruct (autosuspend_init_total k w)
    as (r0 & w1 & t1 & Hinit & Hen & [[-> Hin1]|(-> & Hin1 & Hin & _)]).
  - assert (Hkeep : autosuspend_inited w = true → w1 = w).
    { intros Hi. rewrite (autosuspend_init_inited k w Hi) in Hinit.
      congruence. }
    rewrite (autosuspend_disable_after_init k w w1 t1 Hinit) in Hrun.
    destruct (autosuspend_enabled w1) eqn:He1.
    + destruct (ops_disable k w1) as [[[r1 w2] t2]|] eqn:Hops; [|discriminate].
      pose proof (ops_disable_status _ _ _ _ _ Hops) as Hst.
      apply ops_disable_untouched in Hops as (Ho & He & Hi2).
      destruct Hst as [->| ->]; simpl in Hrun; simplify_eq; simpl.
      * split; [auto|]. split; [split; [reflexivity | congruence]|].
        split; [discriminate|]. intros Hi. rewrite <- (Hkeep Hi).
        split; congruence.
      * split; [auto|]. split; [discriminate|].
        split; [congruence|]. intros Hi. rewrite <- (Hkeep Hi).
        split; congruence.
    + simplify_eq. split; [auto|]. split; [auto|].
      split; [discriminate|]. intros Hi. rewrite (Hkeep Hi). auto.
  - rewrite (autosuspend_disable_init_fails k w _ w1 t1 Hinit) in Hrun
      by discriminate.
    simplify_eq. split; [auto|]. split; [discriminate|].
    split; [auto|]. congruence.
Qed.

(** X6: whatever backend is selected, a call of [autosuspend_enable] or
    [autosuspend_disable] that returns, returns 0 or -1. A 0 from enable
    means the engine is now enabled, a 0 from disable that it is now
    disabled, and in both cases that the controller is initialised; a -1
    leaves the enabled flag as it was. *)
Theorem api_status_and_state
    (c : api_call) (w : world) (r : Z) (w' : world) (t : list action) :
  api_run_one c w = Some (r, w', t) →
  (r = 0 ∨ r = -1)
  ∧ (r = 0 →
     autosuspend_inited w' = true
     ∧ autosuspend_enabled w'
       = match c with CallEnable _ => true | CallDisable _ => false end)
  ∧ (r = -1 → autosuspend_enabled w' = autosuspend_enabled w).
Proof.
  intros Hrun. destruct c as [k|k]; simpl in Hrun.
  - destruct (autosuspend_enable_post k w r w' t Hrun) as (H1 & H2 & H3 & _).
    split; [exact H1|]. split; [|exact H3].
    intros Hr. destruct (H2 Hr). auto.
  - destruct (autosuspend_disable_post k w r w' t Hrun) as (H1 & H2 & H3 & _).
    split; [exact H1|]. split; [|exact H3].
    intros Hr. destruct (H2 Hr). auto.
Qed.

(** The first enable on a kernel that offers the wakeup count. *)
Lemma api_status_and_state_witness :
  ∃ w' t,
    api_run_one (CallEnable wakeup_count_kernel) boot = Some (0, w', t)
    ∧ autosuspend_inited w' = true
    ∧ autosuspend_enabled w' = true.
Proof.
  eexists _, _.
  assert (Hrun : api_run_one (CallEnable wakeup_count_kernel) boot
                 = Some (0, _, _)) by (vm_compute; reflexivity).
  split; [exact Hrun|].
  destruct (api_status_and_state _ _ _ _ _ Hrun) as (_ & Hok & _).
  exact (Hok eq_refl).
Defined.

Lemma api_run_inv cs :
  ∀ w rs w' t,
    autosuspend_inited w = true →
    api_run cs w = Some (rs, w', t) →
    autosuspend_inited w' = true
    ∧ autosuspend_ops w' = autosuspend_ops w
    ∧ List.length rs = List.length cs
    ∧ Forall (λ r, r = 0 ∨ r = -1) rs.
Proof.
  induction cs as [|c cs IH]; intros w rs w' t Hin Hrun.
  - simpl in Hrun. unfold ret in Hrun. simplify_eq. auto.
  - simpl in Hrun. unfold bind at 1 in Hrun.
    destruct (api_run_one c w) as [[[r w1] t1]|] eqn:Hone; [|discriminate].
    unfold bind at 1 in Hrun.
    destruct (api_run cs w1) as [[[rs1 w2] t2]|] eqn:Hrest; [|discriminate].
    unfold ret in Hrun. simplify_eq.
    assert (Hstep : (r = 0 ∨ r = -1)
                    ∧ autosuspend_inited w1 = true
                    ∧ autosuspend_ops w1 = autosuspend_ops w).
    { destruct c as [k|k]; simpl in Hone.
      - destruct (autosuspend_enable_post k w r w1 t1 Hone) as (H1 & _ & _ & H4).
        destruct (H4 Hin). auto.
      - destruct (autosuspend_disable_post k w r w1 t1 Hone) as (H1 & _ & _ & H4).
        destruct (H4 Hin). auto. }
    destruct Hstep as (Hr & Hin1 & Hops1).
    destruct (IH w1 rs1 w' t2 Hin1 Hrest) as (Hin' & Hops' & Hlen & Hall).
    split; [exact Hin'|]. split; [congruence|].
    split; [simpl; congruence|]. constructor; assumption.
Qed.

(** X7: once the controller is initialised the selected backend never
    changes: after any sequence of enable and disable calls that return,
    the controller is still initialised with the same backend, and every
    call has returned 0 or -1. *)
Theorem backend_fixed_after_init
    (cs : list api_call) (w : world) (rs : list Z) (w' : world) (t : list action) :
  autosuspend_inited w = true →
  api_run cs w = Some (rs, w', t) →
  autosuspend_inited w' = true
  ∧ autosuspend_ops w' = autosuspend_ops w
  ∧ List.length rs = List.length cs
  ∧ Forall (λ r, r = 0 ∨ r = -1) rs.
Proof. apply api_run_inv. Qed.

(** Enable, disable, enable on the wakeup-count backend. *)
Lemma backend_fixed_after_init_witness :
  let w := set_autosuspend_inited true (set_autosuspend_ops (Some WakeupCount) boot) in
  let k := wakeup_count_kernel in
  ∃ w' t,
    api_run [CallEnable k; CallDisable k; CallEnable k] w = Some ([0; 0; 0], w', t)
    ∧ autosuspend_ops w' = Some WakeupCount.
Proof.
  intros w k. eexists _, _.
  assert (Hrun : api_run [CallEnable k; CallDisable k; CallEnable k] w
                 = Some ([0; 0; 0], _, _)) by (vm_compute; reflexivity).
  split; [exact Hrun|].
  destruct (backend_fixed_after_init _ w _ _ _ eq_refl Hrun) as (_ & Hops & _).
  exact Hops.
Defined.

Lemma api_run_one_wakeup_count c w :
  autosuspend_ops w = Some WakeupCount →
  autosuspend_inited w = true →
  suspend_lockout w = permit_of w →
  ∃ r w' t,
    api_run_one c w = Some (r, w', t)
    ∧ autosuspend_ops w' = Some WakeupCount
    ∧ autosuspend_inited w' = true
    ∧ suspend_lockout w' = permit_of w'
    ∧ wakeup_func w' = wakeup_func w
    ∧ (t = [] ∨ t = [SemPost] ∨ t = [SemWait]).
Proof.
  intros Hops Hin Hsem. unfold permit_of in *.
  destruct c as [k|k]; simpl.
  - rewrite (autosuspend_enable_after_init k w w []
               (autosuspend_init_inited k w Hin)).
    destruct (autosuspend_enabled w) eqn:He.
    + eexists _, _, _. split; [reflexivity|]. rewrite He.
      repeat split; auto.
    + rewrite (ops_enable_wakeup_count k w Hops), sem_post_run.
      destruct (sem_post_ok k); simpl;
        eexists _, _, _; (split; [reflexivity|]); simpl;
        rewrite ?He; repeat split; auto; lia.
  - rewrite (autosuspend_disable_after_init k w w []
               (autosuspend_init_inited k w Hin)).
    destruct (autosuspend_enabled w) eqn:He.
    + rewrite (ops_disable_wakeup_count k w Hops), sem_wait_run.
      destruct (sem_wait_ok k).
      * destruct (suspend_lockout w) as [|n] eqn:Hn; [discriminate|].
        simpl. eexists _, _, _. split; [reflexivity|]. simpl.
        repeat split; auto; lia.
      * simpl. eexists _, _, _. split; [reflexivity|].
        rewrite He. repeat split; auto.
    + eexists _, _, _. split; [reflexivity|]. rewrite He.
      repeat split; auto.
Qed.

(** X8: on the wakeup-count backend, while no suspend cycle holds a
    permit, the calls of a caller never block: every sequence of enable
    and disable calls returns, and after it the semaphore holds exactly one
    permit when the engine is enabled and none when it is disabled, however
    often enable was repeated. The calls make no system call but
    [sem_post] and [sem_wait]. *)
Theorem callers_alone_never_block (cs : list api_call) (w : world) :
  autosuspend_ops w = Some WakeupCount →
  autosuspend_inited w = true →
  suspend_lockout w = permit_of w →
  ∃ rs w' t,
    api_run cs w = Some (rs, w', t)
    ∧ suspend_lockout w' = permit_of w'
    ∧ wakeup_func w' = wakeup_func w
    ∧ Forall (λ a, a = SemPost ∨ a = SemWait) t.
Proof.
  revert w. induction cs as [|c cs IH]; intros w Hops Hin Hsem.
  - exists [], w, []. split; [reflexivity|]. repeat split; auto.
  - destruct (api_run_one_wakeup_count c w Hops Hin Hsem)
      as (r & w1 & t1 & Hone & Hops1 & Hin1 & Hsem1 & Hf1 & Ht1).
    destruct (IH w1 Hops1 Hin1 Hsem1) as (rs & w' & t2 & Hrest & Hsem' & Hf' & Ht2).
    exists (r :: rs), w', (t1 ++ t2 ++ []).
    split.
    { simpl. unfold bind at 1. rewrite Hone. unfold bind at 1. rewrite Hrest.
      reflexivity. }
    split; [exact Hsem'|]. split; [congruence|].
    rewrite app_nil_r. apply Forall_app. split; [|exact Ht2].
    destruct Ht1 as [->|[->| ->]]; [constructor | |];
      (constructor; [auto | constructor]).
Qed.

(** Enable three times, then disable: one permit is posted and taken. *)
Lemma callers_alone_never_block_witness :
  let w := set_autosuspend_inited true (set_autosuspend_ops (Some WakeupCount) boot) in
  let k := wakeup_count_kernel in
  ∃ rs w' t,
    api_run [CallEnable k; CallEnable k; CallEnable k; CallDisable k] w
    = Some (rs, w', t)
    ∧ suspend_lockout w' = permit_of w'.
Proof.
  intros w k.
  destruct (callers_alone_never_block
              [CallEnable k; CallEnable k; CallEnable k; CallDisable k] w
              eq_refl eq_refl eq_refl)
    as (rs & w' & t & Hrun & Hsem & _).
  exists rs, w', t. split; [exact Hrun | exact Hsem].
Defined.

(** ** The suspend cycle as a whole *)

Lemma substring_prefix n :
  ∀ s, (String.length (String.substring 0 n s) <= n)%nat
       ∧ (∃ rest, s = String.substring 0 n s +:+ rest)
       ∧ ((String.length s <= n)%nat → String.substring 0 n s = s).
Proof.
  induction n as [|n IH]; intros s.
  - destruct s; simpl; (split; [lia|]);
      (split; [eexists; reflexivity|]); intros H; [reflexivity | lia].
  - destruct s as [|c s']; simpl.
    + split; [lia|]. split; [exists ""; reflexivity | reflexivity].
    + destruct (IH s') as (Hlen & (rest & Hrest) & Hshort).
      split; [lia|]. split.
      * exists rest.
        change (String c s' = String c (String.substring 0 n s' +:+ rest)).
        rewrite <- Hrest. reflexivity.
      * intros H. rewrite Hshort by lia. reflexivity.
Qed.

Lemma substring_full n :
  ∀ s, (n <= String.length s)%nat → String.length (String.substring 0 n s) = n.
Proof.
  induction n as [|n IH]; intros s Hlen.
  - destruct s; reflexivity.
  - destruct s as [|c s']; simpl in *; [lia|]. rewrite IH by lia. reflexivity.
Qed.

(** A cycle whose trace holds a commit write has read a non-empty token,
    passed [sem_wait] with a permit, and is one of the two cycles that reach
    the commit. *)
Lemma commit_in_cycle k w w' t tok :
  suspend_cycle k w = Some (tt, w', t) →
  Write SYS_POWER_WAKEUP_COUNT tok ∈ t →
  ∃ s n,
    read_result k SYS_POWER_WAKEUP_COUNT = Some s
    ∧ tok = token_of s ∧ tok ≠ ""
    ∧ sem_wait_ok k = true ∧ suspend_lockout w = S n
    ∧ ((write_ok k SYS_POWER_WAKEUP_COUNT tok = false
        ∧ t = [Usleep 100000; Read SYS_POWER_WAKEUP_COUNT; SemWait;
               Write SYS_POWER_WAKEUP_COUNT tok; SemPost])
       ∨ (write_ok k SYS_POWER_WAKEUP_COUNT tok = true
          ∧ ∃ probes,
              probes_only probes
              ∧ t = [Usleep 100000; Read SYS_POWER_WAKEUP_COUNT; SemWait;
                     Write SYS_POWER_WAKEUP_COUNT tok]
                    ++ suspend_actions k w probes ++ [SemPost]
              ∧ w' = (if sem_post_ok k
                      then set_suspend_lockout (S n)
                             (set_sleep_state (sleep_state_in k w)
                                (set_suspend_lockout n w))
                      else set_sleep_state (sleep_state_in k w)
                             (set_suspend_lockout n w)))).
Proof.
  intros Hrun Hin.
  destruct (suspend_cycle_cases k w)
    as [[_ Hc]|(s & Hread & Hne & [[_ Hc]|[(_ & _ & Hc)|(n & Hok & Hsem & Hc)]])].
  - rewrite Hc in Hrun. simplify_eq. not_in_trace Hin.
  - rewrite Hc in Hrun. simplify_eq. not_in_trace Hin.
  - rewrite Hc in Hrun. discriminate.
  - exists s, n.
    destruct Hc as [[Hrej Hc]|(Hacc & probes & Hp & _ & Hc)];
      rewrite Hc in Hrun; simplify_eq.
    + repeat (apply elem_of_cons in Hin as [Hin|Hin]; [discriminate|]).
      apply elem_of_cons in Hin as [Hin|Hin]; [|not_in_trace Hin].
      injection Hin as ->. repeat split; auto.
    + assert (Htok : tok = token_of s).
      { simpl in Hin.
        repeat (apply elem_of_cons in Hin as [Hin|Hin]; [discriminate|]).
        apply elem_of_cons in Hin as [Hin|Hin]; [congruence|].
        apply elem_of_app in Hin as [Hin|Hin].
        - destruct (suspend_actions_no_sem _ _ _ _ Hp Hin) as (_ & _ & Hno).
          destruct (Hno tok eq_refl).
        - not_in_trace Hin. }
      subst tok. repeat split; auto. right. split; [exact Hacc|].
      exists probes. auto.
Qed.

(** X9: in a cycle whose commit write is accepted, the thread resolves the
    sleep state, which is never empty, and writes it to the power-state
    node; it synthesises the wakeup key pair exactly when that write
    succeeded, then calls the callback registered at that time, once, with
    the outcome of that write, and calls [sem_post] last. *)
Theorem accepted_commit_suspends
    (k : kernel) (w w' : world) (t : list action) (tok : string) :
  suspend_cycle k w = Some (tt, w', t) →
  Write SYS_POWER_WAKEUP_COUNT tok ∈ t →
  write_ok k SYS_POWER_WAKEUP_COUNT tok = true →
  sleep_state_in k w ≠ ""
  ∧ sleep_state w' = sleep_state_in k w
  ∧ ∃ probes,
      probes_only probes
      ∧ t = [Usleep 100000; Read SYS_POWER_WAKEUP_COUNT; SemWait;
             Write SYS_POWER_WAKEUP_COUNT tok]
            ++ probes
            ++ [Write SYS_POWER_STATE (sleep_state_in k w)]
            ++ (if write_ok k SYS_POWER_STATE (sleep_state_in k w)
                then [UinputWrite (uinput_fd w) (InputEvent EV_KEY KEY_WAKEUP 1);
                      UinputWrite (uinput_fd w) (InputEvent EV_SYN SYN_REPORT 0);
                      UinputWrite (uinput_fd w) (InputEvent EV_KEY KEY_WAKEUP 0);
                      UinputWrite (uinput_fd w) (InputEvent EV_SYN SYN_REPORT 0)]
                else [])
            ++ match wakeup_func w with
               | Some cb => [Call cb (write_ok k SYS_POWER_STATE (sleep_state_in k w))]
               | None => []
               end
            ++ [SemPost].
Proof.
  intros Hrun Hin Hacc.
  destruct (commit_in_cycle k w w' t tok Hrun Hin)
    as (s & n & _ & _ & _ & _ & _ & [[Hrej _]|(_ & probes & Hp & -> & ->)]);
    [congruence|].
  destruct (get_sleep_state_in k w) as (_ & _ & _ & Hne).
  split; [exact Hne|].
  split; [destruct (sem_post_ok k); reflexivity|].
  exists probes. split; [exact Hp|].
  unfold suspend_actions, key_edge.
  destruct (write_ok k SYS_POWER_STATE (sleep_state_in k w)), (wakeup_func w);
    simpl; rewrite <- ?app_assoc; reflexivity.
Qed.

(** The commit is accepted, the device suspends and resumes. *)
Lemma accepted_commit_suspends_witness :
  ∃ w' t,
    suspend_cycle wakeup_count_kernel armed_world = Some (tt, w', t)
    ∧ sleep_state w' = "mem"
    ∧ Call 7%nat true ∈ t.
Proof.
  destruct (suspend_cycle wakeup_count_kernel armed_world)
    as [[[[] w'] t]|] eqn:Hrun; [|vm_compute in Hrun; discriminate].
  exists w', t. split; [reflexivity|].
  assert (Hin : Write SYS_POWER_WAKEUP_COUNT "42" ∈ t).
  { vm_compute in Hrun. injection Hrun as _ <-. rewrite !elem_of_cons. auto 10. }
  destruct (accepted_commit_suspends wakeup_count_kernel armed_world w' t "42"
              Hrun Hin eq_refl)
    as (_ & Hstate & probes & _ & ->).
  split; [rewrite Hstate; vm_compute; reflexivity|].
  rewrite !elem_of_app. right. right. right. right. left.
  simpl. apply list_elem_of_here.
Defined.

(** X10: a pass through the loop can only block in [sem_wait], and does so
    exactly when a non-empty token was read and the semaphore holds no
    permit. A pass that ends never leaves more permits than it found, and
    leaves as many when its [sem_post] succeeds; it writes no static of
    the controller, keeps the registered callback, and changes the cached
    sleep state only when none was cached. When the read of the counter
    fails or returns nothing, the pass ends after the read and touches
    neither the semaphore nor any node. *)
Theorem suspend_cycle_gate_and_frame (k : kernel) (w : world) :
  (suspend_cycle k w = None
   ↔ (∃ s, read_result k SYS_POWER_WAKEUP_COUNT = Some s ∧ token_of s ≠ "")
     ∧ sem_wait_ok k = true ∧ suspend_lockout w = 0%nat)
  ∧ ((read_result k SYS_POWER_WAKEUP_COUNT = None
      ∨ ∃ s, read_result k SYS_POWER_WAKEUP_COUNT = Some s ∧ token_of s = "") →
     suspend_cycle k w
     = Some (tt, w, [Usleep 100000; Read SYS_POWER_WAKEUP_COUNT]))
  ∧ (∀ w' t,
       suspend_cycle k w = Some (tt, w', t) →
       controller_untouched w w'
       ∧ wakeup_func w' = wakeup_func w
       ∧ (suspend_lockout w' <= suspend_lockout w)%nat
       ∧ (sem_post_ok k = true → suspend_lockout w' = suspend_lockout w)
       ∧ (sleep_state w ≠ "" → sleep_state w' = sleep_state w)).
Proof.
  destruct (suspend_cycle_cases k w)
    as [[Hread Hc]|(s & Hread & Hne & [[Hw Hc]|[(Hw & Hsem & Hc)|(n & Hw & Hsem & Hc)]])].
  - split; [|split].
    + rewrite Hc. split; [discriminate|].
      intros ((s & Hs & Hne) & _).
      destruct Hread as [Hread|(s' & Hs' & He)]; congruence.
    + intros _. exact Hc.
    + intros w' t Hrun. rewrite Hc in Hrun. simplify_eq.
      repeat split; auto.
  - split; [|split].
    + rewrite Hc. split; [discriminate|]. intros (_ & Hw' & _). congruence.
    + intros [Hn|(s' & Hs' & He)]; congruence.
    + intros w' t Hrun. rewrite Hc in Hrun. simplify_eq.
      repeat split; auto.
  - split; [|split].
    + rewrite Hc. split; [|reflexivity]. intros _. eauto.
    + intros [Hn|(s' & Hs' & He)]; congruence.
    + intros w' t Hrun. rewrite Hc in Hrun. discriminate.
  - split; [|split].
    + destruct Hc as [[_ Hc]|(_ & probes & _ & _ & Hc)]; rewrite Hc;
        (split; [discriminate|]); intros (_ & _ & H0); congruence.
    + intros [Hn|(s' & Hs' & He)]; congruence.
    + intros w' t Hrun.
      destruct Hc as [[_ Hc]|(_ & probes & _ & _ & Hc)];
        rewrite Hc in Hrun; simplify_eq; rewrite Hsem;
        destruct (sem_post_ok k); simpl;
        repeat split; auto; try lia; try discriminate;
        intros Hcached; unfold sleep_state_in;
        destruct (decide (sleep_state w = "")); congruence.
Qed.

(** X11: the token a cycle writes back to the counter is never empty and
    never longer than 20 bytes: it is the first 20 bytes of what the cycle
    read from the counter, exactly 20 when it read that many or more, and
    all of it when it read no more than 20. *)
Theorem commit_token_is_read_prefix
    (k : kernel) (w w' : world) (t : list action) (tok : string) :
  suspend_cycle k w = Some (tt, w', t) →
  Write SYS_POWER_WAKEUP_COUNT tok ∈ t →
  tok ≠ ""
  ∧ (String.length tok <= 20)%nat
  ∧ ∃ s rest,
      read_result k SYS_POWER_WAKEUP_COUNT = Some s
      ∧ s = tok +:+ rest
      ∧ ((String.length s <= 20)%nat → tok = s)
      ∧ ((20 <= String.length s)%nat → String.length tok = 20%nat).
Proof.
  intros Hrun Hin.
  destruct (commit_in_cycle k w w' t tok Hrun Hin)
    as (s & n & Hread & -> & Hne & _).
  unfold token_of in *.
  destruct (substring_prefix 20 s) as (Hlen & (rest & Hrest) & Hshort).
  split; [exact Hne|]. split; [exact Hlen|].
  exists s, rest. split; [exact Hread|]. split; [exact Hrest|].
  split; [exact Hshort | apply substring_full].
Qed.

(** The counter holds 25 bytes; the commit is rejected. *)
Lemma commit_token_is_read_prefix_witness :
  let k := Kernel ∅ (λ _ _, 3) (λ _, Some "1234567890123456789012345")
             (λ _ _, false) (λ _, true) true true true (λ _, true) None (λ _, 1) "" in
  ∃ w' t,
    suspend_cycle k armed_world = Some (tt, w', t)
    ∧ Write SYS_POWER_WAKEUP_COUNT "12345678901234567890" ∈ t
    ∧ (String.length "12345678901234567890" <= 20)%nat.
Proof.
  intros k.
  destruct (suspend_cycle k armed_world) as [[[[] w'] t]|] eqn:Hrun;
    [|vm_compute in Hrun; discriminate].
  exists w', t. split; [reflexivity|].
  assert (Hin : Write SYS_POWER_WAKEUP_COUNT "12345678901234567890" ∈ t).
  { vm_compute in Hrun. injection Hrun as _ <-. rewrite !elem_of_cons. auto 10. }
  split; [exact Hin|].
  destruct (commit_token_is_read_prefix k armed_world w' t _ Hrun Hin)
    as (_ & Hlen & _).
  exact Hlen.
Defined.

(** ** The probe of the power-state node *)

(** X12: [sleep_state_available] opens the power-state node read-only.
    When the open fails it answers false without reading. Otherwise it
    reads once, closes the descriptor, and answers true exactly when the
    state's name occurs in the C string at [buf]: the first 64 bytes read,
    laid over what the stack held there, up to the first NUL. So, when the
    bytes read hold no NUL, a state named in the first 64 bytes of the node
    is always found, and the answer is exactly whether it is named there
    when a NUL follows the bytes read; otherwise the bytes left on the
    stack can make the answer true. The world is left as it was. *)
Theorem sleep_state_available_is_substring
    (k : kernel) (state : string) (w : world) :
  ∃ b t,
    sleep_state_available k state w = Some (b, w, t)
    ∧ (open_fd k SYS_POWER_STATE O_RDONLY < 0 →
       b = false
       ∧ t = [Open SYS_POWER_STATE O_RDONLY (open_fd k SYS_POWER_STATE O_RDONLY)])
    ∧ (0 <= open_fd k SYS_POWER_STATE O_RDONLY →
       t = [Open SYS_POWER_STATE O_RDONLY (open_fd k SYS_POWER_STATE O_RDONLY);
            Read SYS_POWER_STATE;
            Close (open_fd k SYS_POWER_STATE O_RDONLY)]
       ∧ (b = true
          ↔ occurs_in state
              (c_string (read_buf 64 (read_result k SYS_POWER_STATE)
                           (stack_bytes k))))
       ∧ ∀ s, read_result k SYS_POWER_STATE = Some s →
              let got := String.substring 0 64 s in
              c_string got = got →
              (occurs_in state got → b = true)
              ∧ (c_string (skip_bytes (String.length got) (stack_bytes k)) = "" →
                 (b = true ↔ occurs_in state got))).
Proof.
  unfold sleep_state_available. munfold.
  destruct (open_fd k SYS_POWER_STATE O_RDONLY <? 0) eqn:Hfd;
    [apply Z.ltb_lt in Hfd | apply Z.ltb_ge in Hfd].
  - eexists _, _. split; [reflexivity|]. split; [auto | lia].
  - eexists _, _. split; [reflexivity|]. split; [lia|].
    intros _. split; [reflexivity|].
    split; [apply strstr_spec|].
    intros s Hs. cbv zeta. intros Hnul. rewrite Hs. unfold read_buf.
    rewrite (c_string_app _ _ Hnul), strstr_spec.
    split; [apply occurs_in_app|].
    intros ->. rewrite append_empty_r. reflexivity.
Qed.

Lemma sleep_state_available_exact k state w :
  sleep_state_available k state w
  = Some (probe_finds k state, w, power_state_probe k).
Proof.
  unfold sleep_state_available, probe_finds, power_state_probe. munfold.
  rewrite (ltb_leb_neg (open_fd k SYS_POWER_STATE O_RDONLY)).
  destruct (0 <=? open_fd k SYS_POWER_STATE O_RDONLY); reflexivity.
Qed.

(** X13: [get_sleep_state] makes no system call when a sleep state is
    cached or the override property is set. Otherwise it probes the
    power-state node exactly once: one open, and for a valid descriptor
    one read and the close of that descriptor; it then caches "mem" or
    "freeze". In every case it returns what it leaves in the cache. *)
Theorem get_sleep_state_probes_once (k : kernel) (w : world) :
  ∃ t,
    get_sleep_state k w
    = Some (sleep_state_in k w, set_sleep_state (sleep_state_in k w) w, t)
    ∧ (sleep_state w ≠ "" ∨ override_property k ≠ None → t = [])
    ∧ (sleep_state w = "" → override_property k = None →
       t = power_state_probe k
       ∧ (sleep_state_in k w = "mem" ∨ sleep_state_in k w = "freeze")).
Proof.
  unfold sleep_state_in.
  destruct (decide (sleep_state w = "")) as [He|Hne].
  2:{ exists []. rewrite (get_sleep_state_cached k w Hne).
      split; [destruct w; reflexivity|]. split; [reflexivity | contradiction]. }
  unfold get_sleep_state, resolved_sleep_state, override_property, property_get.
  unfold bind at 1. unfold gets at 1. rewrite He. simpl.
  destruct (props k !! "sleep.state") as [v|] eqn:Hp.
  - destruct (decide (v = "")) as [->|Hv].
    + simpl. unfold bind at 1. unfold modify at 1. unfold bind at 1.
      unfold bind at 1. rewrite sleep_state_available_exact.
      unfold default_sleep_state, fallback_sleep_state.
      destruct (probe_finds k "mem"); munfold; simpl;
        rewrite ?app_nil_r; eexists; (split; [reflexivity|]);
        (split; [intros [H|H]; congruence | auto]).
    + destruct v as [|c v']; [congruence|].
      munfold. simpl. eexists. split; [reflexivity|].
      split; [reflexivity | intros _ H; discriminate].
  - simpl. unfold bind at 1. unfold modify at 1. unfold bind at 1.
    unfold bind at 1. rewrite sleep_state_available_exact.
    unfold default_sleep_state, fallback_sleep_state.
    destruct (probe_finds k "mem"); munfold; simpl;
      rewrite ?app_nil_r; eexists; (split; [reflexivity|]);
      (split; [intros [H|H]; congruence | auto]).
Qed.

(** ** More on the power-button monitor *)

(** X14: the descriptors [openfds] returns are those of the first three
    entries of [/dev/input], in directory order, whose name begins with
    e, that open, and that report the name "Power Button"; when the
    directory does not open there is none. *)
Theorem openfds_keeps_first_three (k : kernel) (w : world) :
  ∃ t,
    openfds k w
    = Some (take 3 (List.map node_fd (List.filter scan_match (input_entries k))),
            w, t).
Proof.
  unfold openfds, input_entries.
  destruct (dev_input k) as [entries|].
  - destruct (openfds_scan_result entries [] w) as [t Hscan].
    unfold bind at 1. unfold emit at 1. unfold bind at 1. rewrite Hscan.
    munfold. simpl. eexists. reflexivity.
  - munfold. simpl. eexists. reflexivity.
Qed.

Lemma count_where_nil {A} (p : A → bool) : count_where p [] = 0%nat.
Proof. reflexivity. Qed.

Lemma is_monitor_write_press (ufd : Z) (longpress : bool) :
  Forall (is_monitor_write ufd)
    (if longpress then long_press ufd else short_press ufd)
  ∧ count_where is_power_press
      (if longpress then long_press ufd else short_press ufd) = 1%nat.
Proof.
  unfold is_monitor_write.
  destruct longpress; (split; [|reflexivity]);
    unfold long_press, short_press, key_edge; simpl;
    repeat (apply Forall_cons; split;
            [first [ left; reflexivity
                   | right; left; reflexivity
                   | right; right; eexists; reflexivity ]|]);
    apply Forall_nil; exact I.
Qed.

Lemma handle_fd_presses doubleclick st r w :
  ∃ st' t,
    handle_fd doubleclick st r w = Some (st', w, t)
    ∧ Forall (is_monitor_write (uinput_fd w)) t
    ∧ (count_where is_power_press t
       <= if is_release_result r then 1 else 0)%nat.
Proof.
  unfold is_release_result.
  destruct (event_handled r) as [iev|] eqn:Hev.
  2:{ unfold handle_fd. rewrite Hev.
      exists st, []. split; [reflexivity|]. split; [constructor|].
      unfold count_where. simpl. lia. }
  rewrite (handle_fd_event doubleclick st r iev Hev).
  destruct (is_power_release iev) eqn:Hrel.
  - destruct (negb doubleclick || (0 <? timeout st)) eqn:Hnow.
    + rewrite (handle_release_now doubleclick st iev w Hrel Hnow).
      destruct (is_monitor_write_press (uinput_fd w) (longpress st))
        as [Hall Hone].
      eexists _, _. split; [reflexivity|]. split; [exact Hall | lia].
    + unfold handle_fd. cbn [event_handled]. rewrite Hrel, Hnow.
      eexists _, _. split; [reflexivity|]. split; [constructor|].
      unfold count_where. simpl. lia.
  - unfold handle_fd. cbn [event_handled]. rewrite Hrel.
    destruct (is_resume iev); eexists _, _;
      (split; [reflexivity|]); (split; [constructor|]);
      unfold count_where; simpl; lia.
Qed.

Lemma count_where_cons {A} (p : A → bool) (x : A) (l : list A) :
  count_where p (x :: l) = ((if p x then 1 else 0) + count_where p l)%nat.
Proof. unfold count_where. simpl. destruct (p x); reflexivity. Qed.

Lemma handle_fds_presses doubleclick rs :
  ∀ st w,
    ∃ st' t,
      handle_fds doubleclick st rs w = Some (st', w, t)
      ∧ Forall (is_monitor_write (uinput_fd w)) t
      ∧ (count_where is_power_press t <= count_where is_release_result rs)%nat.
Proof.
  induction rs as [|r rs IH]; intros st w.
  - exists st, []. split; [reflexivity|]. split; [constructor|].
    unfold count_where. simpl. lia.
  - simpl. unfold bind.
    destruct (handle_fd_presses doubleclick st r w) as (st1 & t1 & -> & H1 & Hc1).
    destruct (IH st1 w) as (st2 & t2 & -> & H2 & Hc2).
    eexists _, _. split; [reflexivity|].
    split; [apply Forall_app; split; assumption|].
    rewrite count_where_app, count_where_cons. lia.
Qed.

Lemma powerbtnd_loop_presses doubleclick cnt polls :
  ∀ st w,
    ∃ r t,
      powerbtnd_loop doubleclick cnt polls st w = Some (r, w, t)
      ∧ Forall (is_monitor_write (uinput_fd w)) t
      ∧ (count_where is_power_press t <= total_triggers cnt polls)%nat.
Proof.
  induction polls as [|p polls IH]; intros st w.
  - eexists _, _. split; [reflexivity|]. split; [constructor|].
    unfold count_where. simpl. lia.
  - rewrite powerbtnd_loop_cons. unfold powerbtnd_iteration.
    destruct (bool_decide (cnt = 0%nat)).
    { eexists _, _. split; [reflexivity|]. split; [constructor|].
      unfold count_where. simpl. lia. }
    destruct p as [| |fds].
    + eexists _, _. split; [reflexivity|]. split; [constructor|].
      unfold count_where. simpl. lia.
    + unfold bind at 1. unfold gets at 1. unfold bind at 1.
      rewrite send_key_power_run. unfold ret. cbv iota beta.
      destruct (IH (BtnState (-1) true) w) as (r2 & t2 & -> & H2 & Hc2).
      destruct (is_monitor_write_press (uinput_fd w) false) as [Hall Hone].
      eexists _, _. split; [reflexivity|].
      split.
      * rewrite app_nil_r. apply Forall_app. split; [exact Hall | exact H2].
      * rewrite app_nil_r, count_where_app.
        cbn [total_triggers press_triggers].
        match goal with
        | |- (count_where _ ?X + _ <= _)%nat =>
            assert (Hx : count_where is_power_press X = 1%nat) by reflexivity;
            rewrite Hx
        end.
        lia.
    + unfold bind at 1.
      destruct (handle_fds_presses doubleclick (take cnt fds) st w)
        as (st1 & t1 & -> & H1 & Hc1).
      unfold ret.
      destruct (IH st1 w) as (r2 & t2 & -> & H2 & Hc2).
      eexists _, _. split; [reflexivity|].
      rewrite app_nil_r.
      split; [apply Forall_app; split; assumption|].
      rewrite count_where_app. cbn [total_triggers press_triggers]. lia.
Qed.

(** X15: the monitor writes nothing but edges of the power key, each
    with its report, on the virtual input device, and the pauses of long
    presses: never the wakeup key. The presses it synthesises are at most
    one for each timeout of [poll] and one for each descriptor on which
    the event the code goes on with is a release of the power key: one it
    has read, or the one the uninitialised [iev] holds when the [read]
    fails, which is handled like an event read. Nothing else makes it
    write. It returns for every sequence of answers of [poll] and writes
    no static. *)
Theorem monitor_presses_bounded
    (doubleclick : bool) (cnt : nat) (polls : list poll_result)
    (st : btn_state) (w : world) :
  ∃ r t,
    powerbtnd_loop doubleclick cnt polls st w = Some (r, w, t)
    ∧ Forall (is_monitor_write (uinput_fd w)) t
    ∧ (∀ fd v, UinputWrite fd (InputEvent EV_KEY KEY_WAKEUP v) ∉ t)
    ∧ (count_where is_power_press t <= total_triggers cnt polls)%nat
    ∧ (∀ stale,
         handle_fd doubleclick st (ReadFailed stale) w
         = handle_fd doubleclick st (Event stale) w).
Proof.
  destruct (powerbtnd_loop_presses doubleclick cnt polls st w)
    as (r & t & Hrun & Hall & Hcount).
  exists r, t. split; [exact Hrun|]. split; [exact Hall|].
  split; [|split; [exact Hcount | reflexivity]].
  intros fd v Hin. rewrite Forall_forall in Hall.
  destruct (Hall _ Hin) as [H|[H|(v' & H)]]; discriminate.
Qed.

Lemma powerbtnd_two_events doubleclick cnt st r1 r2 w :
  powerbtnd_iteration doubleclick (S (S cnt)) (PollReady [r1; r2]) st w
  = match handle_fd doubleclick st r1 w with
    | Some (st1, w1, t1) =>
        match handle_fd doubleclick st1 r2 w1 with
        | Some (st2, w2, t2) => Some (Some st2, w2, t1 ++ t2)
        | None => None
        end
    | None => None
    end.
Proof.
  unfold powerbtnd_iteration. simpl. rewrite take_nil. simpl. unfold bind.
  destruct (handle_fd doubleclick st r1 w) as [[[st1 w1] t1]|]; [|reflexivity].
  destruct (handle_fd doubleclick st1 r2 w1) as [[[st2 w2] t2]|]; [|reflexivity].
  unfold ret. rewrite !app_nil_r. reflexivity.
Qed.

(** X16: with double click on and no window pending, one release of the
    power key writes nothing and arms the window; a second release while
    the window is pending, whether [poll] delivers it later or in the same
    answer from another device, is replayed as exactly one press, long when
    the long-press flag is set as at start-up, and clears the window. *)
Theorem double_click_replays_once
    (release : input_event) (cnt : nat) (st : btn_state) (w : world) :
  is_power_release release = true →
  timeout st <= 0 →
  powerbtnd_loop true (S cnt) [PollReady [Event release]] st w
  = Some ((BtnState 1000 (longpress st), Polling), w, [])
  ∧ powerbtnd_loop true (S cnt)
      [PollReady [Event release]; PollReady [Event release]] st w
    = Some ((BtnState (-1) (longpress st), Polling), w,
            if longpress st then long_press (uinput_fd w)
            else short_press (uinput_fd w))
  ∧ powerbtnd_loop true (S (S cnt))
      [PollReady [Event release; Event release]] st w
    = Some ((BtnState (-1) (longpress st), Polling), w,
            if longpress st then long_press (uinput_fd w)
            else short_press (uinput_fd w)).
Proof.
  intros Hrel Hto.
  pose proof (handle_release_arm st release w Hrel Hto) as Harm.
  pose proof (handle_release_now true (BtnState 1000 (longpress st)) release w
                Hrel eq_refl) as Hnow.
  change (longpress (BtnState 1000 (longpress st))) with (longpress st) in Hnow.
  split; [|split].
  - rewrite powerbtnd_loop_cons, powerbtnd_one_event, Harm. reflexivity.
  - rewrite powerbtnd_loop_cons, powerbtnd_one_event, Harm.
    rewrite powerbtnd_loop_cons, powerbtnd_one_event, Hnow.
    simpl. rewrite ?app_nil_r. reflexivity.
  - rewrite powerbtnd_loop_cons, powerbtnd_two_events, Harm, Hnow.
    simpl. rewrite ?app_nil_r. reflexivity.
Qed.

(** The double click at start-up opens with a long press. *)
Lemma double_click_replays_once_witness :
  is_power_release power_release = true
  ∧ powerbtnd_loop true 1
      [PollReady [Event power_release]; PollReady [Event power_release]]
      (BtnState (-1) true) boot
    = Some ((BtnState (-1) true, Polling), boot, long_press (-1)).
Proof.
  split; [reflexivity|].
  assert (Hto : timeout (BtnState (-1) true) <= 0) by (simpl; lia).
  destruct (double_click_replays_once power_release 0 (BtnState (-1) true) boot
              eq_refl Hto) as (_ & Htwice & _).
  exact Htwice.
Defined.

(** ** The engine as a system, once more *)

Lemma no_write_before_gate k pc w path data :
  holds_permit pc = 0%nat →
  Write path data ∉ trace_of (suspend_thread_step k pc w).
Proof.
  intros Hpc Hin. destruct pc as [|tok|tok| |]; try discriminate.
  - rewrite step_AtRead in Hin. not_in_trace Hin.
  - rewrite step_AtSemWait in Hin.
    destruct (sem_wait_ok k); [destruct (suspend_lockout w)|];
      not_in_trace Hin.
Qed.

(** X17: when the callers go through the controller one call at a time,
    then in every state the interleavings reach in which the flag says
    that the engine is disabled, the caller is outside any call or inside
    an enable that has posted its permit and not yet written the flag.
    Outside any call the semaphore holds no permit and the suspend thread
    holds none: its next call writes neither the token nor a sleep state,
    and a [sem_wait] it makes cannot return with a permit. *)
Theorem disabled_engine_cannot_suspend
    (w0 : world) (ls : list label) (s : system) :
  wakeup_count_selected w0 →
  Forall (λ l, via_controller l = true) ls →
  run ls (start w0) = Some s →
  autosuspend_enabled (sys_world s) = false →
  (sys_caller s = CallerIdle ∨ sys_caller s = CallerSets true)
  ∧ (sys_caller s = CallerIdle →
     suspend_lockout (sys_world s) = 0%nat
     ∧ holds_permit (sys_pc s) = 0%nat
     ∧ (∀ k path data,
          Write path data
          ∉ trace_of (suspend_thread_step k (sys_pc s) (sys_world s)))
     ∧ (∀ k pc' w' t,
          suspend_thread_step k (sys_pc s) (sys_world s) = Some (pc', w', t) →
          holds_permit pc' = 0%nat)).
Proof.
  intros Hsel Hvia Hrun Hdis.
  pose proof (balanced_run ls _ _ Hvia (balanced_start w0 Hsel) Hrun)
    as (Hops & Hin & Hout & Hc).
  split.
  { destruct (sys_caller s) as [|[|]]; auto.
    destruct Hc as [Hen _]. congruence. }
  intros Hidle. rewrite Hidle, Hdis in Hc. destruct Hc as [Hsem _].
  assert (Hzero : suspend_lockout (sys_world s) = 0%nat) by lia.
  assert (Hpc : holds_permit (sys_pc s) = 0%nat) by lia.
  split; [exact Hzero|]. split; [exact Hpc|]. split.
  - intros k path data. apply no_write_before_gate. exact Hpc.
  - intros k pc' w' t Hstep.
    destruct (sys_pc s) as [|tok|tok| |]; try discriminate.
    + rewrite step_AtRead in Hstep. simplify_eq.
      destruct (read_result k SYS_POWER_WAKEUP_COUNT) as [c|]; [|reflexivity].
      destruct (decide (String.substring 0 20 c = "")); reflexivity.
    + rewrite step_AtSemWait, Hzero in Hstep.
      destruct (sem_wait_ok k); simplify_eq. reflexivity.
Qed.

(** Enable, a whole cycle, disable: the thread is back at the top, the
    engine is disabled and the thread's [sem_wait] blocks. *)
Lemma disabled_engine_cannot_suspend_witness :
  let w0 := set_autosuspend_inited true (set_autosuspend_ops (Some WakeupCount) boot) in
  let k := wakeup_count_kernel in
  ∃ s,
    run [ApiEnable k; ApiReturn;
         LoopStep k; LoopStep k; LoopStep k; LoopStep k; LoopStep k;
         ApiDisable k; ApiReturn; LoopStep k] (start w0) = Some s
    ∧ autosuspend_enabled (sys_world s) = false
    ∧ sys_caller s = CallerIdle
    ∧ sys_pc s = AtSemWait "42"
    ∧ suspend_thread_step k (sys_pc s) (sys_world s) = None.
Proof.
  intros w0 k.
  destruct (run [ApiEnable k; ApiReturn;
                 LoopStep k; LoopStep k; LoopStep k; LoopStep k; LoopStep k;
                 ApiDisable k; ApiReturn; LoopStep k] (start w0))
    as [s|] eqn:Hrun; [|vm_compute in Hrun; discriminate].
  exists s. split; [reflexivity|].
  assert (Hdis : autosuspend_enabled (sys_world s) = false).
  { vm_compute in Hrun. injection Hrun as <-. reflexivity. }
  assert (Hidle : sys_caller s = CallerIdle).
  { vm_compute in Hrun. injection Hrun as <-. reflexivity. }
  assert (Hpc : sys_pc s = AtSemWait "42").
  { vm_compute in Hrun. injection Hrun as <-. reflexivity. }
  split; [exact Hdis|]. split; [exact Hidle|]. split; [exact Hpc|].
  assert (Hsel : wakeup_count_selected w0) by (repeat split).
  assert (Hvia : Forall (λ l, via_controller l = true)
                   [ApiEnable k; ApiReturn;
                    LoopStep k; LoopStep k; LoopStep k; LoopStep k; LoopStep k;
                    ApiDisable k; ApiReturn; LoopStep k])
    by (repeat constructor).
  destruct (disabled_engine_cannot_suspend w0 _ s Hsel Hvia Hrun Hdis)
    as (_ & Hquiet).
  destruct (Hquiet Hidle) as (Hzero & _).
  rewrite Hpc, step_AtSemWait, Hzero. reflexivity.
Defined.

(** X18: when the callers go through the controller one call at a time,
    then in every state in which the suspend thread holds the permit (from
    the commit to its [sem_post]) the semaphore is empty and no disable has
    taken a permit. An enable may still be about to write the flag, which
    then reads disabled. Outside any call the engine is enabled and a call
    of [autosuspend_disable] whose [sem_wait] does not fail stays blocked;
    once the thread has posted the permit back, that call returns 0 and
    the engine is disabled. *)
Theorem disable_waits_for_cycle
    (w0 : world) (ls : list label) (s : system) (k : kernel) :
  wakeup_count_selected w0 →
  Forall (λ l, via_controller l = true) ls →
  run ls (start w0) = Some s →
  holds_permit (sys_pc s) = 1%nat →
  sem_wait_ok k = true →
  suspend_lockout (sys_world s) = 0%nat
  ∧ sys_held s = 0%nat
  ∧ sys_caller s ≠ CallerSets false
  ∧ (sys_caller s = CallerSets true →
     autosuspend_enabled (sys_world s) = false)
  ∧ (sys_caller s = CallerIdle →
     autosuspend_enabled (sys_world s) = true
     ∧ autosuspend_disable k (sys_world s) = None
     ∧ exec (ApiDisable k) s = None
     ∧ (∀ k1 s1,
          sys_pc s = AtSemPost → sem_post_ok k1 = true →
          exec (LoopStep k1) s = Some s1 →
          ∃ w2, autosuspend_disable k (sys_world s1) = Some (0, w2, [SemWait])
                ∧ autosuspend_enabled w2 = false
                ∧ suspend_lockout w2 = 0%nat)).
Proof.
  intros Hsel Hvia Hrun Hholds Hwait.
  pose proof (balanced_run ls _ _ Hvia (balanced_start w0 Hsel) Hrun)
    as (Hops & Hin & Hout & Hc).
  rewrite Hholds in Hout, Hc.
  assert (Hzero : suspend_lockout (sys_world s) = 0%nat) by lia.
  split; [exact Hzero|]. split; [lia|].
  split.
  { intros Hcaller. rewrite Hcaller in Hc. destruct Hc as [_ Hc]. lia. }
  split.
  { intros Hcaller. rewrite Hcaller in Hc. destruct Hc as [Hen _]. exact Hen. }
  intros Hidle. rewrite Hidle in Hc. destruct Hc as [Hsem _].
  destruct (autosuspend_enabled (sys_world s)) eqn:Hen; [|lia].
  assert (Hblocked : autosuspend_disable k (sys_world s) = None).
  { rewrite (autosuspend_disable_after_init k _ _ []
               (autosuspend_init_inited k _ Hin)).
    rewrite Hen, (ops_disable_wakeup_count k _ Hops), sem_wait_run.
    rewrite Hwait, Hzero. reflexivity. }
  split; [reflexivity|]. split; [exact Hblocked|].
  split.
  { simpl. rewrite Hidle, (autosuspend_disable_begin_run k _ Hops Hin).
    rewrite Hen, Hwait, Hzero. reflexivity. }
  intros k1 s1 Hpc Hpost Hstep.
  simpl in Hstep. rewrite Hpc, step_AtSemPost, Hpost in Hstep.
  simplify_eq. cbn [sys_world].
  set (w1 := set_suspend_lockout (S (suspend_lockout (sys_world s))) (sys_world s)).
  assert (Hin1 : autosuspend_inited w1 = true) by exact Hin.
  assert (Hops1 : autosuspend_ops w1 = Some WakeupCount) by exact Hops.
  assert (Hen1 : autosuspend_enabled w1 = true) by exact Hen.
  assert (Hsem1 : suspend_lockout w1 = 1%nat) by (simpl; rewrite Hzero; reflexivity).
  rewrite (autosuspend_disable_after_init k w1 w1 []
             (autosuspend_init_inited k w1 Hin1)).
  rewrite Hen1, (ops_disable_wakeup_count k w1 Hops1), sem_wait_run, Hwait, Hsem1.
  simpl. eexists. split; [reflexivity|]. split; reflexivity.
Qed.

(** The device is suspended, between the commit and the [sem_post]. *)
Lemma disable_waits_for_cycle_witness :
  let w0 := set_autosuspend_inited true (set_autosuspend_ops (Some WakeupCount) boot) in
  let k := wakeup_count_kernel in
  ∃ s,
    run [ApiEnable k; ApiReturn; LoopStep k; LoopStep k; LoopStep k] (start w0)
    = Some s
    ∧ sys_pc s = AtSuspend
    ∧ sys_caller s = CallerIdle
    ∧ exec (ApiDisable k) s = None.
Proof.
  intros w0 k.
  destruct (run [ApiEnable k; ApiReturn; LoopStep k; LoopStep k; LoopStep k]
              (start w0)) as [s|] eqn:Hrun;
    [|vm_compute in Hrun; discriminate].
  exists s. split; [reflexivity|].
  assert (Hpc : sys_pc s = AtSuspend).
  { vm_compute in Hrun. injection Hrun as <-. reflexivity. }
  assert (Hidle : sys_caller s = CallerIdle).
  { vm_compute in Hrun. injection Hrun as <-. reflexivity. }
  split; [exact Hpc|]. split; [exact Hidle|].
  assert (Hsel : wakeup_count_selected w0) by (repeat split).
  assert (Hvia : Forall (λ l, via_controller l = true)
                   [ApiEnable k; ApiReturn; LoopStep k; LoopStep k; LoopStep k])
    by (repeat constructor).
  assert (Hholds : holds_permit (sys_pc s) = 1%nat) by (rewrite Hpc; reflexivity).
  destruct (disable_waits_for_cycle w0 _ s k Hsel Hvia Hrun Hholds eq_refl)
    as (_ & _ & _ & _ & Hquiet).
  destruct (Hquiet Hidle) as (_ & _ & Hexec & _).
  exact Hexec.
Defined.

(** ** More on the early-suspend backend *)

(** X19: [autosuspend_earlysuspend_init] fails exactly when the power-state
    node does not open for reading and writing or cannot be read. It then
    closes the descriptor it got, which it has stored in [sPowerStatefd],
    starts nothing and leaves every other static as it was. When it
    succeeds, exactly one descriptor stays open, the one in
    [sPowerStatefd]; the monitor thread is started exactly when both
    fb-wait nodes exist, and besides the descriptor the statics written
    are the handle of that thread and, when it was created,
    [wait_for_earlysuspend]. *)
Theorem earlysuspend_init_failure_is_clean (k : kernel) (w : world) :
  ∃ w' t,
    autosuspend_earlysuspend_init k w
    = Some ((if power_state_readable k then Some EarlySuspend else None), w', t)
    ∧ sPowerStatefd w' = open_fd k SYS_POWER_STATE O_RDWR
    ∧ (power_state_readable k = false →
       w' = set_sPowerStatefd (open_fd k SYS_POWER_STATE O_RDWR) w
       ∧ t = [Open SYS_POWER_STATE O_RDWR (open_fd k SYS_POWER_STATE O_RDWR);
              Read SYS_POWER_STATE;
              Close (open_fd k SYS_POWER_STATE O_RDWR)])
    ∧ (power_state_readable k = true →
       count_where is_open t = S (count_where is_close t)
       ∧ (PthreadCreate earlysuspend_thread ∈ t ↔ fb_nodes_present k = true)
       ∧ w' = let w1 := set_sPowerStatefd (open_fd k SYS_POWER_STATE O_RDWR) w in
              if fb_nodes_present k then
                let w2 := set_earlysuspend_thread_handle
                            (pthread_handle k earlysuspend_thread) w1 in
                if pthread_create_ok k earlysuspend_thread
                then set_wait_for_earlysuspend true w2 else w2
              else w1).
Proof.
  unfold autosuspend_earlysuspend_init, start_earlysuspend_thread,
    wait_for_fb_wake, open_file, pthread_create, power_state_readable,
    fb_nodes_present.
  munfold.
  rewrite (ltb_leb_neg (open_fd k SYS_POWER_STATE O_RDWR)).
  destruct (0 <=? open_fd k SYS_POWER_STATE O_RDWR); cbn [negb andb].
  2:{ simpl. eexists _, _. split; [reflexivity|]. split; [reflexivity|].
      split; [auto | discriminate]. }
  destruct (read_result k SYS_POWER_STATE); cbn [negb andb].
  2:{ simpl. eexists _, _. split; [reflexivity|]. split; [reflexivity|].
      split; [auto | discriminate]. }
  simpl.
  destruct (access_ok k EARLYSUSPEND_WAIT_FOR_FB_SLEEP),
    (access_ok k EARLYSUSPEND_WAIT_FOR_FB_WAKE),
    (pthread_create_ok k earlysuspend_thread); simpl;
    eexists _, _; (split; [reflexivity|]); (split; [reflexivity|]);
    (split; [discriminate|]); intros _;
    (split; [reflexivity|]);
    (split; [|reflexivity]);
    (split; [intros Hin; try reflexivity; not_in_trace Hin
            | intros H; try discriminate; rewrite !elem_of_cons; auto 10]).
Qed.

(** X20: the handshake of the callers with the monitor thread. While
    waiting is on, after the monitor's read of the fb-sleep node has
    returned, an enable whose write succeeds returns 0 and a disable stays
    blocked; after its read of the fb-wake node has returned, a disable
    returns 0 and such an enable stays blocked. *)
Theorem monitor_releases_the_waiting_call
    (k k' : kernel) (pc pc1 : monitor_pc) (w w1 : world) (t : list action) :
  wait_for_earlysuspend w = true →
  earlysuspend_thread_step k pc w = Some (pc1, w1, t) →
  write_ok k' SYS_POWER_STATE (sleep_state_in k' w1) = true →
  (pc1 = InFbWakeWait →
     autosuspend_earlysuspend_disable k' w1 = None
     ∧ ∃ t', autosuspend_earlysuspend_enable k' w1
             = Some (0, set_sleep_state (sleep_state_in k' w1) w1, t'))
  ∧ (pc1 = InFbSleepWait →
       autosuspend_earlysuspend_enable k' w1 = None
       ∧ autosuspend_earlysuspend_disable k' w1
         = Some (0, w1, [Write SYS_POWER_STATE "on"])).
Proof.
  intros Hwait Hstep Hwrite.
  destruct (earlysuspend_thread_step_run k pc w) as (t0 & Hrun & _).
  rewrite Hrun in Hstep. clear Hrun.
  destruct (autosuspend_earlysuspend_enable_run k' w1) as (te & _ & Hen).
  rewrite Hwrite in Hen.
  rewrite Hen, autosuspend_earlysuspend_disable_run.
  assert (Hfacts : wait_for_earlysuspend w1 = true
                   ∧ (pc1 = InFbWakeWait → earlysuspend_state w1 = EARLYSUSPEND_MEM)
                   ∧ (pc1 = InFbSleepWait → earlysuspend_state w1 = EARLYSUSPEND_ON)).
  { destruct pc.
    - destruct (fb_read_ok k EARLYSUSPEND_WAIT_FOR_FB_SLEEP); simplify_eq;
        repeat split; auto; discriminate.
    - destruct (fb_read_ok k EARLYSUSPEND_WAIT_FOR_FB_WAKE); simplify_eq;
        repeat split; auto; discriminate.
    - simplify_eq. repeat split; auto; discriminate. }
  destruct Hfacts as (Hw1 & Hmem & Hon).
  rewrite Hw1.
  split; intros Hpc.
  - rewrite (Hmem Hpc).
    destruct (decide (EARLYSUSPEND_MEM = EARLYSUSPEND_ON)); [discriminate|].
    destruct (decide (EARLYSUSPEND_MEM = EARLYSUSPEND_MEM)); [|contradiction].
    split; [reflexivity | eauto].
  - rewrite (Hon Hpc).
    destruct (decide (EARLYSUSPEND_ON = EARLYSUSPEND_MEM)); [discriminate|].
    destruct (decide (EARLYSUSPEND_ON = EARLYSUSPEND_ON)); [|contradiction].
    split; reflexivity.
Qed.

(** The framebuffer goes to sleep and the enable that waited returns. *)
Lemma monitor_releases_the_waiting_call_witness :
  let w := set_wait_for_earlysuspend true
             (set_autosuspend_ops (Some EarlySuspend) boot) in
  let k := wakeup_count_kernel in
  autosuspend_earlysuspend_enable k w = None
  ∧ ∃ w1 t t',
      earlysuspend_thread_step k InFbSleepWait w = Some (InFbWakeWait, w1, t)
      ∧ autosuspend_earlysuspend_enable k w1
        = Some (0, set_sleep_state (sleep_state_in k w1) w1, t').
Proof.
  intros w k. split; [vm_compute; reflexivity|].
  destruct (earlysuspend_thread_step k InFbSleepWait w) as [[[pc1 w1] t]|] eqn:Hstep;
    [|vm_compute in Hstep; discriminate].
  assert (Hpc : pc1 = InFbWakeWait).
  { vm_compute in Hstep. injection Hstep as <- _ _. reflexivity. }
  subst pc1.
  assert (Hwrite : write_ok k SYS_POWER_STATE (sleep_state_in k w1) = true)
    by reflexivity.
  destruct (monitor_releases_the_waiting_call k k InFbSleepWait InFbWakeWait
              w w1 t eq_refl Hstep Hwrite) as [Hmem _].
  destruct (Hmem eq_refl) as (_ & t' & Hen).
  exists w1, t, t'. split; [reflexivity | exact Hen].
Defined.
